(** * quorum-tools: the docker builder, its parallel executor and the
      Tessera transaction manager

    A shallow embedding of [docker/builder.go] (the primary builder, with
    temp directory, labels and [Destroy]) and [docker/txmanager.go].

    Go code that talks to the container engine and to the file system is
    embedded as state passing over a [World]: an in-memory engine, a file
    system, the debug log and a count of the goroutines started.  A
    computation either returns or blocks forever ([Hang]).  A Go [error]
    is its message, [nil] is [None]. *)

From Stdlib Require Import String Ascii List ZArith Lia Permutation Bool Arith.
From Stdlib Require Import DecimalString Sorted.
Import ListNotations.
Open Scope string_scope.

(* ------------------------------------------------------------------ *)
(** ** Go values *)

Definition error := option string.

Definition is_err (e : error) : bool :=
  match e with Some _ => true | None => false end.

(** A Go result [(T, error)] whose value is only looked at when the error
    is [nil]. *)
Inductive result (A : Type) : Type :=
| Ok (a : A)
| Err (msg : string).

Arguments Ok {A} a.
Arguments Err {A} msg.

(** The newline character of ["\n"] in a Go string literal. *)
Definition nl : string := String (ascii_of_nat 10) EmptyString.

(** The double quote inside a Go string literal. *)
Definition dquote : string := String (ascii_of_nat 34) EmptyString.

(** [%d] of a non-negative [int]. *)
Definition itoa (n : nat) : string := NilZero.string_of_uint (Nat.to_uint n).

(** [%d] of an [int64]. *)
Definition ztoa (z : Z) : string := NilZero.string_of_int (Z.to_int z).

(** [strings.Join(elems, sep)]. *)
Definition strings_Join (elems : list string) (sep : string) : string :=
  String.concat sep elems.

Definition Labels := list (string * string).

(** [filters.Args]: the [(key, value)] pairs given to [Add]. *)
Definition Filters := list (string * string).

(* ------------------------------------------------------------------ *)
(** ** The container engine and the operating system, in memory *)

(** [container.Config] and [container.HostConfig], the fields the code sets. *)
Record ContainerConfig := mkContainerConfig {
  cc_Image      : string;
  cc_WorkingDir : string;
  cc_Entrypoint : list string;
  cc_Binds      : list string;
  cc_Labels     : Labels
}.

(** [types.Container], as [ContainerList] answers it. *)
Record types_Container := mkContainer {
  ID      : string;
  Names   : list string;
  c_Labels : Labels;
  c_Config : ContainerConfig;
  c_Running : bool
}.

(** [types.NetworkResource]. *)
Record types_NetworkResource := mkNetworkResource {
  n_ID     : string;
  n_Name   : string;
  n_Labels : Labels
}.

(** Every call that leaves the process, with the arguments that matter. *)
Inductive Call : Type :=
| CallTempDir (dir pattern : string)
| CallRemoveAll (path : string)
| CallContainerCreate (cfg : ContainerConfig)
| CallContainerStart (id : string)
| CallContainerWait (id : string)
| CallContainerRemove (id : string) (force : bool)
| CallContainerList (f : Filters) (all : bool)
| CallNetworkCreate (name : string) (labels : Labels)
| CallNetworkList (f : Filters)
| CallNetworkRemove (id : string)
| CallImageList (f : Filters)
| CallImagePull (ref : string).

(** The environment of the process.  [e_calls] is the trace of calls, most
    recent first.  [e_faults] says which calls the engine (or the OS)
    rejects, and with what message. *)
Record Env := mkEnv {
  e_calls      : list Call;
  e_containers : list types_Container;
  e_networks   : list types_NetworkResource;
  e_images     : list string;
  e_dirs       : list string;
  e_files      : list (string * string);
  e_fresh      : nat;
  e_now        : Z;
  e_subnet     : Z * Z;
  e_faults     : Call -> option string
}.

Definition called (c : Call) (e : Env) : Env :=
  mkEnv (c :: e_calls e) (e_containers e) (e_networks e) (e_images e)
        (e_dirs e) (e_files e) (e_fresh e) (e_now e) (e_subnet e) (e_faults e).

Definition with_containers (cs : list types_Container) (e : Env) : Env :=
  mkEnv (e_calls e) cs (e_networks e) (e_images e)
        (e_dirs e) (e_files e) (e_fresh e) (e_now e) (e_subnet e) (e_faults e).

Definition with_networks (ns : list types_NetworkResource) (e : Env) : Env :=
  mkEnv (e_calls e) (e_containers e) ns (e_images e)
        (e_dirs e) (e_files e) (e_fresh e) (e_now e) (e_subnet e) (e_faults e).

Definition with_images (imgs : list string) (e : Env) : Env :=
  mkEnv (e_calls e) (e_containers e) (e_networks e) imgs
        (e_dirs e) (e_files e) (e_fresh e) (e_now e) (e_subnet e) (e_faults e).

Definition with_fs (ds : list string) (fs : list (string * string)) (e : Env) : Env :=
  mkEnv (e_calls e) (e_containers e) (e_networks e) (e_images e)
        ds fs (e_fresh e) (e_now e) (e_subnet e) (e_faults e).

Definition bump_fresh (e : Env) : Env :=
  mkEnv (e_calls e) (e_containers e) (e_networks e) (e_images e)
        (e_dirs e) (e_files e) (S (e_fresh e)) (e_now e) (e_subnet e) (e_faults e).

Definition with_faults (f : Call -> option string) (e : Env) : Env :=
  mkEnv (e_calls e) (e_containers e) (e_networks e) (e_images e)
        (e_dirs e) (e_files e) (e_fresh e) (e_now e) (e_subnet e) f.

(** One line of [log.Debug(msg, ctx...)]. *)
Definition LogLine := (string * list string)%type.

(** [w_log] is most recent first; [w_goroutines] counts every [go]
    statement executed so far. *)
Record World := mkWorld {
  w_log        : list LogLine;
  w_goroutines : nat;
  w_env        : Env
}.

(* ------------------------------------------------------------------ *)
(** ** Computations that return or block *)

(** [Hang w]: the call never returns to its caller; [w] is the world it
    leaves behind.  In the code embedded here that is a goroutine blocked
    forever on a channel, and the dereference of a [nil] [*Network], which
    [Build] never reaches. *)
Inductive Outcome (A : Type) : Type :=
| Ret (a : A) (w : World)
| Hang (w : World).

Arguments Ret {A} a w.
Arguments Hang {A} w.

Definition M (A : Type) : Type := World -> Outcome A.

Definition ret {A} (a : A) : M A := fun w => Ret a w.

Definition bind {A B} (m : M A) (k : A -> M B) : M B :=
  fun w => match m w with
           | Ret a w' => k a w'
           | Hang w' => Hang w'
           end.

Declare Scope go_scope.
Delimit Scope go_scope with go.
Notation "x <- m ;; k" := (bind m (fun x => k))
  (at level 100, m at next level, right associativity) : go_scope.
Notation "' p <- m ;; k" := (bind m (fun x => let p := x in k))
  (at level 100, p pattern, m at next level, right associativity) : go_scope.
Notation "m ;;; k" := (bind m (fun _ => k))
  (at level 100, right associativity) : go_scope.
Open Scope go_scope.

(** The world an outcome ends in. *)
Definition final {A} (o : Outcome A) : World :=
  match o with Ret _ w => w | Hang w => w end.

(** A call into the environment. *)
Definition lift {A} (f : Env -> A * Env) : M A :=
  fun w => let (a, e) := f (w_env w) in
           Ret a (mkWorld (w_log w) (w_goroutines w) e).

(** [log.Debug(msg, ctx...)]. *)
Definition log_Debug (msg : string) (ctx : list string) : M unit :=
  fun w => Ret tt (mkWorld ((msg, ctx) :: w_log w) (w_goroutines w) (w_env w)).

(** [n] executions of a [go] statement. *)
Definition go_started (n : nat) : M unit :=
  fun w => Ret tt (mkWorld (w_log w) (n + w_goroutines w) (w_env w)).

(** A receive-only channel, by what will ever arrive on it first:
    [Some v], or nothing at all. *)
Definition Chan (A : Type) : Type := option A.

(** [v := <-ch] when it is the only thing the goroutine waits for. *)
Definition recv {A} (ch : Chan A) : M A :=
  fun w => match ch with
           | Some v => Ret v w
           | None => Hang w
           end.

(** [defer d] followed by [body]: [d] runs when [body] returns, its result
    is dropped; it never runs when [body] blocks. *)
Definition defer {A B} (d : M B) (body : M A) : M A :=
  r <- body ;; d ;;; ret r.

(* ------------------------------------------------------------------ *)
(** ** Scheduling *)

(** The Go scheduler decides in which order the goroutines of one fan-out
    run and in which order the collecting loop receives what they send.  A
    schedule is a list of picks: each pick [k] selects, among the [n]
    goroutines still waiting, the one at position [k mod n].  Every list of
    picks is a schedule, and every order is the result of one. *)
Record Schedule := mkSchedule {
  run_picks  : list nat;
  recv_picks : list nat
}.

Fixpoint pluck {X} (k : nat) (l : list X) {struct l} : option (X * list X) :=
  match l with
  | [] => None
  | x :: r =>
      match k with
      | 0 => Some (x, r)
      | S k' =>
          match pluck k' r with
          | Some (y, r') => Some (y, x :: r')
          | None => None
          end
      end
  end.

Fixpoint shuffle_fuel {X} (fuel : nat) (picks : list nat) (l : list X) : list X :=
  match fuel with
  | 0 => []
  | S fuel' =>
      match pluck (hd 0 picks mod length l) l with
      | Some (x, r) => x :: shuffle_fuel fuel' (tl picks) r
      | None => []
      end
  end.

Definition shuffle {X} (picks : list nat) (l : list X) : list X :=
  shuffle_fuel (length l) picks l.

(* ------------------------------------------------------------------ *)
(** ** builder.go: [doWorkInParallel] *)

(** What a worker goroutine sends: a value on [doneChan] or an error on
    [errChan]. *)
Inductive Msg : Type :=
| OnDone
| OnErr (err : string).

(** [for idx, el := range elements]: each element with its index. *)
Definition indexed {A} (elements : list A) : list (nat * A) :=
  combine (seq 0 (length elements)) elements.

(** The body of the goroutine [go func(_idx int, _el interface{})]: it runs
    the callback and then offers one message; a callback that blocks offers
    nothing. *)
Definition worker {A} (callback : nat -> A -> M error) (g : nat * A)
  : World -> option Msg * World :=
  fun w =>
    match callback (fst g) (snd g) w with
    | Ret (Some err) w' => (Some (OnErr err), w')
    | Ret None w' => (Some OnDone, w')
    | Hang w' => (None, w')
    end.

(** The goroutines run in the order [gs]; the result is what they offer, in
    that order, and the world they leave. *)
Fixpoint run_workers {A} (callback : nat -> A -> M error) (gs : list (nat * A))
  (w : World) : list Msg * World :=
  match gs with
  | [] => ([], w)
  | g :: rest =>
      let (m, w1) := worker callback g w in
      let (ms, w2) := run_workers callback rest w1 in
      (match m with Some x => x :: ms | None => ms end, w2)
  end.

(** The collecting loop
    [for { select {...}; if len(allErr)+doneCount >= len(elements) { break } }]
    over the messages in the order they are received.  The test comes after
    the receive; with nobody left to send, the [select] blocks forever
    ([None]). *)
Fixpoint select_loop (arrivals : list Msg) (total doneCount : nat)
  (allErr : list string) : option (nat * list string) :=
  match arrivals with
  | [] => None
  | m :: rest =>
      let '(doneCount', allErr') :=
        match m with
        | OnDone => (S doneCount, allErr)
        | OnErr err => (doneCount, (allErr ++ [err])%list)
        end in
      if (total <=? length allErr' + doneCount')%nat
      then Some (doneCount', allErr')
      else select_loop rest total doneCount' allErr'
  end.

(** [fmt.Errorf("%s: %d/%d\n%s", title, doneCount, len(elements),
    strings.Join(allErr, "\n"))]. *)
Definition aggregate (title : string) (doneCount total : nat)
  (allErr : list string) : string :=
  title ++ ": " ++ itoa doneCount ++ "/" ++ itoa total ++ nl
        ++ strings_Join allErr nl.

Definition doWorkInParallel {A} (s : Schedule) (title : string)
  (elements : list A) (callback : nat -> A -> M error) : M error :=
  log_Debug title [] ;;;
  if (length elements =? 0)%nat then ret None
  else
    go_started (length elements) ;;;
    fun w =>
      let (sending, w1) :=
        run_workers callback (shuffle (run_picks s) (indexed elements)) w in
      match select_loop (shuffle (recv_picks s) sending) (length elements) 0 [] with
      | None => Hang w1
      | Some (doneCount, allErr) =>
          if (0 <? length allErr)%nat
          then Ret (Some (aggregate title doneCount (length elements) allErr)) w1
          else Ret None w1
      end.

(** The messages of the answers that are errors. *)
Definition failures (rs : list error) : list string :=
  flat_map (fun r => match r with Some err => [err] | None => [] end) rs.

Definition msg_of (r : error) : Msg :=
  match r with Some err => OnErr err | None => OnDone end.

Definition errs_of (ms : list Msg) : list string :=
  flat_map (fun m => match m with OnErr err => [err] | OnDone => [] end) ms.

Definition dones_of (ms : list Msg) : nat :=
  length (filter (fun m => match m with OnDone => true | OnErr _ => false end) ms).

(** An account of a fan-out: for each goroutine, in the order in which the
    scheduler ran them, the item with its index, the world its callback
    started in, and what the callback answered; [None] for a callback that
    blocked. *)
Record Run (A : Type) := mkRun {
  run_unit   : nat * A;
  run_world  : World;
  run_result : option error
}.

Arguments mkRun {A} run_unit run_world run_result.
Arguments run_unit {A} r.
Arguments run_world {A} r.
Arguments run_result {A} r.

(** [account callback w runs w']: run one after the other from the world
    [w], the callbacks do what [runs] says and leave the world [w']. *)
Fixpoint account {A} (callback : nat -> A -> M error) (w : World)
  (runs : list (Run A)) (w' : World) : Prop :=
  match runs with
  | [] => w' = w
  | r :: rest =>
      run_world r = w /\
      exists w1,
        callback (fst (run_unit r)) (snd (run_unit r)) w =
          match run_result r with
          | Some a => Ret a w1
          | None => Hang w1
          end /\
        account callback w1 rest w'
  end.

Definition answers_of {A} (runs : list (Run A)) : list error :=
  flat_map (fun r => match run_result r with Some a => [a] | None => [] end) runs.

Definition all_returned {A} (runs : list (Run A)) : bool :=
  forallb (fun r => match run_result r with Some _ => true | None => false end) runs.

(** The world in which the first goroutine of a fan-out of [n] items runs:
    the title is logged and [n] goroutines are started. *)
Definition fanned_out (title : string) (n : nat) (w : World) : World :=
  mkWorld ((title, []) :: w_log w) (n + w_goroutines w) (w_env w).

(* ------------------------------------------------------------------ *)
(** ** The build's network and its address pool *)

(** An IPv4 address is its 32-bit value. *)
Definition IP := Z.

(** [net.IP.String()]: dotted quad. *)
Definition IP_String (a : IP) : string :=
  ztoa (Z.land (Z.shiftr a 24) 255) ++ "." ++
  ztoa (Z.land (Z.shiftr a 16) 255) ++ "." ++
  ztoa (Z.land (Z.shiftr a 8) 255) ++ "." ++
  ztoa (Z.land a 255).

(** The netmask of a prefix length, and the network address under it. *)
Definition netmask (prefix : Z) : Z :=
  Z.shiftl (Z.ones prefix) (32 - prefix).

Definition network_address (a : IP) (prefix : Z) : IP :=
  Z.land a (netmask prefix).

(** Modelled from the spec: the [Network] type of the docker package is not
    among the sources.  The spec gives it an engine-assigned id, a name, a
    label set and an address pool; the pool is kept here as the subnet, its
    gateway and the addresses leased so far. *)
Record Network := mkNetwork {
  net_id      : string;
  net_name    : string;
  net_labels  : Labels;
  net_subnet  : IP;
  net_prefix  : Z;
  net_gateway : IP;
  net_leased  : list IP
}.

(** The host addresses of the subnet, in increasing order: everything
    strictly between the network address and the broadcast address. *)
Definition host_addresses (n : Network) : list IP :=
  map (fun i => net_subnet n + 1 + Z.of_nat i)%Z
      (seq 0 (Z.to_nat (2 ^ (32 - net_prefix n) - 2))).

Definition mem_ip (a : IP) (l : list IP) : bool := existsb (Z.eqb a) l.

(** The addresses that can still be leased: hosts that are neither the
    gateway nor leased before. *)
Definition usable (n : Network) : list IP :=
  filter (fun a => negb (a =? net_gateway n)%Z && negb (mem_ip a (net_leased n)))
         (host_addresses n).

(** Modelled from the spec: [Network.GetFreeIPAddrs] (the spec's
    [LeaseAddresses]) is not among the sources.  It answers the [k] lowest
    usable addresses in increasing order and records them as leased; with
    fewer than [k] left it fails and leases nothing. *)
Definition GetFreeIPAddrs (k : nat) (n : Network) : result (list IP) * Network :=
  let free := usable n in
  if (length free <? k)%nat
  then (Err "address pool exhausted", n)
  else
    let ips := firstn k free in
    (Ok ips,
     mkNetwork (net_id n) (net_name n) (net_labels n) (net_subnet n)
               (net_prefix n) (net_gateway n) (net_leased n ++ ips)%list).

(** The addresses of a lease; none when it failed. *)
Definition leased_by (r : result (list IP)) : list IP :=
  match r with Ok ips => ips | Err _ => [] end.

(* ------------------------------------------------------------------ *)
(** ** Calls into the operating system *)

(** [time.Now().Unix()]. *)
Definition time_Now_Unix : Env -> Z * Env := fun e => (e_now e, e).

(** [filepath.Join(dir, name)] of two clean, non-empty elements. *)
Definition filepath_Join (dir name : string) : string := dir ++ "/" ++ name.

(** [ioutil.TempDir(dir, pattern)]: a new directory whose name starts with
    [pattern], under [dir] or, when [dir] is empty, under the default
    directory for temporary files. *)
Definition ioutil_TempDir (dir pattern : string) : Env -> result string * Env :=
  fun e =>
    let e1 := called (CallTempDir dir pattern) e in
    match e_faults e (CallTempDir dir pattern) with
    | Some err => (Err err, e1)
    | None =>
        let name := filepath_Join (if dir =? "" then "/tmp" else dir)
                                  (pattern ++ itoa (e_fresh e)) in
        (Ok name, bump_fresh (with_fs (name :: e_dirs e1) (e_files e1) e1))
    end.

(** [path] is [dir] or lies below it. *)
Definition under (dir path : string) : bool :=
  (path =? dir) || prefix (dir ++ "/") path.

(** [os.RemoveAll(path)]; the empty path removes nothing. *)
Definition os_RemoveAll (path : string) : Env -> error * Env :=
  fun e =>
    let e1 := called (CallRemoveAll path) e in
    match e_faults e (CallRemoveAll path) with
    | Some err => (Some err, e1)
    | None =>
        if path =? "" then (None, e1)
        else (None,
              with_fs (filter (fun d => negb (under path d)) (e_dirs e1))
                      (filter (fun f => negb (under path (fst f))) (e_files e1))
                      e1)
    end.

Fixpoint lookup_file (path : string) (fs : list (string * string)) : option string :=
  match fs with
  | [] => None
  | (p, content) :: rest => if p =? path then Some content else lookup_file path rest
  end.

(** [ioutil.ReadFile(path)]: the bytes, or [nil] and an error. *)
Definition ioutil_ReadFile (path : string) : Env -> (option string * error) * Env :=
  fun e =>
    match lookup_file path (e_files e) with
    | Some content => ((Some content, None), e)
    | None => ((None, Some ("open " ++ path ++ ": no such file or directory")), e)
    end.

(* ------------------------------------------------------------------ *)
(** ** The container engine *)

(** The engine is not part of the repository: the code reaches it through
    the docker client.  What follows is an in-memory engine behind the
    calls the code makes.  A call the fault plan rejects fails with the
    plan's message and changes nothing but the trace; an accepted call does
    what its name says. *)

(** The entrypoint of the key-generation container (txmanager.go). *)
Definition keygen_Entrypoint : list string :=
  ["/bin/sh"; "-c";
   "echo " ++ dquote ++ nl ++ dquote ++ " | java -jar /tessera/tessera-app.jar -keygen"].

Definition string_list_eqb (a b : list string) : bool :=
  if list_eq_dec string_dec a b then true else false.

(** The host side of a bind ["host:container"]. *)
Definition bind_host (b : string) : string :=
  match index 0 ":" b with
  | Some i => substring 0 i b
  | None => b
  end.

Definition has_id (id : string) (c : types_Container) : bool := ID c =? id.

Definition find_container (id : string) (e : Env) : option types_Container :=
  find (has_id id) (e_containers e).

(** Identifiers the engine hands out. *)
Definition container_id (n : nat) : string := "c0ffee" ++ itoa n.
Definition network_id (n : nat) : string := "7e7e7e" ++ itoa n.

(** [client.ContainerCreate]: the new container's id. *)
Definition ContainerCreate (cfg : ContainerConfig) : Env -> result string * Env :=
  fun e =>
    let e1 := called (CallContainerCreate cfg) e in
    match e_faults e (CallContainerCreate cfg) with
    | Some err => (Err err, e1)
    | None =>
        let id := container_id (e_fresh e) in
        (Ok id,
         bump_fresh
           (with_containers
              (mkContainer id [] (cc_Labels cfg) cfg false :: e_containers e1) e1))
    end.

(** What a started key-generation container leaves in its bind-mounted
    working directory: the two key files. *)
Definition keygen_files (c : types_Container) : list (string * string) :=
  if string_list_eqb (cc_Entrypoint (c_Config c)) keygen_Entrypoint
  then flat_map (fun b => [(filepath_Join (bind_host b) ".pub", "pub:" ++ ID c);
                           (filepath_Join (bind_host b) ".key", "key:" ++ ID c)])
                (cc_Binds (c_Config c))
  else [].

Definition set_running (id : string) (r : bool) (c : types_Container) : types_Container :=
  if has_id id c then mkContainer (ID c) (Names c) (c_Labels c) (c_Config c) r else c.

(** [client.ContainerStart]. *)
Definition ContainerStart (id : string) : Env -> error * Env :=
  fun e =>
    let e1 := called (CallContainerStart id) e in
    match e_faults e (CallContainerStart id) with
    | Some err => (Some err, e1)
    | None =>
        match find_container id e with
        | None => (Some ("No such container: " ++ id), e1)
        | Some c =>
            (None,
             with_fs (e_dirs e1) (keygen_files c ++ e_files e1)%list
               (with_containers (map (set_running id true) (e_containers e1)) e1))
        end
    end.

(** [client.ContainerWait(ctx, id, WaitConditionNotRunning)]: the status
    channel and the error channel.  The engine answers on exactly one of
    them: the exit status when the container has stopped, or an error. *)
Definition ContainerWait (id : string) : Env -> (Chan Z * Chan string) * Env :=
  fun e =>
    let e1 := called (CallContainerWait id) e in
    match e_faults e (CallContainerWait id) with
    | Some err => ((None, Some err), e1)
    | None =>
        ((Some 0%Z, None),
         with_containers (map (set_running id false) (e_containers e1)) e1)
    end.

(** [client.ContainerRemove(ctx, id, ContainerRemoveOptions{Force: force})]. *)
Definition ContainerRemove (id : string) (force : bool) : Env -> error * Env :=
  fun e =>
    let e1 := called (CallContainerRemove id force) e in
    match e_faults e (CallContainerRemove id force) with
    | Some err => (Some err, e1)
    | None =>
        match find_container id e with
        | None => (Some ("No such container: " ++ id), e1)
        | Some c =>
            if c_Running c && negb force
            then (Some ("cannot remove a running container: " ++ id), e1)
            else (None,
                  with_containers
                    (filter (fun c => negb (has_id id c)) (e_containers e1)) e1)
        end
    end.

(** A label filter ["k=v"] holds of a label set that maps [k] to [v];
    other keys of the filter do not concern labels. *)
Definition label_match (f : Filters) (labels : Labels) : bool :=
  forallb (fun kv =>
             if fst kv =? "label"
             then existsb (fun l => (fst l ++ "=" ++ snd l) =? snd kv) labels
             else true) f.

(** [client.ContainerList(ctx, ContainerListOptions{Filters: f, All: all})]. *)
Definition ContainerList (f : Filters) (all : bool)
  : Env -> (list types_Container * error) * Env :=
  fun e =>
    let e1 := called (CallContainerList f all) e in
    match e_faults e (CallContainerList f all) with
    | Some err => (([], Some err), e1)
    | None =>
        ((filter (fun c => label_match f (c_Labels c) && (all || c_Running c))
                 (e_containers e), None), e1)
    end.

(** [client.NetworkCreate] with labels: the new network's id. *)
Definition NetworkCreate (name : string) (labels : Labels) : Env -> result string * Env :=
  fun e =>
    let e1 := called (CallNetworkCreate name labels) e in
    match e_faults e (CallNetworkCreate name labels) with
    | Some err => (Err err, e1)
    | None =>
        if existsb (fun n => n_Name n =? name) (e_networks e)
        then (Err ("network with name " ++ name ++ " already exists"), e1)
        else
          let id := network_id (e_fresh e) in
          (Ok id,
           bump_fresh
             (with_networks (mkNetworkResource id name labels :: e_networks e1) e1))
    end.

(** [client.NetworkList(ctx, NetworkListOptions{Filters: f})]. *)
Definition NetworkList (f : Filters)
  : Env -> (list types_NetworkResource * error) * Env :=
  fun e =>
    let e1 := called (CallNetworkList f) e in
    match e_faults e (CallNetworkList f) with
    | Some err => (([], Some err), e1)
    | None => ((filter (fun n => label_match f (n_Labels n)) (e_networks e), None), e1)
    end.

(** [client.NetworkRemove(ctx, id)]. *)
Definition NetworkRemove (id : string) : Env -> error * Env :=
  fun e =>
    let e1 := called (CallNetworkRemove id) e in
    match e_faults e (CallNetworkRemove id) with
    | Some err => (Some err, e1)
    | None =>
        if existsb (fun n => n_ID n =? id) (e_networks e)
        then (None,
              with_networks (filter (fun n => negb (n_ID n =? id)) (e_networks e1)) e1)
        else (Some ("No such network: " ++ id), e1)
    end.

(** A reference filter holds of the image with that reference. *)
Definition reference_match (f : Filters) (image : string) : bool :=
  forallb (fun kv => if fst kv =? "reference" then snd kv =? image else true) f.

(** [client.ImageList(ctx, ImageListOptions{Filters: f})]. *)
Definition ImageList (f : Filters) : Env -> (list string * error) * Env :=
  fun e =>
    let e1 := called (CallImageList f) e in
    match e_faults e (CallImageList f) with
    | Some err => (([], Some err), e1)
    | None => ((filter (reference_match f) (e_images e), None), e1)
    end.

(** [client.ImagePull(ctx, ref, ImagePullOptions{})]; the reader it returns
    is dropped by the caller.  A pull the engine accepts makes the image
    available. *)
Definition ImagePull (ref : string) : Env -> error * Env :=
  fun e =>
    let e1 := called (CallImagePull ref) e in
    match e_faults e (CallImagePull ref) with
    | Some err => (Some err, e1)
    | None =>
        (None,
         if existsb (String.eqb ref) (e_images e) then e1
         else with_images (ref :: e_images e1) e1)
    end.

(** Modelled from the spec: [NewDockerNetwork] is not among the sources.
    It creates an isolated, labeled network on the engine and fails when the
    engine rejects it; the engine assigns the subnet, whose first host is
    the gateway. *)
Definition NewDockerNetwork (name : string) (labels : Labels)
  : Env -> result Network * Env :=
  fun e =>
    match NetworkCreate name labels e with
    | (Err err, e1) => (Err err, e1)
    | (Ok id, e1) =>
        let prefix := snd (e_subnet e) in
        let base := network_address (fst (e_subnet e)) prefix in
        (Ok (mkNetwork id name labels base prefix (base + 1)%Z []), e1)
    end.

(* ------------------------------------------------------------------ *)
(** ** Configurable containers *)

Inductive CfgValue : Type :=
| CfgString (s : string)
| CfgInt (n : Z)
| CfgMap (m : list (string * string))
| CfgBytes (b : list (option string))
| CfgNetwork (n : option Network)
| CfgClient.

(** Modelled from the spec: [DefaultConfigurable] and the [Configure...]
    option setters are not among the sources.  The spec describes a generic
    key/value configuration carrier with composable option setters, each
    setting its own key. *)
Definition DefaultConfigurable := list (string * CfgValue).

Definition cfg_Set (key : string) (v : CfgValue) (c : DefaultConfigurable)
  : DefaultConfigurable :=
  (key, v) :: filter (fun kv => negb (fst kv =? key)) c.

Fixpoint cfg_Get (key : string) (c : DefaultConfigurable) : option CfgValue :=
  match c with
  | [] => None
  | (k, v) :: rest => if k =? key then Some v else cfg_Get key rest
  end.

Definition ConfigureFn := DefaultConfigurable -> DefaultConfigurable.

Definition CfgKeyTxManagerPublicKeys : string := "TxManagerPublicKeys".
Definition CfgKeyTxManagerPrivateKeys : string := "TxManagerPrivateKeys".

Definition ConfigureTempDir (d : string) : ConfigureFn := cfg_Set "TempDir" (CfgString d).
Definition ConfigureNodeCount (n : nat) : ConfigureFn := cfg_Set "NodeCount" (CfgInt (Z.of_nat n)).
Definition ConfigureMyIP (ip : string) : ConfigureFn := cfg_Set "MyIP" (CfgString ip).
Definition ConfigureNodeIndex (idx : nat) : ConfigureFn := cfg_Set "NodeIndex" (CfgInt (Z.of_nat idx)).
Definition ConfigureProvisionId (id : string) : ConfigureFn := cfg_Set "ProvisionId" (CfgString id).
Definition ConfigureDockerClient : ConfigureFn := cfg_Set "DockerClient" CfgClient.
Definition ConfigureNetwork (n : option Network) : ConfigureFn := cfg_Set "Network" (CfgNetwork n).
Definition ConfigureDockerImage (image : string) : ConfigureFn := cfg_Set "DockerImage" (CfgString image).
Definition ConfigureConfig (m : list (string * string)) : ConfigureFn := cfg_Set "Config" (CfgMap m).
Definition ConfigureLabels (l : Labels) : ConfigureFn := cfg_Set "Labels" (CfgMap l).
Definition ConfigureDefaultAccount (a : string) : ConfigureFn := cfg_Set "DefaultAccount" (CfgString a).
Definition ConfigureGenesis (g : string) : ConfigureFn := cfg_Set "Genesis" (CfgString g).
Definition ConfigureDataDir (d : string) : ConfigureFn := cfg_Set "DataDir" (CfgString d).

(** [DockerImage()]. *)
Definition DockerImage (c : DefaultConfigurable) : string :=
  match cfg_Get "DockerImage" c with
  | Some (CfgString s) => s
  | _ => ""
  end.

(* ------------------------------------------------------------------ *)
(** ** txmanager.go *)

(** [type TesseraTxManager struct { *DefaultConfigurable }]. *)
Record TesseraTxManager := mkTessera { tm_config : DefaultConfigurable }.

(** [func (t *TesseraTxManager) Start() error { return nil }]. *)
Definition TesseraTxManager_Start (t : TesseraTxManager) : M error := ret None.

(** [func (t *TesseraTxManager) Stop() error { return nil }]. *)
Definition TesseraTxManager_Stop (t : TesseraTxManager) : M error := ret None.

(** How a [select] case ends: with a [return] of the enclosing function, or
    by falling out of the [select]. *)
Inductive Flow (R : Type) : Type :=
| Return (r : R)
| FallOut.

Arguments Return {R} r.
Arguments FallOut {R}.

(** [select { case v := <-ch: body }], a [select] with this one case and no
    [default]: it waits until [ch] delivers. *)
Definition select_one {A R} (ch : Chan A) (body : A -> M (Flow R)) : M (Flow R) :=
  v <- recv ch ;; body v.

(** The results [(public, private, retErr)]; a [nil] slice is [None]. *)
Definition Keys := (option string * option string * error)%type.

Definition keygen_Config (image containerWorkingDir tmpDataDir : string) : ContainerConfig :=
  mkContainerConfig image containerWorkingDir keygen_Entrypoint
                    [tmpDataDir ++ ":" ++ containerWorkingDir] [].

Definition GenerateKeys (t : TesseraTxManager) : M Keys :=
  now <- lift time_Now_Unix ;;
  r <- lift (ioutil_TempDir "" ("qctl-" ++ ztoa now)) ;;
  match r with
  | Err err => ret (None, None, Some ("GenerateKeys: can't create tmp dir - " ++ err))
  | Ok tmpDataDir =>
  let containerWorkingDir := "/tm" in
  resp <- lift (ContainerCreate
                  (keygen_Config (DockerImage (tm_config t)) containerWorkingDir tmpDataDir)) ;;
  match resp with
  | Err err => ret (None, None, Some ("GenerateKeys: can't create container - " ++ err))
  | Ok containerId =>
  err <- lift (ContainerStart containerId) ;;
  match err with
  | Some err =>
      ret (None, None,
           Some ("GenerateKeys: can't start container " ++ containerId ++ " - " ++ err))
  | None =>
  defer (lift (ContainerRemove containerId true))
    (chans <- lift (ContainerWait containerId) ;;
     let errChan := snd chans in
     fl <- select_one errChan (fun err =>
             ret (Return (None, None,
                          Some ("GenerateKeys: container " ++ containerId
                                ++ " is not running - " ++ err)))) ;;
     match fl with
     | Return r => ret r
     | FallOut =>
         (* now read key files generated by the above run *)
         pub <- lift (ioutil_ReadFile (filepath_Join tmpDataDir ".pub")) ;;
         let '(public, retErr) := pub in
         match retErr with
         | Some _ => ret (None, None, retErr)
         | None =>
             key <- lift (ioutil_ReadFile (filepath_Join tmpDataDir ".key")) ;;
             let '(private, retErr) := key in
             ret (public, private, retErr)
         end
     end)
  end end end.

(** [NewTesseraTxManager(configureFns...)]. *)
Definition NewTesseraTxManager (configureFns : list ConfigureFn)
  : M (result TesseraTxManager) :=
  let tm := mkTessera (fold_left (fun c cfgFn => cfgFn c) configureFns []) in
  keys <- GenerateKeys tm ;;
  let '(public, private, err) := keys in
  match err with
  | Some err => ret (Err err)
  | None =>
      ret (Ok (mkTessera
                 (cfg_Set CfgKeyTxManagerPrivateKeys (CfgBytes [private])
                    (cfg_Set CfgKeyTxManagerPublicKeys (CfgBytes [public])
                       (tm_config tm)))))
  end.

(* ------------------------------------------------------------------ *)
(** ** builder.go: the data *)

Record QuorumBuilderConsensus := mkConsensus {
  cons_Name   : string;
  cons_Config : list (string * string)
}.

Record QuorumBuilderNodeDocker := mkNodeDocker {
  Image  : string;
  Config : list (string * string)
}.

Record QuorumBuilderNode := mkNode {
  Quorum    : QuorumBuilderNodeDocker;
  TxManager : QuorumBuilderNodeDocker
}.

(** [dockerClient] is the engine of the [World]; [pullMux] is embedded by
    running the section it guards as one step. *)
Record QuorumBuilder := mkBuilder {
  Name          : string;
  Genesis       : string;
  Consensus     : QuorumBuilderConsensus;
  Nodes         : list QuorumBuilderNode;
  commonLabels  : Labels;
  dockerNetwork : option Network;
  tmpDir        : string
}.

Definition set_tmpDir (t : string) (qb : QuorumBuilder) : QuorumBuilder :=
  mkBuilder (Name qb) (Genesis qb) (Consensus qb) (Nodes qb) (commonLabels qb)
            (dockerNetwork qb) t.

Definition set_dockerNetwork (n : option Network) (qb : QuorumBuilder) : QuorumBuilder :=
  mkBuilder (Name qb) (Genesis qb) (Consensus qb) (Nodes qb) (commonLabels qb)
            n (tmpDir qb).

(** [NewQuorumBuilder] once the YAML is read: the label every resource of
    the build carries. *)
Definition NewQuorumBuilder (name genesis : string) (consensus : QuorumBuilderConsensus)
  (nodes : list QuorumBuilderNode) : QuorumBuilder :=
  mkBuilder name genesis consensus nodes
            [("com.quorum.quorum-tools.id", name)] None "".

(** [bootstrap.Node], the fields the builder reads. *)
Record bootstrap_Node := mkBootstrapNode {
  DefaultAccount : string;
  DataDir        : string
}.

(** The ledger-node container; its code is not among the sources. *)
Record QuorumContainer := mkQuorum { q_config : DefaultConfigurable }.

(** What the builder calls and the sources do not contain: the bootstrap
    package, [NewQuorum], the ledger node's [Start] and the constant
    [defaultQuorumP2PPort].  They act on the environment only. *)
Record Collaborators := mkCollaborators {
  defaultQuorumP2PPort : Z;
  bootstrap_NewNode :
    string -> string -> Z -> Env -> result bootstrap_Node * Env;
  bootstrap_WritePermissionedNodes :
    list bootstrap_Node -> Env -> error * Env;
  bootstrap_NewGenesis :
    list bootstrap_Node -> string -> list (string * string) -> Env -> result string * Env;
  NewQuorum : list ConfigureFn -> Env -> result QuorumContainer * Env;
  Quorum_Start : QuorumContainer -> Env -> error * Env
}.

(** [type Container interface { Start() error; Stop() error }] and its two
    implementations. *)
Inductive Container : Type :=
| AsTessera (t : TesseraTxManager)
| AsQuorum (q : QuorumContainer).

Definition result_map {A B} (f : A -> B) (r : result A) : result B :=
  match r with Ok a => Ok (f a) | Err e => Err e end.

(* ------------------------------------------------------------------ *)
(** ** builder.go: the pipeline *)

Section Builder.

Variable co : Collaborators.

Definition Container_Start (c : Container) : M error :=
  match c with
  | AsTessera t => TesseraTxManager_Start t
  | AsQuorum q => lift (Quorum_Start co q)
  end.

(** The body runs between [qb.pullMux.Lock()] and the deferred [Unlock()]:
    no other [pullImage] of the same builder runs in between. *)
Definition pullImage (qb : QuorumBuilder) (image : string) : M error :=
  log_Debug "Pull Docker Image" ["name"; image] ;;;
  r <- lift (ImageList [("reference", image)]) ;;
  let '(images, err) := r in
  if (length images =? 0)%nat || is_err err then
    err <- lift (ImagePull image) ;;
    match err with
    | Some err => ret (Some ("pullImage: " ++ image ++ " - " ++ err))
    | None => ret None
    end
  else ret None.

Definition startContainers (s : Schedule) (qb : QuorumBuilder)
  (containerFn : nat -> QuorumBuilderNode -> M (result Container)) : M error :=
  doWorkInParallel s "starting containers" (Nodes qb)
    (fun idx node =>
       c <- containerFn idx node ;;
       match c with
       | Err err => ret (Some err)
       | Ok c =>
           log_Debug "Start Container" ["idx"; itoa idx] ;;;
           Container_Start c
       end).

(** [qb.dockerNetwork.GetFreeIPAddrs(n)] through the pointer: the lease is
    recorded in the builder's network. *)
Definition lease (n : nat) (qb : QuorumBuilder) : M (QuorumBuilder * result (list IP)) :=
  match dockerNetwork qb with
  | None => Hang
  | Some net =>
      let (r, net') := GetFreeIPAddrs n net in
      ret (set_dockerNetwork (Some net') qb, r)
  end.

Definition startTxManagers (s : Schedule) (qb : QuorumBuilder)
  : M (QuorumBuilder * error) :=
  log_Debug "Start Tx Managers" [] ;;;
  l <- lease (length (Nodes qb)) qb ;;
  let '(qb, r) := l in
  match r with
  | Err err => ret (qb, Some err)
  | Ok ips =>
      err <- startContainers s qb (fun idx node =>
               err <- pullImage qb (Image (TxManager node)) ;;
               match err with
               | Some err => ret (Err err)
               | None =>
                   tm <- NewTesseraTxManager
                           [ ConfigureTempDir (tmpDir qb);
                             ConfigureNodeCount (length (Nodes qb));
                             ConfigureMyIP (IP_String (nth idx ips 0%Z));
                             ConfigureNodeIndex idx;
                             ConfigureProvisionId (Name qb);
                             ConfigureDockerClient;
                             ConfigureNetwork (dockerNetwork qb);
                             ConfigureDockerImage (Image (TxManager node));
                             ConfigureConfig (Config (TxManager node));
                             ConfigureLabels (commonLabels qb) ] ;;
                   ret (result_map AsTessera tm)
               end) ;;
      ret (qb, err)
  end.

(** [for i := 0; i < nodeCount; i++ { nodes[i], err = bootstrap.NewNode(...) }],
    stopping at the first error. *)
Fixpoint new_nodes (dir : string) (ips : list IP) : Env -> result (list bootstrap_Node) * Env :=
  fun e =>
    match ips with
    | [] => (Ok [], e)
    | ip :: rest =>
        match bootstrap_NewNode co dir (IP_String ip) (defaultQuorumP2PPort co) e with
        | (Err err, e1) => (Err err, e1)
        | (Ok n, e1) =>
            match new_nodes dir rest e1 with
            | (Err err, e2) => (Err err, e2)
            | (Ok ns, e2) => (Ok (n :: ns), e2)
            end
        end
    end.

Definition no_node : bootstrap_Node := mkBootstrapNode "" "".

Definition startQuorums (s : Schedule) (qb : QuorumBuilder)
  : M (QuorumBuilder * error) :=
  log_Debug "Start Quorum nodes" [] ;;;
  let nodeCount := length (Nodes qb) in
  l <- lease nodeCount qb ;;
  let '(qb, r) := l in
  match r with
  | Err err => ret (qb, Some err)
  | Ok ips =>
  ns <- lift (new_nodes (tmpDir qb) ips) ;;
  match ns with
  | Err err => ret (qb, Some err)
  | Ok nodes =>
  err <- lift (bootstrap_WritePermissionedNodes co nodes) ;;
  match err with
  | Some err => ret (qb, Some err)
  | None =>
  g <- lift (bootstrap_NewGenesis co nodes (cons_Name (Consensus qb))
                                  (cons_Config (Consensus qb))) ;;
  match g with
  | Err err => ret (qb, Some err)
  | Ok genesis =>
      err <- startContainers s qb (fun idx node =>
               err <- pullImage qb (Image (Quorum node)) ;;
               match err with
               | Some err => ret (Err err)
               | None =>
                   q <- lift (NewQuorum co
                           [ ConfigureTempDir (tmpDir qb);
                             ConfigureDefaultAccount (DefaultAccount (nth idx nodes no_node));
                             ConfigureGenesis genesis;
                             ConfigureDataDir (DataDir (nth idx nodes no_node));
                             ConfigureNodeCount nodeCount;
                             ConfigureMyIP (IP_String (nth idx ips 0%Z));
                             ConfigureNodeIndex idx;
                             ConfigureProvisionId (Name qb);
                             ConfigureDockerClient;
                             ConfigureNetwork (dockerNetwork qb);
                             ConfigureDockerImage (Image (Quorum node));
                             ConfigureConfig (Config (Quorum node));
                             ConfigureLabels (commonLabels qb) ]) ;;
                   ret (result_map AsQuorum q)
               end) ;;
      ret (qb, err)
  end end end end.

Definition buildDockerNetwork (qb : QuorumBuilder) : M (QuorumBuilder * error) :=
  log_Debug "Create Docker network" ["name"; Name qb] ;;;
  r <- lift (NewDockerNetwork (Name qb) (commonLabels qb)) ;;
  match r with
  | Err err => ret (qb, Some err)
  | Ok network => ret (set_dockerNetwork (Some network) qb, None)
  end.

(** 1. Build Docker Network  2. Start Tx Manager  3. Start Quorum.
    The two schedules are those of the two fan-outs. *)
Definition Build (s_tx s_q : Schedule) (qb : QuorumBuilder) : M (QuorumBuilder * error) :=
  r <- lift (ioutil_TempDir "" (Name qb)) ;;
  match r with
  | Err err => ret (qb, Some err)
  | Ok t =>
  let qb := set_tmpDir t qb in
  r <- buildDockerNetwork qb ;;
  let '(qb, err) := r in
  match err with
  | Some err => ret (qb, Some err)
  | None =>
  r <- startTxManagers s_tx qb ;;
  let '(qb, err) := r in
  match err with
  | Some err => ret (qb, Some err)
  | None =>
  r <- startQuorums s_q qb ;;
  let '(qb, err) := r in
  match err with
  | Some err => ret (qb, Some err)
  | None => ret (qb, None)
  end end end end.

(** [filters.Add("label", fmt.Sprintf("%s=%s", k, v))] for every common label. *)
Definition label_filters (labels : Labels) : Filters :=
  map (fun kv => ("label", fst kv ++ "=" ++ snd kv)) labels.

(** The callbacks of the two removal passes; both ignore the index.
    [c.ID[:6]] is in range for the ids an engine hands out. *)
Definition remove_container (_ : nat) (c : types_Container) : M error :=
  log_Debug "removing container"
            ["id"; substring 0 6 (ID c); "name"; strings_Join (Names c) " "] ;;;
  lift (ContainerRemove (ID c) true).

Definition remove_network (_ : nat) (c : types_NetworkResource) : M error :=
  log_Debug "removing network" ["id"; substring 0 6 (n_ID c); "name"; n_Name c] ;;;
  lift (NetworkRemove (n_ID c)).

(** The two schedules are those of the two removal passes. *)
Definition Destroy (s_c s_n : Schedule) (qb : QuorumBuilder) : M error :=
  log_Debug "removing temp directory" [] ;;;
  lift (os_RemoveAll (tmpDir qb)) ;;;
  let filters := label_filters (commonLabels qb) in
  (* find all containers *)
  r <- lift (ContainerList filters true) ;;
  let '(containers, err) := r in
  match err with
  | Some err => ret (Some ("destroy: " ++ err))
  | None =>
  err <- doWorkInParallel s_c "removing containers" containers remove_container ;;
  match err with
  | Some err => ret (Some ("destroy: " ++ err))
  | None =>
  (* find networks *)
  r <- lift (NetworkList filters) ;;
  let '(networks, err) := r in
  match err with
  | Some err => ret (Some ("destroy: " ++ err))
  | None =>
  err <- doWorkInParallel s_n "removing network" networks remove_network ;;
  match err with
  | Some err => ret (Some ("destroy: " ++ err))
  | None => ret None
  end end end end.

End Builder.

(* ------------------------------------------------------------------ *)
(** ** builder.go: [pullImage], one action at a time *)

(** Where a call of [pullImage] stands: before [qb.pullMux.Lock()]; holding
    the mutex before [log.Debug], before [ImageList], before [ImagePull] or
    before the deferred [qb.pullMux.Unlock()], with the error it is about
    to return; or returned. *)
Inductive PullAt : Type :=
| AtLock
| AtDebug
| AtImageList
| AtImagePull
| AtUnlock (r : error)
| Returned (r : error).


(** The next action of a call of [pullImage] that stands at [a], with the
    mutex [locked] or not, and what it leaves.  [None]: the call does not
    move, because it waits in [Lock()] for the mutex another call holds, or
    because it has returned. *)
Definition pullImage_step (image : string) (a : PullAt) (locked : bool) (w : World)
  : option (PullAt * bool * World) :=
  match a with
  | AtLock => if locked then None else Some (AtDebug, true, w)
  | AtDebug =>
      Some (AtImageList, locked,
            mkWorld (("Pull Docker Image", ["name"; image]) :: w_log w)
                    (w_goroutines w) (w_env w))
  | AtImageList =>
      let '((images, err), e) := ImageList [("reference", image)] (w_env w) in
      Some (if (length images =? 0)%nat || is_err err then AtImagePull else AtUnlock None,
            locked, mkWorld (w_log w) (w_goroutines w) e)
  | AtImagePull =>
      let '(err, e) := ImagePull image (w_env w) in
      Some (AtUnlock (match err with
                      | Some err => Some ("pullImage: " ++ image ++ " - " ++ err)
                      | None => None
                      end),
            locked, mkWorld (w_log w) (w_goroutines w) e)
  | AtUnlock r => Some (Returned r, false, w)
  | Returned _ => None
  end.

(** Two goroutines of one builder, each in a call of [pullImage] for the
    same image, and the mutex and the world they share. *)
Record TwoPulls := mkTwoPulls {
  first_at    : PullAt;
  second_at   : PullAt;
  pullMux     : bool;
  pulls_world : World
}.

(** The scheduler gives the next turn to the first call (an even pick) or to
    the second (an odd pick); a call that cannot move lets the turn pass. *)
Definition turn (image : string) (k : nat) (s : TwoPulls) : TwoPulls :=
  if Nat.even k
  then match pullImage_step image (first_at s) (pullMux s) (pulls_world s) with
       | Some (a, m, w) => mkTwoPulls a (second_at s) m w
       | None => s
       end
  else match pullImage_step image (second_at s) (pullMux s) (pulls_world s) with
       | Some (a, m, w) => mkTwoPulls (first_at s) a m w
       | None => s
       end.

(** Two concurrent requests for [image] after the turns [picks]. *)
Definition concurrent_pulls (image : string) (picks : list nat) (w : World) : TwoPulls :=
  fold_left (fun s k => turn image k s) picks (mkTwoPulls AtLock AtLock false w).

(** What a call that stands at [a] still does when it runs alone: the error
    it returns and the world it leaves. *)
Definition pullImage_from (image : string) (a : PullAt) (w : World) : error * World :=
  let pull (w : World) :=
    let '(err, e) := ImagePull image (w_env w) in
    (match err with
     | Some err => Some ("pullImage: " ++ image ++ " - " ++ err)
     | None => None
     end, mkWorld (w_log w) (w_goroutines w) e) in
  let list (w : World) :=
    let '((images, err), e) := ImageList [("reference", image)] (w_env w) in
    let w1 := mkWorld (w_log w) (w_goroutines w) e in
    if (length images =? 0)%nat || is_err err then pull w1 else (None, w1) in
  let debug (w : World) :=
    list (mkWorld (("Pull Docker Image", ["name"; image]) :: w_log w)
                  (w_goroutines w) (w_env w)) in
  match a with
  | AtLock | AtDebug => debug w
  | AtImageList => list w
  | AtImagePull => pull w
  | AtUnlock r | Returned r => (r, w)
  end.



(* ------------------------------------------------------------------ *)
(** ** docker/builder.go: the earlier builder *)

(** The builder of [docker/builder.go]: no temp directory, no labels, no
    [Destroy]; [startContainers] has its own fan-out, in which the
    constructors run one after the other in the range loop and only the
    [Start] of each container runs in a goroutine. *)
Module OldBuilder.

Record QuorumBuilder := mkBuilder {
  Name          : string;
  Genesis       : string;
  Consensus     : QuorumBuilderConsensus;
  Nodes         : list QuorumBuilderNode;
  dockerNetwork : option Network
}.

Definition set_dockerNetwork (n : option Network) (qb : QuorumBuilder) : QuorumBuilder :=
  mkBuilder (Name qb) (Genesis qb) (Consensus qb) (Nodes qb) n.

(** When the goroutines of one [startContainers] run.  [between] has one
    list of picks for each iteration of the range loop: the goroutines,
    among those started and not yet run, that run before the constructor
    of that iteration is called.  [after] orders the goroutines still to
    run when the loop is over or stuck, [received] orders what the
    collecting loop receives.  The closure reads the loop variable [idx]
    when it formats an error: [seen] says, for the goroutine of each node,
    how many iterations later than its own that is. *)
Record Interleaving := mkInterleaving {
  between  : list (list nat);
  after    : list nat;
  received : list nat;
  seen     : list nat
}.

Section Old.

Variable co : Collaborators.
Variable il : Interleaving.

(** The body of [go func(_c Container)], for the container of the node at
    index [fst g] of [total] nodes: it offers one message when [Start]
    returns. *)
Definition goroutine (total : nat) (g : nat * Container) : World -> option Msg * World :=
  fun w =>
    match Container_Start co (snd g) w with
    | Ret (Some err) w' =>
        let idx := Nat.min (fst g + nth (fst g) (seen il) 0) (total - 1) in
        (Some (OnErr (itoa idx ++ ": " ++ err)), w')
    | Ret None w' => (Some OnDone, w')
    | Hang w' => (None, w')
    end.

(** The goroutines the scheduler picks to run now, among those pending. *)
Fixpoint run_picked (total : nat) (picks : list nat) (pending : list (nat * Container))
  (w : World) : list Msg * list (nat * Container) * World :=
  match picks with
  | [] => ([], pending, w)
  | k :: rest =>
      match pluck (k mod length pending) pending with
      | None => ([], pending, w)
      | Some (g, pending') =>
          let (m, w1) := goroutine total g w in
          let '(ms, p, w2) := run_picked total rest pending' w1 in
          (match m with Some x => x :: ms | None => ms end, p, w2)
      end
  end.

(** All the pending goroutines, in the order [gs]. *)
Fixpoint run_all (total : nat) (gs : list (nat * Container)) (w : World)
  : list Msg * World :=
  match gs with
  | [] => ([], w)
  | g :: rest =>
      let (m, w1) := goroutine total g w in
      let (ms, w2) := run_all total rest w1 in
      (match m with Some x => x :: ms | None => ms end, w2)
  end.

(** How the range loop ends: over, with the goroutines started and not yet
    run and the messages offered so far; or stuck, in a constructor that
    does not return or in the send [errChan <- ...] of the loop itself,
    which nobody receives. *)
Inductive LoopEnd : Type :=
| Over (pending : list (nat * Container)) (offered : list Msg) (w : World)
| Stuck (pending : list (nat * Container)) (w : World).

(** [for idx, node := range qb.Nodes { ... }]. *)
Fixpoint range_loop (total : nat)
  (containerFn : nat -> QuorumBuilderNode -> M (result Container))
  (items : list (nat * QuorumBuilderNode)) (picks : list (list nat))
  (pending : list (nat * Container)) (offered : list Msg) (w : World) : LoopEnd :=
  match items with
  | [] => Over pending offered w
  | (idx, node) :: rest =>
      let '(ms, pending1, w1) := run_picked total (hd [] picks) pending w in
      match containerFn idx node w1 with
      | Hang w2 => Stuck pending1 w2
      | Ret (Err err) w2 => Stuck pending1 w2
      | Ret (Ok c) w2 =>
          range_loop total containerFn rest (tl picks)
                     (pending1 ++ [(idx, c)])%list (offered ++ ms)%list
                     (mkWorld (w_log w2) (1 + w_goroutines w2) (w_env w2))
      end
  end.

(** [fmt.Errorf("%d/%d ready\n%s", readyCount, len(qb.Nodes),
    strings.Join(allErr, "\n"))]. *)
Definition ready_error (readyCount total : nat) (allErr : list string) : string :=
  itoa readyCount ++ "/" ++ itoa total ++ " ready" ++ nl ++ strings_Join allErr nl.

Definition startContainers (qb : QuorumBuilder)
  (containerFn : nat -> QuorumBuilderNode -> M (result Container)) : M error :=
  fun w =>
    let total := length (Nodes qb) in
    match range_loop total containerFn (indexed (Nodes qb)) (between il) [] [] w with
    | Stuck pending w1 =>
        Hang (snd (run_all total (shuffle (after il) pending) w1))
    | Over pending offered w1 =>
        let (ms, w2) := run_all total (shuffle (after il) pending) w1 in
        match select_loop (shuffle (received il) (offered ++ ms)%list) total 0 [] with
        | None => Hang w2
        | Some (readyCount, allErr) =>
            if (0 <? length allErr)%nat
            then Ret (Some (ready_error readyCount total allErr)) w2
            else Ret None w2
        end
    end.

Definition pullImage (qb : QuorumBuilder) (image : string) : M error :=
  r <- lift (ImageList [("reference", image)]) ;;
  let '(images, err) := r in
  if (length images =? 0)%nat || is_err err then
    err <- lift (ImagePull image) ;;
    match err with
    | Some err => ret (Some ("pullImage: " ++ image ++ " - " ++ err))
    | None => ret None
    end
  else ret None.

(** The actions of a call of this [pullImage], which takes no mutex and
    logs nothing: it stands before [ImageList], before [ImagePull], or has
    returned. *)
Definition pullImage_step (image : string) (a : PullAt) (w : World)
  : option (PullAt * World) :=
  match a with
  | AtImageList =>
      let '((images, err), e) := ImageList [("reference", image)] (w_env w) in
      Some (if (length images =? 0)%nat || is_err err then AtImagePull else Returned None,
            mkWorld (w_log w) (w_goroutines w) e)
  | AtImagePull =>
      let '(err, e) := ImagePull image (w_env w) in
      Some (Returned (match err with
                      | Some err => Some ("pullImage: " ++ image ++ " - " ++ err)
                      | None => None
                      end),
            mkWorld (w_log w) (w_goroutines w) e)
  | _ => None
  end.

(** Two overlapping calls of this [pullImage] for the same image: an even
    pick gives the turn to the first, an odd pick to the second. *)
Definition overlapping_pulls (image : string) (picks : list nat) (w : World)
  : PullAt * PullAt * World :=
  fold_left
    (fun s k =>
       let '(a, b, w) := s in
       if Nat.even k
       then match pullImage_step image a w with
            | Some (a', w') => (a', b, w')
            | None => s
            end
       else match pullImage_step image b w with
            | Some (b', w') => (a, b', w')
            | None => s
            end)
    picks (AtImageList, AtImageList, w).

Definition startTxManagers (qb : QuorumBuilder) : M error :=
  startContainers qb (fun idx node =>
    err <- pullImage qb (Image (TxManager node)) ;;
    match err with
    | Some err => ret (Err err)
    | None =>
        tm <- NewTesseraTxManager
                [ ConfigureNodeIndex idx;
                  ConfigureDockerClient;
                  ConfigureNetwork (dockerNetwork qb);
                  ConfigureDockerImage (Image (TxManager node));
                  ConfigureConfig (Config (TxManager node)) ] ;;
        ret (result_map AsTessera tm)
    end).

Definition startQuorums (qb : QuorumBuilder) : M error :=
  startContainers qb (fun idx node =>
    err <- pullImage qb (Image (Quorum node)) ;;
    match err with
    | Some err => ret (Err err)
    | None =>
        q <- lift (NewQuorum co
                [ ConfigureNodeIndex idx;
                  ConfigureDockerClient;
                  ConfigureNetwork (dockerNetwork qb);
                  ConfigureDockerImage (Image (Quorum node));
                  ConfigureConfig (Config (Quorum node)) ]) ;;
        ret (result_map AsQuorum q)
    end).

(** The earlier [NewDockerNetwork(client, name)] takes no labels. *)
Definition buildDockerNetwork (qb : QuorumBuilder) : M (QuorumBuilder * error) :=
  r <- lift (NewDockerNetwork (Name qb) []) ;;
  match r with
  | Err err => ret (qb, Some err)
  | Ok network => ret (set_dockerNetwork (Some network) qb, None)
  end.

(** 1. Build Docker Network  2. Start Tx Manager; the ledger nodes are not
    started by this [Build]. *)
Definition Build (qb : QuorumBuilder) : M (QuorumBuilder * error) :=
  r <- buildDockerNetwork qb ;;
  let '(qb, err) := r in
  match err with
  | Some err => ret (qb, Some err)
  | None =>
      err <- startTxManagers qb ;;
      match err with
      | Some err => ret (qb, Some err)
      | None => ret (qb, None)
      end
  end.

End Old.

End OldBuilder.

(* ------------------------------------------------------------------ *)
(** ** What is observed of a run *)

Definition is_pull (image : string) (c : Call) : bool :=
  match c with
  | CallImagePull ref => ref =? image
  | _ => false
  end.

(** How many times the engine was asked to pull [image]. *)
Definition pull_count (image : string) (e : Env) : nat :=
  length (filter (is_pull image) (e_calls e)).


(** The containers and the networks of the environment that carry the
    builder's labels: what the two listings of [Destroy] answer. *)
Definition labeled_containers (qb : QuorumBuilder) (e : Env) : list types_Container :=
  filter (fun c => label_match (label_filters (commonLabels qb)) (c_Labels c))
         (e_containers e).

Definition labeled_networks (qb : QuorumBuilder) (e : Env) : list types_NetworkResource :=
  filter (fun n => label_match (label_filters (commonLabels qb)) (n_Labels n))
         (e_networks e).

(** A removal pass so far: the units that ran, most recent first, each with
    its answer; and what the environment then is, from the environment [e0]
    the pass started in. *)
Definition removed_by (hist : list (types_Container * error)) (c : types_Container) : bool :=
  existsb (fun h => has_id (ID (fst h)) c && negb (is_err (snd h))) hist.

Definition container_pass (e0 : Env) (hist : list (types_Container * error)) (e : Env) : Prop :=
  e_calls e = (map (fun h => CallContainerRemove (ID (fst h)) true) hist ++ e_calls e0)%list /\
  e_faults e = e_faults e0 /\
  e_networks e = e_networks e0 /\
  e_containers e = filter (fun c => negb (removed_by hist c)) (e_containers e0).

Definition net_removed_by (hist : list (types_NetworkResource * error))
  (n : types_NetworkResource) : bool :=
  existsb (fun h => (n_ID n =? n_ID (fst h)) && negb (is_err (snd h))) hist.

Definition network_pass (e0 : Env) (hist : list (types_NetworkResource * error)) (e : Env) : Prop :=
  e_calls e = (map (fun h => CallNetworkRemove (n_ID (fst h))) hist ++ e_calls e0)%list /\
  e_faults e = e_faults e0 /\
  e_containers e = e_containers e0 /\
  e_networks e = filter (fun n => negb (net_removed_by hist n)) (e_networks e0).

(** The first log line of each stage of [Build], in the order of the
    pipeline. *)
Definition stage_markers : list string :=
  ["Create Docker network"; "Start Tx Managers"; "Start Quorum nodes"].

Definition is_marker (l : LogLine) : bool :=
  existsb (String.eqb (fst l)) stage_markers.

(** The lines logged between the world [w] and a later world [w'], oldest
    first; and the stage markers among some lines. *)
Definition log_since (w w' : World) : list LogLine :=
  rev (firstn (length (w_log w') - length (w_log w)) (w_log w')).

Definition markers_of (lines : list LogLine) : list string :=
  map fst (filter is_marker lines).

(** A computation that logs no stage marker. *)
Definition quiet {A} (m : M A) : Prop :=
  forall w, exists l,
    w_log (final (m w)) = (l ++ w_log w)%list /\
    Forall (fun x => is_marker x = false) l.

(** A computation that logs one stage marker, first, and no other. *)
Definition enters {A} (marker : LogLine) (m : M A) : Prop :=
  forall w, exists l,
    w_log (final (m w)) = (l ++ marker :: w_log w)%list /\
    Forall (fun x => is_marker x = false) l.

(* ------------------------------------------------------------------ *)
(** ** More of what is observed of a run *)

(** A removal pass on an engine that accepts the removal of every listed
    unit: as long as the units that ran are listed and have different ids,
    none of them erred. *)
Definition accepting_container_pass (e0 : Env) (listed : list types_Container)
  (hist : list (types_Container * error)) (e : Env) : Prop :=
  container_pass e0 hist e /\
  (NoDup (map (fun h => ID (fst h)) hist) ->
   incl (map fst hist) listed ->
   Forall (fun h => snd h = None) hist).

Definition accepting_network_pass (e0 : Env) (listed : list types_NetworkResource)
  (hist : list (types_NetworkResource * error)) (e : Env) : Prop :=
  network_pass e0 hist e /\
  (NoDup (map (fun h => n_ID (fst h)) hist) ->
   incl (map fst hist) listed ->
   Forall (fun h => snd h = None) hist).


(** [l] is a beginning of [l']. *)
Definition begins {X} (l l' : list X) : Prop := exists rest, l' = (l ++ rest)%list.

(** One call to the engine for each element of [l], one after the other:
    the answers, in that order, and the environment left. *)
Fixpoint each_in_turn {X} (op : X -> Env -> error * Env) (l : list X) (e : Env)
  : list error * Env :=
  match l with
  | [] => ([], e)
  | x :: rest =>
      let (r, e1) := op x e in
      let (rs, e2) := each_in_turn op rest e1 in
      (r :: rs, e2)
  end.

(* ------------------------------------------------------------------ *)
(** ** Concrete worlds, used to run the code *)

(** An engine that rejects nothing. *)
Definition no_faults : Call -> option string := fun _ => None.

(** A fresh host: nothing created, clock at 1 500 000 000, the engine hands
    out the subnet 172.18.0.0/29. *)
Definition env0 : Env :=
  mkEnv [] [] [] [] [] [] 0 1500000000%Z (2886860800%Z, 29%Z) no_faults.

Definition world0 : World := mkWorld [] 0 env0.

(** Three work items; the callback of item 1 errs. *)
Definition three_items : list string := ["a"; "b"; "c"].

Definition second_fails (idx : nat) (el : string) : error :=
  if (idx =? 1)%nat then Some ("cannot do " ++ el) else None.

(** Collaborators that always succeed and touch nothing. *)
Definition quiet_collaborators : Collaborators :=
  mkCollaborators 21000%Z
    (fun dir ip port e => (Ok (mkBootstrapNode ("0xacc" ++ ip) (dir ++ "/" ++ ip)), e))
    (fun nodes e => (None, e))
    (fun nodes name config e => (Ok "genesis", e))
    (fun fns e => (Ok (mkQuorum (fold_left (fun c cfgFn => cfgFn c) fns [])), e))
    (fun q e => (None, e)).

Definition a_node : QuorumBuilderNode :=
  mkNode (mkNodeDocker "quorum:latest" []) (mkNodeDocker "tessera:latest" []).

(** A declared network of [n] nodes named ["net1"]. *)
Definition builder_of (n : nat) : QuorumBuilder :=
  NewQuorumBuilder "net1" "" (mkConsensus "raft" []) (repeat a_node n).

Definition fifo : Schedule := mkSchedule [] [].

(** An engine on which waiting for a container fails. *)
Definition wait_fails : Call -> option string :=
  fun c => match c with CallContainerWait _ => Some "connection reset" | _ => None end.

(** An engine that cannot pull. *)
Definition pull_fails : Call -> option string :=
  fun c => match c with CallImagePull _ => Some "registry unreachable" | _ => None end.

Definition in_world (faults : Call -> option string) : World :=
  mkWorld [] 0 (with_faults faults env0).

(** A transaction manager configured with its image only. *)
Definition a_tessera : TesseraTxManager :=
  mkTessera (ConfigureDockerImage "tessera:latest" []).

(** An engine that is down: it rejects every call. *)
Definition engine_down : Call -> option string := fun _ => Some "engine down".

(** The network 172.18.0.0/29 just created: six hosts, the first one the
    gateway, nothing leased. *)
Definition small_net : Network :=
  mkNetwork "7e7e7e1" "net1" [] 2886860800%Z 29%Z 2886860801%Z [].

(** A host on which the build ["net1"] has left two containers and its
    network. *)
Definition net1_labels : Labels := [("com.quorum.quorum-tools.id", "net1")].

Definition left_container (id name : string) : types_Container :=
  mkContainer id [name] net1_labels
              (mkContainerConfig "tessera:latest" "" [] [] net1_labels) true.

Definition first_left : types_Container := left_container "aaaaaa01" "/net1-tm-0".
Definition second_left : types_Container := left_container "bbbbbb02" "/net1-tm-1".
Definition net1_left : types_NetworkResource :=
  mkNetworkResource "7e7e7e00" "net1" net1_labels.

Definition leftovers (faults : Call -> option string) : World :=
  mkWorld [] 0
    (mkEnv [] [first_left; second_left] [net1_left] [] [] [] 7 1500000000%Z
           (2886860800%Z, 29%Z) faults).

(** An engine that cannot remove the container [id]. *)
Definition busy (id : string) : Call -> option string :=
  fun c => match c with
           | CallContainerRemove i _ => if i =? id then Some "device or resource busy" else None
           | _ => None
           end.

(** An engine that can remove neither the container [id] nor any network. *)
Definition busy_and_networks (id : string) : Call -> option string :=
  fun c => match c with
           | CallContainerRemove i _ => if i =? id then Some "device or resource busy" else None
           | CallNetworkRemove _ => Some "network has active endpoints"
           | _ => None
           end.

Definition is_network_call (c : Call) : bool :=
  match c with
  | CallNetworkList _ | CallNetworkRemove _ => true
  | _ => false
  end.

(** The builder of ["net1"] after a [Build] of two nodes. *)
Definition built : QuorumBuilder := set_tmpDir "/tmp/net10" (builder_of 2).

(** What an outcome returned, or [d] when it blocked. *)
Definition returned {A} (d : A) (o : Outcome A) : A :=
  match o with Ret a _ => a | Hang _ => d end.

(** A build of two nodes on an engine on which waiting for a container
    fails: the temp directory, the network, and the outcome of the
    tx-manager stage. *)
Definition wf_world : World := in_world wait_fails.
Definition wf_tmp : result string * Env :=
  ioutil_TempDir "" "net1" (w_env wf_world).
Definition wf_network : Outcome (QuorumBuilder * error) :=
  buildDockerNetwork (set_tmpDir "/tmp/net10" (builder_of 2))
    (mkWorld (w_log wf_world) (w_goroutines wf_world) (snd wf_tmp)).
Definition wf_builder : QuorumBuilder :=
  fst (returned (builder_of 2, None) wf_network).
Definition wf_stage : Outcome (QuorumBuilder * error) :=
  startTxManagers quiet_collaborators fifo wf_builder (final wf_network).
Definition wf_error : string :=
  match snd (returned (builder_of 2, None) wf_stage) with
  | Some err => err
  | None => ""
  end.

(* ------------------------------------------------------------------ *)
(** ** More concrete worlds *)

(** An engine that creates containers and cannot start them. *)
Definition start_fails : Call -> option string :=
  fun c => match c with CallContainerStart _ => Some "no space left on device" | _ => None end.

(** A host shared with another build, ["net2"], which has one container and
    its network; the build ["net1"] has left its two containers, its
    network, its temp directory with one file, and the scratch directory
    of one key generation. *)
Definition net2_labels : Labels := [("com.quorum.quorum-tools.id", "net2")].

Definition a_stranger : types_Container :=
  mkContainer "dddddd04" ["/net2-tm-0"] net2_labels
              (mkContainerConfig "tessera:latest" "" [] [] net2_labels) true.

Definition net2_network : types_NetworkResource :=
  mkNetworkResource "7e7e7e99" "net2" net2_labels.

Definition shared_host (faults : Call -> option string) : World :=
  mkWorld [] 0
    (mkEnv [] [first_left; a_stranger; second_left] [net2_network; net1_left] []
           ["/tmp/net10"; "/tmp/net10/qdata"; "/tmp/qctl-15000000000"; "/tmp/net100"]
           [("/tmp/net10/genesis.json", "{}"); ("/tmp/qctl-15000000000/.key", "key:c0ffee1")]
           7 1500000000%Z (2886860800%Z, 29%Z) faults).

(** The earlier builder of ["net1"] with [n] nodes, and an interleaving in
    which every goroutine runs as soon as it is started. *)
Definition old_builder_of (n : nat) : OldBuilder.QuorumBuilder :=
  OldBuilder.mkBuilder "net1" "" (mkConsensus "raft" []) (repeat a_node n) None.

Definition eager : OldBuilder.Interleaving :=
  OldBuilder.mkInterleaving [[]; [0]; [0]] [] [1] [].

(** A constructor that hands out a transaction manager without asking the
    engine for anything. *)
Definition ready_made (idx : nat) (node : QuorumBuilderNode) : M (result Container) :=
  ret (Ok (AsTessera (mkTessera (ConfigureNodeIndex idx [])))).

(* ================================================================== *)
(** * Properties *)

(* ------------------------------------------------------------------ *)
(** ** Schedules are permutations *)

Lemma pluck_Some {X} (k : nat) (l : list X) :
  k < length l -> exists x r, pluck k l = Some (x, r).
Proof.
  revert k; induction l as [|a l IH]; intros k Hk; simpl in *; [lia|].
  destruct k as [|k]; simpl; [eauto|].
  destruct (IH k) as (x & r & E); [lia|]. rewrite E; eauto.
Qed.

Lemma pluck_perm {X} (k : nat) (l : list X) x r :
  pluck k l = Some (x, r) -> Permutation l (x :: r).
Proof.
  revert k x r; induction l as [|a l IH]; intros k x r; simpl; [intros; discriminate|].
  destruct k as [|k].
  - intros E; inversion E; subst; reflexivity.
  - destruct (pluck k l) as [[y r']|] eqn:E; [|discriminate].
    intros E'; inversion E'; subst.
    rewrite (IH _ _ _ E). apply perm_swap.
Qed.

Lemma shuffle_fuel_perm {X} (fuel : nat) : forall (picks : list nat) (l : list X),
  length l = fuel -> Permutation (shuffle_fuel fuel picks l) l.
Proof.
  induction fuel as [|fuel IH]; intros picks l Hl; simpl.
  - destruct l; [constructor | discriminate].
  - destruct (pluck_Some (hd 0 picks mod length l) l) as (x & r & E).
    { apply Nat.mod_upper_bound; lia. }
    rewrite E. pose proof (pluck_perm _ _ _ _ E) as P.
    rewrite P. constructor. apply IH.
    apply Permutation_length in P; simpl in P; lia.
Qed.

Lemma shuffle_perm {X} (picks : list nat) (l : list X) :
  Permutation (shuffle picks l) l.
Proof. apply shuffle_fuel_perm; reflexivity. Qed.

Lemma pluck_In {X} (x : X) (l : list X) :
  In x l -> exists k r, k < length l /\ pluck k l = Some (x, r).
Proof.
  induction l as [|a l IH]; intros H; [contradiction|].
  destruct H as [->|H].
  - exists 0, l. split; [simpl; lia|reflexivity].
  - destruct (IH H) as (k & r & Hk & E).
    exists (S k), (a :: r). split; [simpl; lia|]. simpl. rewrite E. reflexivity.
Qed.

(** Every order of the goroutines is the order of some schedule. *)
Lemma shuffle_any_order {X} (l' : list X) :
  forall l, Permutation l' l -> exists picks, shuffle picks l = l'.
Proof.
  unfold shuffle. induction l' as [|x rest IH]; intros l P.
  - apply Permutation_nil in P. subst l. exists []. reflexivity.
  - assert (Hx : In x l) by (eapply Permutation_in; [exact P|left; reflexivity]).
    destruct (pluck_In x l Hx) as (k & r & Hk & E).
    pose proof (pluck_perm _ _ _ _ E) as Pl.
    assert (Pr : Permutation rest r).
    { apply Permutation_cons_inv with (a := x). rewrite P. exact Pl. }
    destruct (IH r Pr) as (picks & Ep).
    exists (k :: picks).
    rewrite (Permutation_length Pl). cbn [length shuffle_fuel hd tl].
    replace (k mod length l) with k by (symmetry; apply Nat.mod_small; exact Hk).
    rewrite E, Ep. reflexivity.
Qed.

Example shuffle_picks : shuffle [2; 0] ["a"; "b"; "c"] = ["c"; "a"; "b"].
Proof. reflexivity. Qed.

Example aggregate_message :
  aggregate "starting containers" 2 3 ["cannot do b"] =
  "starting containers: 2/3" ++ nl ++ "cannot do b".
Proof. reflexivity. Qed.

(** One receive too few and the loop blocks on its [select]. *)
Example select_loop_waits : select_loop [OnDone; OnErr "x"] 3 0 [] = None.
Proof. reflexivity. Qed.

(* ------------------------------------------------------------------ *)
(** ** The collecting loop *)

Lemma dones_errs_length (ms : list Msg) :
  dones_of ms + length (errs_of ms) = length ms.
Proof.
  unfold dones_of, errs_of.
  induction ms as [|[|err] ms IH]; simpl in *; lia.
Qed.

(** With exactly as many senders as the loop still waits for, the loop
    receives every message once and stops. *)
Lemma select_loop_all (arrivals : list Msg) :
  forall total doneCount allErr,
    arrivals <> [] ->
    length arrivals + length allErr + doneCount = total ->
    select_loop arrivals total doneCount allErr =
      Some (doneCount + dones_of arrivals, (allErr ++ errs_of arrivals)%list).
Proof.
  induction arrivals as [|m rest IH]; intros total d errs Hne Hlen; [congruence|].
  destruct rest as [|m' rest'].
  - destruct m; simpl in *.
    + replace (total <=? length errs + S d)%nat with true
        by (symmetry; apply Nat.leb_le; lia).
      rewrite app_nil_r. f_equal. f_equal. unfold dones_of; simpl; lia.
    + rewrite length_app; simpl.
      replace (total <=? length errs + 1 + d)%nat with true
        by (symmetry; apply Nat.leb_le; lia).
      f_equal. f_equal. unfold dones_of; simpl; lia.
  - remember (m' :: rest') as rest eqn:Er.
    assert (Hrest : rest <> []) by (subst; discriminate).
    assert (Hl : 1 <= length rest) by (subst; simpl; lia).
    destruct m; cbn [select_loop].
    + replace (total <=? length errs + S d)%nat with false
        by (symmetry; apply Nat.leb_gt; simpl in Hlen; lia).
      rewrite IH; [|assumption|simpl in Hlen; lia].
      f_equal. f_equal. unfold dones_of; simpl; lia.
    + rewrite length_app; cbn [length].
      replace (total <=? length errs + 1 + d)%nat with false
        by (symmetry; apply Nat.leb_gt; simpl in Hlen; lia).
      rewrite IH; [|assumption|rewrite length_app; simpl in *; lia].
      f_equal. f_equal.
      simpl. rewrite <- app_assoc. reflexivity.
Qed.

Lemma errs_of_perm (l l' : list Msg) :
  Permutation l l' -> Permutation (errs_of l) (errs_of l').
Proof. intros P; unfold errs_of; apply Permutation_flat_map; assumption. Qed.

Lemma errs_of_msgs (rs : list error) : errs_of (map msg_of rs) = failures rs.
Proof.
  unfold errs_of, failures.
  induction rs as [|[err|] rs IH]; simpl; [reflexivity| |]; rewrite IH; reflexivity.
Qed.

(** With fewer senders than the loop waits for, the loop blocks. *)
Lemma select_loop_short (arrivals : list Msg) :
  forall total doneCount allErr,
    length arrivals + length allErr + doneCount < total ->
    select_loop arrivals total doneCount allErr = None.
Proof.
  induction arrivals as [|m rest IH]; intros total d errs Hlen; [reflexivity|].
  destruct m; cbn [select_loop].
  - replace (total <=? length errs + S d)%nat with false
      by (symmetry; apply Nat.leb_gt; simpl in Hlen; lia).
    apply IH. simpl in Hlen; lia.
  - rewrite length_app; cbn [length].
    replace (total <=? length errs + 1 + d)%nat with false
      by (symmetry; apply Nat.leb_gt; simpl in Hlen; lia).
    apply IH. rewrite length_app; simpl in *; lia.
Qed.

(** Whatever the callbacks do, the goroutines run as some account says. *)
Lemma run_workers_account {A} (callback : nat -> A -> M error) (gs : list (nat * A)) :
  forall w, exists runs w',
    run_workers callback gs w = (map msg_of (answers_of runs), w') /\
    map run_unit runs = gs /\
    account callback w runs w'.
Proof.
  induction gs as [|g gs IH]; intros w.
  - exists [], w. repeat split.
  - cbn [run_workers]. unfold worker.
    destruct (callback (fst g) (snd g) w) as [a w1|w1] eqn:E;
      destruct (IH w1) as (runs & w2 & E2 & Hu & Ha).
    + exists (mkRun g w (Some a) :: runs), w2. split; [|split].
      * destruct a; cbn iota beta; rewrite E2; reflexivity.
      * simpl; congruence.
      * simpl. split; [reflexivity|]. exists w1. split; assumption.
    + exists (mkRun g w None :: runs), w2. split; [|split].
      * cbn iota beta; rewrite E2; reflexivity.
      * simpl; congruence.
      * simpl. split; [reflexivity|]. exists w1. split; assumption.
Qed.

Lemma answers_of_length {A} (runs : list (Run A)) :
  (all_returned runs = true -> length (answers_of runs) = length runs) /\
  (all_returned runs = false -> length (answers_of runs) < length runs).
Proof.
  unfold answers_of, all_returned.
  induction runs as [|r runs [IH1 IH2]]; simpl.
  - split; [reflexivity|discriminate].
  - assert (Hle : length (flat_map (fun r : Run A =>
                     match run_result r with Some a => [a] | None => [] end) runs)
                  <= length runs).
    { clear. induction runs as [|r runs IH]; simpl; [lia|].
      destruct (run_result r); simpl; lia. }
    destruct (run_result r); simpl.
    + split; intros H; [rewrite IH1 by assumption; reflexivity|].
      specialize (IH2 H). lia.
    + split; [discriminate|]. intros _. lia.
Qed.

Lemma indexed_length {A} (elements : list A) :
  length (indexed elements) = length elements.
Proof.
  unfold indexed. rewrite length_combine, length_seq. apply Nat.min_id.
Qed.

(* ------------------------------------------------------------------ *)
(** ** The parallel executor *)

(** A fan-out over at least one item is its goroutines run in some order,
    as an account says, followed by the collecting loop over what they
    sent, in some order. *)
Lemma doWorkInParallel_run {A} (s : Schedule) (title : string) (elements : list A)
  (callback : nat -> A -> M error) (w : World) :
  length elements <> 0 ->
  exists runs w1,
    account callback (fanned_out title (length elements) w) runs w1 /\
    Permutation (map run_unit runs) (indexed elements) /\
    doWorkInParallel s title elements callback w =
      match select_loop (shuffle (recv_picks s) (map msg_of (answers_of runs)))
                        (length elements) 0 [] with
      | None => Hang w1
      | Some (doneCount, allErr) =>
          if (0 <? length allErr)%nat
          then Ret (Some (aggregate title doneCount (length elements) allErr)) w1
          else Ret None w1
      end.
Proof.
  intros HN. unfold doWorkInParallel, bind, log_Debug, go_started.
  destruct (Nat.eqb_spec (length elements) 0) as [E0|_]; [contradiction|].
  cbn [w_log w_goroutines w_env].
  change (mkWorld ((title, []) :: w_log w) (length elements + w_goroutines w) (w_env w))
    with (fanned_out title (length elements) w).
  destruct (run_workers_account callback
              (shuffle (run_picks s) (indexed elements))
              (fanned_out title (length elements) w)) as (runs & w1 & E & Hu & Ha).
  rewrite E. exists runs, w1. split; [exact Ha|]. split; [|reflexivity].
  rewrite Hu. apply shuffle_perm.
Qed.

(** The collecting loop over the messages of an account in which every
    callback returned: it receives them all, counts the [nil] answers and
    keeps the messages of the others. *)
Lemma collect_all {A} (picks : list nat) (runs : list (Run A)) (N : nat) :
  all_returned runs = true ->
  length runs = N ->
  N <> 0 ->
  let arrivals := shuffle picks (map msg_of (answers_of runs)) in
  select_loop arrivals N 0 [] = Some (dones_of arrivals, errs_of arrivals) /\
  Permutation (errs_of arrivals) (failures (answers_of runs)) /\
  dones_of arrivals + length (errs_of arrivals) = N.
Proof.
  intros Hall HL HN arrivals.
  assert (Parr : Permutation arrivals (map msg_of (answers_of runs)))
    by apply shuffle_perm.
  assert (Larr : length arrivals = N).
  { rewrite (Permutation_length Parr), length_map.
    rewrite (proj1 (answers_of_length runs) Hall). exact HL. }
  split; [|split].
  - rewrite (select_loop_all arrivals N 0 []); [reflexivity| |simpl; lia].
    intros En. rewrite En in Larr. simpl in Larr. lia.
  - rewrite (errs_of_perm _ _ Parr), errs_of_msgs. reflexivity.
  - rewrite dones_errs_length. exact Larr.
Qed.

(** When a callback blocked, the loop waits forever for its message. *)
Lemma collect_blocked {A} (picks : list nat) (runs : list (Run A)) (N : nat) :
  all_returned runs = false ->
  length runs = N ->
  select_loop (shuffle picks (map msg_of (answers_of runs))) N 0 [] = None.
Proof.
  intros Hall HL. apply select_loop_short.
  rewrite (Permutation_length (shuffle_perm picks _)), length_map.
  pose proof (proj2 (answers_of_length runs) Hall). simpl. lia.
Qed.

Lemma account_length {A} (runs : list (Run A)) (elements : list A) :
  Permutation (map run_unit runs) (indexed elements) ->
  length runs = length elements.
Proof.
  intros P. apply Permutation_length in P.
  rewrite length_map, indexed_length in P. exact P.
Qed.

(** An account of callbacks that only compute their answer: every one of
    them returned what it computes, and the world is as it was. *)
Lemma account_ret {A} (f : nat -> A -> error) (runs : list (Run A)) :
  forall w w',
    account (fun idx el => ret (f idx el)) w runs w' ->
    w' = w /\
    all_returned runs = true /\
    answers_of runs = map (fun u => f (fst u) (snd u)) (map run_unit runs).
Proof.
  induction runs as [|r runs IH]; intros w w' Ha; simpl in Ha.
  - subst. repeat split.
  - destruct Ha as (_ & w1 & E & Ha). unfold ret in E.
    destruct (run_result r) as [a|] eqn:Er; [|discriminate].
    inversion E; subst w1.
    destruct (IH _ _ Ha) as (Ew & Hall & Hans).
    split; [exact Ew|]. split.
    + unfold all_returned in *. simpl. rewrite Er. exact Hall.
    + unfold answers_of in *. simpl. rewrite Er. simpl. rewrite Hans.
      f_equal. congruence.
Qed.

Lemma failures_perm (l l' : list error) :
  Permutation l l' -> Permutation (failures l) (failures l').
Proof. intros P. unfold failures. apply Permutation_flat_map. exact P. Qed.

(** C1.  For every list of [N] items, every schedule and every callback.
    With [N = 0], [doWorkInParallel] returns [nil], starts no goroutine and
    calls nothing.  Otherwise there is an account of the fan-out in which
    every item is run exactly once.  When every callback returned,
    [doWorkInParallel] returns: [nil] exactly when no callback answered an
    error, and otherwise the error whose text is the title, the success
    count [N - len(allErr)], the total [N] and, one per line, [allErr]: the
    messages of the callbacks that erred, each once, in the order received;
    so it reports as many failures as callbacks erred.  When a callback
    blocked, [doWorkInParallel] blocks. *)
Theorem doWorkInParallel_counts :
  forall (A : Type) (s : Schedule) (title : string) (elements : list A)
         (callback : nat -> A -> M error) (w : World),
    let N := length elements in
    (N = 0 ->
     exists w',
       doWorkInParallel s title elements callback w = Ret None w' /\
       w_goroutines w' = w_goroutines w /\
       w_env w' = w_env w) /\
    (N <> 0 ->
     exists runs w',
       account callback (fanned_out title N w) runs w' /\
       Permutation (map run_unit runs) (indexed elements) /\
       let failed := failures (answers_of runs) in
       if all_returned runs
       then exists allErr,
              Permutation allErr failed /\
              length allErr = length failed /\
              doWorkInParallel s title elements callback w =
                Ret (match failed with
                     | [] => None
                     | _ :: _ =>
                         Some (title ++ ": " ++ itoa (N - length allErr) ++ "/" ++ itoa N
                                     ++ nl ++ String.concat nl allErr)
                     end) w'
       else doWorkInParallel s title elements callback w = Hang w').
Proof.
  intros A s title elements callback w N. split.
  - intros HN. unfold doWorkInParallel, bind, log_Debug.
    fold N. rewrite HN. cbn [Nat.eqb]. eexists. split; [reflexivity|].
    split; reflexivity.
  - intros HN.
    destruct (doWorkInParallel_run s title elements callback w HN)
      as (runs & w1 & Ha & P & E).
    exists runs, w1. split; [exact Ha|]. split; [exact P|]. cbn zeta.
    pose proof (account_length runs elements P) as HL. fold N in HL, E.
    destruct (all_returned runs) eqn:Hall.
    + destruct (collect_all (recv_picks s) runs N Hall HL HN) as (Es & Perr & Hd).
      cbn zeta in Es, Perr, Hd. rewrite Es in E.
      set (allErr := errs_of _) in *. exists allErr. split; [exact Perr|].
      split; [exact (Permutation_length Perr)|].
      rewrite E. unfold aggregate, strings_Join.
      replace (N - length allErr) with (dones_of
        (shuffle (recv_picks s) (map msg_of (answers_of runs)))) by lia.
      destruct allErr as [|e0 errs] eqn:Ee.
      * apply Permutation_nil in Perr. rewrite Perr. reflexivity.
      * destruct (failures (answers_of runs));
          [apply Permutation_sym, Permutation_nil in Perr; discriminate|].
        reflexivity.
    + rewrite (collect_blocked (recv_picks s) runs N Hall HL) in E. exact E.
Qed.

Lemma doWorkInParallel_counts_witness :
  doWorkInParallel (mkSchedule [2; 0] [1; 1]) "starting containers" three_items
    (fun idx el => ret (second_fails idx el)) world0
  = Ret (Some ("starting containers: 2/3" ++ String "010" "cannot do b"))
        (fanned_out "starting containers" 3 world0).
Proof.
  destruct (proj2 (doWorkInParallel_counts string (mkSchedule [2; 0] [1; 1])
                     "starting containers" three_items
                     (fun idx el => ret (second_fails idx el)) world0))
    as (runs & w' & Ha & P & H); [discriminate|].
  destruct (account_ret second_fails runs _ _ Ha) as (Ew & Hall & Hans).
  cbn zeta in H. rewrite Hall in H. destruct H as (allErr & Perr & _ & E).
  assert (F : Permutation (failures (answers_of runs)) ["cannot do b"]).
  { rewrite Hans.
    apply (failures_perm _ (map (fun u => second_fails (fst u) (snd u))
                                (indexed three_items))).
    apply Permutation_map. exact P. }
  apply Permutation_sym, Permutation_length_1_inv in F.
  rewrite F in Perr, E.
  apply Permutation_sym, Permutation_length_1_inv in Perr.
  rewrite E, Perr, Ew. reflexivity.
Defined.

(* ------------------------------------------------------------------ *)
(** ** Fan-outs whose callbacks change the environment *)

(** [I hist e]: the environment [e] after the units in [hist] have run,
    most recent first, each with its answer.  When every callback returns
    and moves [I] one unit further, the fan-out returns, every unit has run
    once, and the answer is [nil] exactly when no unit erred. *)
Section History.

Context {A : Type}.
Variable callback : nat -> A -> M error.
Variable I : list (A * error) -> Env -> Prop.

Hypothesis step :
  forall hist w idx el,
    I hist (w_env w) ->
    exists r w', callback idx el w = Ret r w' /\ I ((el, r) :: hist) (w_env w').

Lemma run_workers_history (gs : list (nat * A)) :
  forall hist w,
    I hist (w_env w) ->
    exists rs w',
      run_workers callback gs w = (map msg_of rs, w') /\
      length rs = length gs /\
      I (rev (combine (map snd gs) rs) ++ hist)%list (w_env w').
Proof.
  induction gs as [|g gs IH]; intros hist w HI; simpl.
  - exists [], w. repeat split; assumption.
  - unfold worker.
    destruct (step hist w (fst g) (snd g) HI) as (r & w1 & E & HI1).
    rewrite E.
    destruct (IH _ _ HI1) as (rs & w2 & E2 & L2 & HI2).
    exists (r :: rs), w2. split; [|split].
    + destruct r; cbn iota beta; rewrite E2; reflexivity.
    + simpl; congruence.
    + simpl. rewrite <- app_assoc. exact HI2.
Qed.

Lemma combine_fst {X Y} (l : list X) (l' : list Y) :
  length l = length l' -> map fst (combine l l') = l.
Proof.
  revert l'; induction l as [|x l IH]; intros [|y l'] H; simpl in *;
    try discriminate; [reflexivity|].
  f_equal. apply IH. congruence.
Qed.

Lemma combine_snd {X Y} (l : list X) (l' : list Y) :
  length l = length l' -> map snd (combine l l') = l'.
Proof.
  revert l'; induction l as [|x l IH]; intros [|y l'] H; simpl in *;
    try discriminate; [reflexivity|].
  f_equal. apply IH. congruence.
Qed.

Lemma failures_nil (rs : list error) :
  failures rs = [] <-> Forall (fun r => r = None) rs.
Proof.
  unfold failures. induction rs as [|[err|] rs IH]; simpl.
  - split; [constructor|reflexivity].
  - split; [discriminate|]. intros H; inversion H; discriminate.
  - rewrite IH. split; [constructor; auto|]. intros H; inversion H; assumption.
Qed.

Lemma doWorkInParallel_history (s : Schedule) (title : string) (elements : list A) :
  forall w,
    I [] (w_env w) ->
    exists hist r w',
      doWorkInParallel s title elements callback w = Ret r w' /\
      I hist (w_env w') /\
      Permutation (map fst hist) elements /\
      (elements = [] -> w_goroutines w' = w_goroutines w) /\
      (r = None <-> Forall (fun h => snd h = None) hist) /\
      (forall m, r = Some m ->
         exists errs,
           Permutation errs (failures (map snd hist)) /\
           m = aggregate title (length elements - length errs) (length elements) errs).
Proof.
  intros w HI. unfold doWorkInParallel, bind, log_Debug.
  destruct (Nat.eqb_spec (length elements) 0) as [E0|E0].
  - assert (elements = []) by (destruct elements; [reflexivity|discriminate]).
    subst elements. exists [], None. eexists. split; [reflexivity|].
    simpl. repeat split; auto; try discriminate.
  - unfold go_started.
    set (w0 := mkWorld _ (length elements + _) _).
    set (gs := shuffle (run_picks s) (indexed elements)).
    assert (Pgs : Permutation gs (indexed elements)) by apply shuffle_perm.
    destruct (run_workers_history gs [] w0 HI) as (rs & w1 & Erun & Lrs & HI1).
    rewrite Erun. rewrite app_nil_r in HI1.
    set (hist := rev (combine (map snd gs) rs)) in *.
    assert (Lgs : length gs = length elements).
    { rewrite (Permutation_length Pgs). apply indexed_length. }
    assert (Lc : length (map snd gs) = length rs) by (rewrite length_map; congruence).
    assert (Hfst : Permutation (map fst hist) elements).
    { unfold hist. rewrite map_rev, <- Permutation_rev, (combine_fst _ _ Lc).
      rewrite (Permutation_map snd Pgs). unfold indexed.
      rewrite combine_snd; [reflexivity|]. rewrite length_seq; reflexivity. }
    assert (Hsnd : Permutation (map snd hist) rs).
    { unfold hist. rewrite map_rev, <- Permutation_rev, (combine_snd _ _ Lc).
      reflexivity. }
    set (arrivals := shuffle (recv_picks s) (map msg_of rs)).
    assert (Parr : Permutation arrivals (map msg_of rs)) by apply shuffle_perm.
    assert (Larr : length arrivals = length elements).
    { rewrite (Permutation_length Parr), length_map. congruence. }
    assert (Perr : Permutation (errs_of arrivals) (failures (map snd hist))).
    { rewrite (errs_of_perm _ _ Parr), errs_of_msgs.
      unfold failures. apply Permutation_flat_map. symmetry; exact Hsnd. }
    rewrite (select_loop_all arrivals (length elements) 0 []);
      [|intros En; rewrite En in Larr; simpl in Larr; lia|simpl; lia].
    cbn [app Nat.add].
    pose proof (dones_errs_length arrivals) as Hd.
    destruct (errs_of arrivals) as [|e0 errs] eqn:Ee.
    + exists hist, None, w1. split; [reflexivity|].
      split; [exact HI1|]. split; [exact Hfst|]. split; [intros ->; contradiction|].
      split; [|discriminate].
      split; [|reflexivity]. intros _.
      apply Permutation_nil in Perr. apply failures_nil in Perr.
      rewrite Forall_forall in *. intros h Hh. apply Perr.
      apply in_map. exact Hh.
    + exists hist. eexists. exists w1. split; [reflexivity|].
      split; [exact HI1|]. split; [exact Hfst|]. split; [intros ->; contradiction|].
      split.
      * split; [discriminate|]. intros Hall. exfalso.
        assert (F : failures (map snd hist) = []).
        { apply failures_nil. rewrite Forall_forall in *. intros r Hr.
          apply in_map_iff in Hr. destruct Hr as (h & <- & Hh). auto. }
        rewrite F in Perr. apply Permutation_sym, Permutation_nil in Perr.
        discriminate.
      * intros m Hm. inversion Hm; subst m. exists (e0 :: errs).
        split; [exact Perr|]. f_equal. simpl in *. lia.
Qed.

End History.

(* ------------------------------------------------------------------ *)
(** ** The address pool *)

Lemma sorted_filter (p : IP -> bool) (l : list IP) :
  StronglySorted Z.lt l -> StronglySorted Z.lt (filter p l).
Proof.
  induction 1 as [|a l S IH F]; simpl; [constructor|].
  destruct (p a); [|assumption].
  constructor; [assumption|].
  rewrite Forall_forall in *. intros x Hx.
  apply F. apply filter_In in Hx. tauto.
Qed.

Lemma sorted_firstn (k : nat) (l : list IP) :
  StronglySorted Z.lt l -> StronglySorted Z.lt (firstn k l).
Proof.
  intros S; revert k; induction S as [|a l S IH F]; intros [|k]; simpl;
    try constructor.
  - apply IH.
  - rewrite Forall_forall in *. intros x Hx. apply F.
    rewrite <- (firstn_skipn k l). apply in_or_app. left; assumption.
Qed.

Lemma sorted_NoDup (l : list IP) : StronglySorted Z.lt l -> NoDup l.
Proof.
  induction 1 as [|a l S IH F]; constructor; [|assumption].
  intros Ha. rewrite Forall_forall in F. specialize (F a Ha). lia.
Qed.

Lemma sorted_from (base : Z) (len start : nat) :
  StronglySorted Z.lt (map (fun i => base + 1 + Z.of_nat i)%Z (seq start len)).
Proof.
  revert start; induction len as [|len IH]; intros start; simpl; constructor.
  - apply IH.
  - rewrite Forall_forall. intros x Hx.
    apply in_map_iff in Hx. destruct Hx as (i & <- & Hi).
    apply in_seq in Hi. lia.
Qed.

Lemma usable_sorted (n : Network) : StronglySorted Z.lt (usable n).
Proof. unfold usable, host_addresses. apply sorted_filter, sorted_from. Qed.

Lemma mem_ip_In (a : IP) (l : list IP) : mem_ip a l = true <-> In a l.
Proof.
  unfold mem_ip. rewrite existsb_exists. split.
  - intros (x & Hx & E). apply Z.eqb_eq in E. subst; assumption.
  - intros H. exists a. split; [assumption|apply Z.eqb_refl].
Qed.

Lemma usable_spec (n : Network) (a : IP) :
  In a (usable n) <->
  In a (host_addresses n) /\ a <> net_gateway n /\ ~ In a (net_leased n).
Proof.
  unfold usable. rewrite filter_In, andb_true_iff, !negb_true_iff.
  rewrite Z.eqb_neq.
  pose proof (mem_ip_In a (net_leased n)) as M.
  destruct (mem_ip a (net_leased n)).
  - intuition discriminate.
  - intuition discriminate.
Qed.

Lemma In_firstn {X} (k : nat) (l : list X) (x : X) : In x (firstn k l) -> In x l.
Proof.
  intros H. rewrite <- (firstn_skipn k l). apply in_or_app. left; assumption.
Qed.

(** C9.  A lease of [k] addresses with at least [k] usable ones left
    answers [k] addresses, strictly increasing (so distinct), all hosts of
    the subnet, none the gateway, none leased before, and records them; with
    fewer than [k] left it fails and the network is unchanged; and a second
    lease on the network never answers an address of the first. *)
Theorem GetFreeIPAddrs_leases :
  forall (n : Network) (k : nat),
    (k <= length (usable n) ->
     exists ips n',
       GetFreeIPAddrs k n = (Ok ips, n') /\
       length ips = k /\
       StronglySorted Z.lt ips /\
       NoDup ips /\
       (forall a, In a ips ->
          In a (host_addresses n) /\ a <> net_gateway n /\ ~ In a (net_leased n)) /\
       net_leased n' = (net_leased n ++ ips)%list) /\
    (length (usable n) < k ->
     exists msg, GetFreeIPAddrs k n = (Err msg, n)) /\
    (forall k2 r1 n1 r2 n2,
       GetFreeIPAddrs k n = (r1, n1) ->
       GetFreeIPAddrs k2 n1 = (r2, n2) ->
       forall a, In a (leased_by r1) -> ~ In a (leased_by r2)).
Proof.
  intros n k. split; [|split].
  - intros Hk. unfold GetFreeIPAddrs.
    replace (length (usable n) <? k)%nat with false
      by (symmetry; apply Nat.ltb_ge; assumption).
    eexists; eexists. split; [reflexivity|].
    pose proof (usable_sorted n) as S.
    split; [apply firstn_length_le; assumption|].
    split; [apply sorted_firstn; assumption|].
    split; [apply sorted_NoDup, sorted_firstn; assumption|].
    split; [|reflexivity].
    intros a Ha. apply usable_spec. eapply In_firstn; eassumption.
  - intros Hk. unfold GetFreeIPAddrs.
    replace (length (usable n) <? k)%nat with true
      by (symmetry; apply Nat.ltb_lt; assumption).
    eexists; reflexivity.
  - intros k2 r1 n1 r2 n2 H1 H2 a Ha1 Ha2.
    unfold GetFreeIPAddrs in H1, H2.
    destruct (length (usable n) <? k)%nat; inversion H1; subst; clear H1;
      [contradiction|].
    destruct (length (usable _) <? k2)%nat; inversion H2; subst; clear H2;
      [contradiction|].
    simpl in Ha1, Ha2. apply In_firstn in Ha2. apply usable_spec in Ha2.
    destruct Ha2 as (_ & _ & Hn). apply Hn. simpl.
    apply in_or_app. right; assumption.
Qed.

Lemma GetFreeIPAddrs_leases_witness :
  (exists ips n',
     GetFreeIPAddrs 3 small_net = (Ok ips, n') /\
     length ips = 3 /\
     StronglySorted Z.lt ips /\
     NoDup ips /\
     (forall a, In a ips ->
        In a (host_addresses small_net) /\ a <> net_gateway small_net /\
        ~ In a (net_leased small_net)) /\
     net_leased n' = (net_leased small_net ++ ips)%list) /\
  (exists msg, GetFreeIPAddrs 9 small_net = (Err msg, small_net)).
Proof.
  split.
  - apply (proj1 (GetFreeIPAddrs_leases small_net 3)).
    vm_compute. repeat constructor.
  - apply (proj1 (proj2 (GetFreeIPAddrs_leases small_net 9))).
    vm_compute. repeat constructor.
Defined.

Example IP_String_host : IP_String 2886860802%Z = "172.18.0.2".
Proof. reflexivity. Qed.

Example lease_two_then_two :
  let (r1, n1) := GetFreeIPAddrs 2 small_net in
  let (r2, n2) := GetFreeIPAddrs 2 n1 in
  map IP_String (leased_by r1) = ["172.18.0.2"; "172.18.0.3"] /\
  map IP_String (leased_by r2) = ["172.18.0.4"; "172.18.0.5"].
Proof. vm_compute. split; reflexivity. Qed.

(* ------------------------------------------------------------------ *)
(** ** The transaction manager *)

Ltac go_red :=
  cbn beta iota zeta delta [w_env w_log w_goroutines fst snd final].

Ltac unfold_go :=
  unfold defer, select_one;
  unfold bind, lift, ret, recv, log_Debug, go_started; go_red.

(** One call into the environment: names its answer and the environment
    it leaves. *)
Tactic Notation "env_step" "as" simple_intropattern(a) ident(e') :=
  match goal with
  | |- context [let (_, _) := ?f ?e in _] =>
      let E := fresh "E" e' in destruct (f e) as [a e'] eqn:E; go_red
  end.

(** [GenerateKeys] has no path on which it returns key material: it blocks,
    or it returns [nil, nil] and an error. *)
Lemma GenerateKeys_outcome (t : TesseraTxManager) (w : World) :
  match GenerateKeys t w with
  | Ret (public, private, retErr) _ => public = None /\ private = None /\ retErr <> None
  | Hang _ => True
  end.
Proof.
  unfold GenerateKeys. unfold_go.
  env_step as now e0.
  env_step as [tmpDataDir|err] e1; [|repeat split; discriminate].
  env_step as [containerId|err] e2; [|repeat split; discriminate].
  env_step as [err|] e3; [repeat split; discriminate|].
  env_step as [statusChan [err|]] e4; [|exact I].
  env_step as r e5. repeat split; discriminate.
Qed.

(** C5, on the code.  On a host where every call succeeds and the
    key-generation container runs and stops, [GenerateKeys] blocks at its
    [select]: both key files are in the scratch directory, they are never
    read, and the container is still there, not removed. *)
Theorem GenerateKeys_blocks_after_key_generation :
  exists w',
    GenerateKeys a_tessera world0 = Hang w' /\
    lookup_file "/tmp/qctl-15000000000/.pub" (e_files (w_env w')) = Some "pub:c0ffee1" /\
    lookup_file "/tmp/qctl-15000000000/.key" (e_files (w_env w')) = Some "key:c0ffee1" /\
    hd_error (e_calls (w_env w')) = Some (CallContainerWait "c0ffee1") /\
    existsb (has_id "c0ffee1") (e_containers (w_env w')) = true.
Proof.
  eexists. split; [vm_compute; reflexivity|].
  repeat split; vm_compute; reflexivity.
Qed.

(** C4, as stated, fails: with the engine down, [Start] and [Stop] still
    return [nil], and they call nothing, so no container is created,
    started or stopped. *)
Lemma Start_Stop_call_nothing :
  let w := in_world engine_down in
  TesseraTxManager_Start a_tessera w = Ret None w /\
  TesseraTxManager_Stop a_tessera w = Ret None w /\
  e_calls (w_env w) = [] /\
  e_containers (w_env w) = [].
Proof. repeat split. Qed.

(** C4, amended.  [Start] and [Stop] return [nil] and leave the world as it
    is, whatever the engine would answer. *)
Theorem Start_Stop_return_nil :
  forall (t : TesseraTxManager) (w : World),
    TesseraTxManager_Start t w = Ret None w /\
    TesseraTxManager_Stop t w = Ret None w.
Proof. intros t w. split; reflexivity. Qed.

Lemma find_filter_none {X} (p : X -> bool) (l : list X) :
  find p (filter (fun x => negb (p x)) l) = None.
Proof.
  induction l as [|x l IH]; simpl; [reflexivity|].
  destruct (p x) eqn:E; simpl; [assumption|]. rewrite E. assumption.
Qed.

(** A forced removal is recorded as the most recent call; unless the engine
    rejects it, the container is gone afterwards. *)
Lemma ContainerRemove_forced (id : string) (e : Env) r e' :
  ContainerRemove id true e = (r, e') ->
  hd_error (e_calls e') = Some (CallContainerRemove id true) /\
  (e_faults e' (CallContainerRemove id true) = None -> find_container id e' = None).
Proof.
  unfold ContainerRemove.
  destruct (e_faults e (CallContainerRemove id true)) as [err|] eqn:F.
  - intros H; inversion H; subst; clear H. split; [reflexivity|].
    simpl. rewrite F. discriminate.
  - destruct (find_container id e) as [c|] eqn:Fc.
    + rewrite andb_false_r. intros H; inversion H; subst; clear H.
      split; [reflexivity|]. intros _. unfold find_container; simpl.
      apply find_filter_none.
    + intros H; inversion H; subst; clear H. split; [reflexivity|].
      intros _. exact Fc.
Qed.

(** Once the scratch directory and the container are created and the
    engine has accepted the start, every return of [GenerateKeys] comes
    after a forced [ContainerRemove] of that container, its last call; and
    unless the engine rejects the removal, the container is gone when
    [GenerateKeys] returns. *)
Lemma GenerateKeys_return_removes :
  forall (t : TesseraTxManager) (w : World) tmpDataDir e1 containerId e2 e3 keys w',
    ioutil_TempDir "" ("qctl-" ++ ztoa (e_now (w_env w))) (w_env w) = (Ok tmpDataDir, e1) ->
    ContainerCreate (keygen_Config (DockerImage (tm_config t)) "/tm" tmpDataDir) e1
      = (Ok containerId, e2) ->
    ContainerStart containerId e2 = (None, e3) ->
    GenerateKeys t w = Ret keys w' ->
    hd_error (e_calls (w_env w')) = Some (CallContainerRemove containerId true) /\
    (e_faults (w_env w') (CallContainerRemove containerId true) = None ->
     find_container containerId (w_env w') = None).
Proof.
  intros t w tmpDataDir e1 containerId e2 e3 keys w' H1 H2 H3.
  unfold GenerateKeys. unfold_go. unfold time_Now_Unix. go_red.
  rewrite H1. go_red. rewrite H2. go_red. rewrite H3. go_red.
  env_step as [statusChan [err|]] e4; [|discriminate].
  env_step as r e5.
  intros H; inversion H; subst; clear H. go_red.
  eapply ContainerRemove_forced; eassumption.
Qed.

Lemma ContainerCreate_new (cfg : ContainerConfig) (e : Env) id e' :
  ContainerCreate cfg e = (Ok id, e') ->
  existsb (has_id id) (e_containers e') = true /\
  e_calls e' = CallContainerCreate cfg :: e_calls e.
Proof.
  unfold ContainerCreate. destruct (e_faults e (CallContainerCreate cfg)); [discriminate|].
  intros H; inversion H; subst. split; [|reflexivity]. simpl.
  unfold has_id at 1. simpl. rewrite String.eqb_refl. reflexivity.
Qed.

Lemma has_id_set_running (id id' : string) (r : bool) (c : types_Container) :
  has_id id (set_running id' r c) = has_id id c.
Proof. unfold set_running. destruct (has_id id' c); reflexivity. Qed.

Lemma existsb_has_id_running (id id' : string) (r : bool) (cs : list types_Container) :
  existsb (has_id id) (map (set_running id' r) cs) = existsb (has_id id) cs.
Proof.
  induction cs as [|c cs IH]; simpl; [reflexivity|].
  rewrite has_id_set_running, IH. reflexivity.
Qed.

Lemma ContainerStart_started (id : string) (e e' : Env) :
  ContainerStart id e = (None, e') ->
  existsb (has_id id) (e_containers e') = existsb (has_id id) (e_containers e) /\
  e_calls e' = CallContainerStart id :: e_calls e.
Proof.
  unfold ContainerStart. destruct (e_faults e (CallContainerStart id)); [discriminate|].
  destruct (find_container id e); [|discriminate].
  intros H; inversion H; subst. split; [|reflexivity]. simpl.
  apply existsb_has_id_running.
Qed.

Lemma ContainerWait_stopped (id : string) (e e' : Env) status :
  ContainerWait id e = ((status, None), e') ->
  existsb (has_id id) (e_containers e') = existsb (has_id id) (e_containers e) /\
  e_calls e' = CallContainerWait id :: e_calls e.
Proof.
  unfold ContainerWait. destruct (e_faults e (CallContainerWait id)); [discriminate|].
  intros H; inversion H; subst. split; [|reflexivity]. simpl.
  apply existsb_has_id_running.
Qed.

Lemma ioutil_TempDir_called (dir pattern : string) (e : Env) r e' :
  ioutil_TempDir dir pattern e = (r, e') ->
  e_calls e' = CallTempDir dir pattern :: e_calls e.
Proof.
  unfold ioutil_TempDir. destruct (e_faults e (CallTempDir dir pattern));
    intros H; inversion H; reflexivity.
Qed.

(** C10, on the code.  Once the scratch directory and the container are
    created and the engine has accepted the start, a wait that ends without
    an error, which is what the engine answers when the container has run
    and stopped, sends nothing on the error channel: [GenerateKeys] blocks
    at its [select], the removal it deferred never runs, and the started
    container is left behind.  The wait is the last call it makes. *)
Theorem GenerateKeys_leaves_started_container :
  forall (t : TesseraTxManager) (w : World) tmpDataDir e1 containerId e2 e3 status e4,
    ioutil_TempDir "" ("qctl-" ++ ztoa (e_now (w_env w))) (w_env w) = (Ok tmpDataDir, e1) ->
    ContainerCreate (keygen_Config (DockerImage (tm_config t)) "/tm" tmpDataDir) e1
      = (Ok containerId, e2) ->
    ContainerStart containerId e2 = (None, e3) ->
    ContainerWait containerId e3 = ((status, None), e4) ->
    GenerateKeys t w = Hang (mkWorld (w_log w) (w_goroutines w) e4) /\
    existsb (has_id containerId) (e_containers e4) = true /\
    e_calls e4 =
      CallContainerWait containerId :: CallContainerStart containerId
      :: CallContainerCreate (keygen_Config (DockerImage (tm_config t)) "/tm" tmpDataDir)
      :: CallTempDir "" ("qctl-" ++ ztoa (e_now (w_env w)))
      :: e_calls (w_env w).
Proof.
  intros t w tmpDataDir e1 containerId e2 e3 status e4 H1 H2 H3 H4.
  split.
  - unfold GenerateKeys. unfold_go. unfold time_Now_Unix. go_red.
    rewrite H1. go_red. rewrite H2. go_red. rewrite H3. go_red.
    rewrite H4. go_red. reflexivity.
  - destruct (ContainerCreate_new _ _ _ _ H2) as [K2 C2].
    destruct (ContainerStart_started _ _ _ H3) as [K3 C3].
    destruct (ContainerWait_stopped _ _ _ _ H4) as [K4 C4].
    split; [congruence|].
    rewrite C4, C3, C2, (ioutil_TempDir_called _ _ _ _ _ H1). reflexivity.
Qed.

Lemma GenerateKeys_leaves_started_container_witness :
  exists w',
    GenerateKeys a_tessera world0 = Hang w' /\
    existsb (has_id "c0ffee1") (e_containers (w_env w')) = true /\
    e_calls (w_env w') =
      [ CallContainerWait "c0ffee1"; CallContainerStart "c0ffee1";
        CallContainerCreate
          (mkContainerConfig "tessera:latest" "/tm" keygen_Entrypoint
                             ["/tmp/qctl-15000000000:/tm"] []);
        CallTempDir "" "qctl-1500000000" ].
Proof.
  pose (e1 := snd (ioutil_TempDir "" "qctl-1500000000" env0)).
  pose (e2 := snd (ContainerCreate
                     (keygen_Config "tessera:latest" "/tm" "/tmp/qctl-15000000000") e1)).
  pose (e3 := snd (ContainerStart "c0ffee1" e2)).
  pose (e4 := snd (ContainerWait "c0ffee1" e3)).
  destruct (GenerateKeys_leaves_started_container a_tessera world0
              "/tmp/qctl-15000000000" e1 "c0ffee1" e2 e3 (Some 0%Z) e4)
    as (E & K & C).
  - vm_compute; reflexivity.
  - vm_compute; reflexivity.
  - vm_compute; reflexivity.
  - vm_compute; reflexivity.
  - exists (mkWorld [] 0 e4). split; [exact E|]. split; [exact K|exact C].
Defined.

(* ------------------------------------------------------------------ *)
(** ** Image pulls *)

Ltac open_world w :=
  destruct w as [?lg ?gor [?calls ?cs ?ns ?imgs ?ds ?fs ?fr ?now ?sn ?fl]].

Ltac env_red :=
  cbn [w_env w_log w_goroutines fst snd final called bump_fresh with_fs
       with_containers with_networks with_images with_faults
       e_calls e_containers e_networks e_images e_dirs e_files e_fresh
       e_now e_subnet e_faults].

Lemma listed_none (image : string) (imgs : list string) :
  existsb (String.eqb image) imgs = false ->
  filter (reference_match [("reference", image)]) imgs = [].
Proof.
  induction imgs as [|i imgs IH]; simpl; [reflexivity|].
  intros H. apply orb_false_iff in H. destruct H as [H1 H2].
  rewrite H1. simpl. auto.
Qed.

Lemma listed_some (image : string) (imgs : list string) :
  existsb (String.eqb image) imgs = true ->
  (length (filter (reference_match [("reference", image)]) imgs) =? 0)%nat = false.
Proof.
  induction imgs as [|i imgs IH]; simpl; [discriminate|].
  destruct (image =? i) eqn:E; simpl; [reflexivity|]. exact IH.
Qed.

(** One request: the image is listed and nothing is pulled, or the engine
    is asked to pull once. *)
Lemma pullImage_run (qb : QuorumBuilder) (image : string) (w : World) :
  let e := w_env w in
  let e1 := called (CallImageList [("reference", image)]) e in
  let e2 := called (CallImagePull image) e1 in
  let lg := ("Pull Docker Image", ["name"; image]) :: w_log w in
  pullImage qb image w =
    if existsb (String.eqb image) (e_images e)
       && negb (is_err (e_faults e (CallImageList [("reference", image)])))
    then Ret None (mkWorld lg (w_goroutines w) e1)
    else
      match e_faults e (CallImagePull image) with
      | Some err =>
          Ret (Some ("pullImage: " ++ image ++ " - " ++ err))
              (mkWorld lg (w_goroutines w) e2)
      | None =>
          Ret None
              (mkWorld lg (w_goroutines w)
                 (if existsb (String.eqb image) (e_images e) then e2
                  else with_images (image :: e_images e) e2))
      end.
Proof.
  open_world w. unfold pullImage. unfold_go. unfold ImageList, ImagePull. env_red.
  destruct (fl (CallImageList [("reference", image)])) as [le|] eqn:FL;
    destruct (existsb (String.eqb image) imgs) eqn:Ex;
    cbn [andb negb is_err length Nat.eqb orb fst snd]; env_red;
    rewrite ?(listed_some _ _ Ex), ?(listed_none _ _ Ex);
    cbn [andb negb is_err length Nat.eqb orb fst snd]; env_red;
    try reflexivity;
    destruct (fl (CallImagePull image)) as [pe|] eqn:FP; rewrite ?Ex; reflexivity.
Qed.


Lemma pull_count_called (image : string) (c : Call) (e : Env) :
  pull_count image (called c e) =
    (if is_pull image c then 1 else 0) + pull_count image e.
Proof. unfold pull_count; simpl. destruct (is_pull image c); reflexivity. Qed.

Lemma pull_count_with_images (image : string) (imgs : list string) (e : Env) :
  pull_count image (with_images imgs e) = pull_count image e.
Proof. reflexivity. Qed.

(** The actions of one call, taken alone, are [pullImage]. *)
Lemma pullImage_alone (qb : QuorumBuilder) (image : string) (w : World) :
  pullImage qb image w =
    Ret (fst (pullImage_from image AtLock w)) (snd (pullImage_from image AtLock w)).
Proof.
  unfold pullImage, pullImage_from. unfold_go.
  destruct (ImageList [("reference", image)] (w_env w)) as [[images err] e1]. go_red.
  destruct ((length images =? 0)%nat || is_err err); [|reflexivity].
  unfold_go. cbn [w_env w_log w_goroutines].
  destruct (ImagePull image e1) as [[perr|] e2]; reflexivity.
Qed.

(** Five turns of one call alone: it has returned what [pullImage] returns
    and left the world [pullImage] leaves; the other call still waits. *)
Lemma pullImage_turns_alone (qb : QuorumBuilder) (image : string) (w : World) :
  let s := concurrent_pulls image [0; 0; 0; 0; 0] w in
  exists r,
    first_at s = Returned r /\
    second_at s = AtLock /\
    pullMux s = false /\
    pullImage qb image w = Ret r (pulls_world s).
Proof.
  cbn zeta. rewrite (pullImage_alone qb image w).
  unfold concurrent_pulls, pullImage_from. cbn [fold_left]. unfold turn.
  cbn [Nat.even first_at second_at pullMux pulls_world pullImage_step
       w_env w_log w_goroutines].
  destruct (ImageList [("reference", image)] (w_env w)) as [[images err] e1].
  destruct ((length images =? 0)%nat || is_err err);
    cbn [Nat.even first_at second_at pullMux pulls_world pullImage_step
         w_env w_log w_goroutines fst snd].
  - destruct (ImagePull image e1) as [[perr|] e2];
      cbn [Nat.even first_at second_at pullMux pulls_world pullImage_step
           w_env w_log w_goroutines fst snd];
      eexists; repeat split.
  - eexists; repeat split.
Qed.













(* ------------------------------------------------------------------ *)
(** ** Teardown *)

Lemma filter_filter {X} (p q : X -> bool) (l : list X) :
  filter p (filter q l) = filter (fun x => q x && p x) l.
Proof.
  induction l as [|x l IH]; simpl; [reflexivity|].
  destruct (q x); simpl; [destruct (p x)|]; rewrite IH; reflexivity.
Qed.

Lemma remove_container_step (e0 : Env) :
  forall hist w idx c,
    container_pass e0 hist (w_env w) ->
    exists r w',
      remove_container idx c w = Ret r w' /\
      container_pass e0 ((c, r) :: hist) (w_env w').
Proof.
  intros hist w idx c (Hc & Hf & Hn & Hcs).
  unfold remove_container. unfold_go. unfold ContainerRemove.
  destruct (e_faults (w_env w) (CallContainerRemove (ID c) true)) as [err|].
  - eexists; eexists. split; [reflexivity|]. go_red.
    repeat split; simpl; try assumption.
    + rewrite Hc; reflexivity.
    + rewrite Hcs. apply filter_ext. intros x. unfold removed_by; simpl.
      rewrite andb_false_r. reflexivity.
  - destruct (find_container (ID c) (w_env w)) as [c0|].
    + rewrite andb_false_r.
      eexists; eexists. split; [reflexivity|]. go_red.
      repeat split; simpl; try assumption.
      * rewrite Hc; reflexivity.
      * rewrite Hcs, filter_filter. apply filter_ext. intros x.
        unfold removed_by; simpl. rewrite andb_true_r, negb_orb.
        apply andb_comm.
    + eexists; eexists. split; [reflexivity|]. go_red.
      repeat split; simpl; try assumption.
      * rewrite Hc; reflexivity.
      * rewrite Hcs. apply filter_ext. intros x. unfold removed_by; simpl.
        rewrite andb_false_r. reflexivity.
Qed.

Lemma remove_network_step (e0 : Env) :
  forall hist w idx n,
    network_pass e0 hist (w_env w) ->
    exists r w',
      remove_network idx n w = Ret r w' /\
      network_pass e0 ((n, r) :: hist) (w_env w').
Proof.
  intros hist w idx n (Hc & Hf & Hcs & Hn).
  unfold remove_network. unfold_go. unfold NetworkRemove.
  destruct (e_faults (w_env w) (CallNetworkRemove (n_ID n))) as [err|].
  - eexists; eexists. split; [reflexivity|]. go_red.
    repeat split; simpl; try assumption.
    + rewrite Hc; reflexivity.
    + rewrite Hn. apply filter_ext. intros x. unfold net_removed_by; simpl.
      rewrite andb_false_r. reflexivity.
  - destruct (existsb (fun n0 => n_ID n0 =? n_ID n) (e_networks (w_env w))).
    + eexists; eexists. split; [reflexivity|]. go_red.
      repeat split; simpl; try assumption.
      * rewrite Hc; reflexivity.
      * rewrite Hn, filter_filter. apply filter_ext. intros x.
        unfold net_removed_by; simpl. rewrite andb_true_r, negb_orb.
        apply andb_comm.
    + eexists; eexists. split; [reflexivity|]. go_red.
      repeat split; simpl; try assumption.
      * rewrite Hc; reflexivity.
      * rewrite Hn. apply filter_ext. intros x. unfold net_removed_by; simpl.
        rewrite andb_false_r. reflexivity.
Qed.

Lemma filter_none {X} (p : X -> bool) (l : list X) :
  (forall x, In x l -> p x = false) -> filter p l = [].
Proof.
  induction l as [|x l IH]; intros H; simpl; [reflexivity|].
  rewrite (H x (or_introl eq_refl)). apply IH. intros y Hy. apply H. right; assumption.
Qed.

Lemma os_RemoveAll_effect (path : string) (e : Env) r e' :
  os_RemoveAll path e = (r, e') ->
  e_calls e' = CallRemoveAll path :: e_calls e /\
  e_faults e' = e_faults e /\
  e_containers e' = e_containers e /\
  e_networks e' = e_networks e.
Proof.
  unfold os_RemoveAll.
  destruct (e_faults e (CallRemoveAll path)); [|destruct (path =? "")];
    intros H; inversion H; subst; repeat split.
Qed.

(** A pass in which no unit erred leaves no labeled container. *)
Lemma container_pass_clean (qb : QuorumBuilder) (e0 e : Env)
  (hist : list (types_Container * error)) :
  container_pass e0 hist e ->
  Permutation (map fst hist) (labeled_containers qb e0) ->
  Forall (fun h => snd h = None) hist ->
  labeled_containers qb e = [].
Proof.
  intros (_ & _ & _ & Hcs) P Hall. unfold labeled_containers.
  rewrite Hcs, filter_filter. apply filter_none. intros x Hx.
  destruct (label_match (label_filters (commonLabels qb)) (c_Labels x)) eqn:L;
    [|apply andb_false_r].
  assert (Hin : In x (map fst hist)).
  { eapply Permutation_in; [symmetry; exact P|].
    unfold labeled_containers. apply filter_In. split; assumption. }
  apply in_map_iff in Hin. destruct Hin as (h & Hh & Hhi).
  rewrite Forall_forall in Hall. specialize (Hall h Hhi). cbn beta in Hall.
  assert (R : removed_by hist x = true).
  { unfold removed_by. apply existsb_exists. exists h. split; [assumption|].
    destruct h as [hc hr]; cbn [fst snd] in *; subst hc hr.
    unfold has_id. rewrite String.eqb_refl. reflexivity. }
  rewrite R. reflexivity.
Qed.

Lemma network_pass_clean (qb : QuorumBuilder) (e0 e : Env)
  (hist : list (types_NetworkResource * error)) :
  network_pass e0 hist e ->
  Permutation (map fst hist) (labeled_networks qb e0) ->
  Forall (fun h => snd h = None) hist ->
  labeled_networks qb e = [].
Proof.
  intros (_ & _ & _ & Hns) P Hall. unfold labeled_networks.
  rewrite Hns, filter_filter. apply filter_none. intros x Hx.
  destruct (label_match (label_filters (commonLabels qb)) (n_Labels x)) eqn:L;
    [|apply andb_false_r].
  assert (Hin : In x (map fst hist)).
  { eapply Permutation_in; [symmetry; exact P|].
    unfold labeled_networks. apply filter_In. split; assumption. }
  apply in_map_iff in Hin. destruct Hin as (h & Hh & Hhi).
  rewrite Forall_forall in Hall. specialize (Hall h Hhi). cbn beta in Hall.
  assert (R : net_removed_by hist x = true).
  { unfold net_removed_by. apply existsb_exists. exists h. split; [assumption|].
    destruct h as [hc hr]; cbn [fst snd] in *; subst hc hr.
    rewrite String.eqb_refl. reflexivity. }
  rewrite R. reflexivity.
Qed.

(** Every unit of a pass has had its call. *)
Lemma pass_calls {X} (call : X -> Call) (hist : list (X * error)) (l : list X) (x : X) :
  Permutation (map fst hist) l -> In x l ->
  In (call x) (map (fun h => call (fst h)) hist).
Proof.
  intros P Hx. apply (Permutation_in _ (Permutation_sym P)) in Hx.
  apply in_map_iff in Hx. destruct Hx as (h & <- & Hh).
  apply in_map_iff. exists h. split; [reflexivity|assumption].
Qed.

Lemma listed_containers (qb : QuorumBuilder) (e : Env) :
  filter (fun c => label_match (label_filters (commonLabels qb)) (c_Labels c)
                   && (true || c_Running c)) (e_containers e)
  = labeled_containers qb e.
Proof.
  unfold labeled_containers. apply filter_ext. intros c. simpl. apply andb_true_r.
Qed.

Lemma not_in_removals (f : Filters) (hist : list (types_Container * error)) :
  ~ In (CallNetworkList f)
       (map (fun h => CallContainerRemove (ID (fst h)) true) hist).
Proof.
  intros H. apply in_map_iff in H. destruct H as (h & E & _). discriminate.
Qed.

Lemma filter_all {X} (l : list X) : filter (fun _ => true) l = l.
Proof. induction l as [|x l IH]; simpl; [|rewrite IH]; reflexivity. Qed.

Lemma container_pass_start (e : Env) : container_pass e [] e.
Proof. repeat split. simpl. symmetry. apply filter_all. Qed.

Lemma network_pass_start (e : Env) : network_pass e [] e.
Proof. repeat split. simpl. symmetry. apply filter_all. Qed.

(** What one [Destroy] does, for every schedule of its two passes. *)
Lemma Destroy_run (s_c s_n : Schedule) (qb : QuorumBuilder) (w : World) :
  let f := label_filters (commonLabels qb) in
  exists r w' new,
    Destroy s_c s_n qb w = Ret r w' /\
    e_calls (w_env w') = (new ++ e_calls (w_env w))%list /\
    e_faults (w_env w') = e_faults (w_env w) /\
    In (CallRemoveAll (tmpDir qb)) new /\
    (e_faults (w_env w) (CallContainerList f true) = None ->
     forall c, In c (labeled_containers qb (w_env w)) ->
               In (CallContainerRemove (ID c) true) new) /\
    (In (CallNetworkList f) new ->
     e_faults (w_env w) (CallContainerList f true) = None /\
     labeled_containers qb (w_env w') = [] /\
     (e_faults (w_env w) (CallNetworkList f) = None ->
      forall n, In n (labeled_networks qb (w_env w)) ->
                In (CallNetworkRemove (n_ID n)) new)) /\
    (r = None ->
     In (CallNetworkList f) new /\
     e_faults (w_env w) (CallContainerList f true) = None /\
     e_faults (w_env w) (CallNetworkList f) = None /\
     labeled_networks qb (w_env w') = []) /\
    (forall m, r = Some m -> exists msg, m = "destroy: " ++ msg).
Proof.
  intros f. subst f. unfold Destroy. unfold_go.
  set (f := label_filters (commonLabels qb)).
  destruct (os_RemoveAll (tmpDir qb) (w_env w)) as [r0 e1] eqn:E1. go_red.
  destruct (os_RemoveAll_effect _ _ _ _ E1) as (C1 & F1 & K1 & N1).
  unfold ContainerList. go_red. rewrite F1.
  destruct (e_faults (w_env w) (CallContainerList f true)) as [lerr|] eqn:FL; go_red.
  { (* the listing of containers fails *)
    eexists; eexists; exists [CallContainerList f true; CallRemoveAll (tmpDir qb)].
    split; [reflexivity|]. go_red. simpl. rewrite C1.
    split; [reflexivity|]. split; [assumption|]. split; [auto|].
    split; [discriminate|].
    split; [intros [H|[H|[]]]; discriminate|].
    split; [discriminate|]. intros m H; inversion H; eauto. }
  subst f. rewrite (listed_containers qb e1).
  set (f := label_filters (commonLabels qb)) in *.
  set (e2 := called (CallContainerList f true) e1).
  set (w2 := mkWorld _ (w_goroutines w) e2).
  destruct (doWorkInParallel_history remove_container (container_pass e2)
              (remove_container_step e2) s_c "removing containers"
              (labeled_containers qb e1) w2 (container_pass_start e2))
    as (hc & rc & w3 & E3 & I3 & P3 & _ & R3 & M3).
  rewrite E3.
  assert (L1 : labeled_containers qb e1 = labeled_containers qb (w_env w))
    by (unfold labeled_containers; rewrite K1; reflexivity).
  assert (L2 : labeled_containers qb e2 = labeled_containers qb e1) by reflexivity.
  destruct I3 as (C3 & F3 & N3 & K3).
  assert (I3 : container_pass e2 hc (w_env w3)) by (repeat split; assumption).
  destruct rc as [m|].
  { (* a removal of the container pass fails *)
    eexists; eexists.
    exists (map (fun h => CallContainerRemove (ID (fst h)) true) hc
            ++ [CallContainerList f true; CallRemoveAll (tmpDir qb)])%list.
    split; [reflexivity|]. go_red.
    split; [rewrite C3; simpl; rewrite C1, <- app_assoc; reflexivity|].
    split; [rewrite F3; simpl; assumption|].
    split; [apply in_or_app; right; simpl; auto|].
    split.
    { intros _ c Hc. apply in_or_app. left.
      apply (pass_calls (fun x => CallContainerRemove (ID x) true) hc
               (labeled_containers qb e1)); [exact P3|rewrite L1; exact Hc]. }
    split.
    { intros H. apply in_app_or in H. destruct H as [H|[H|[H|[]]]];
        try discriminate. exfalso; eapply not_in_removals; exact H. }
    split; [discriminate|]. intros m' H; inversion H; subst; eexists; reflexivity. }
  (* the container pass removed everything *)
  assert (Hclean : labeled_containers qb (w_env w3) = []).
  { eapply container_pass_clean; [exact I3| rewrite L2; exact P3|].
    apply R3; reflexivity. }
  unfold NetworkList. go_red. rewrite F3. simpl e_faults. rewrite F1.
  destruct (e_faults (w_env w) (CallNetworkList f)) as [nerr|] eqn:FN; go_red.
  { (* the listing of networks fails *)
    eexists; eexists.
    exists (CallNetworkList f
            :: map (fun h => CallContainerRemove (ID (fst h)) true) hc
            ++ [CallContainerList f true; CallRemoveAll (tmpDir qb)])%list.
    split; [reflexivity|]. go_red.
    split; [simpl; rewrite C3; simpl; rewrite C1, <- app_assoc; reflexivity|].
    split; [simpl; rewrite F3; simpl; assumption|].
    split; [right; apply in_or_app; right; simpl; auto|].
    split.
    { intros _ c Hc. right. apply in_or_app. left.
      apply (pass_calls (fun x => CallContainerRemove (ID x) true) hc
               (labeled_containers qb e1)); [exact P3|rewrite L1; exact Hc]. }
    split; [intros _; split; [reflexivity|split; [exact Hclean|discriminate]]|].
    split; [discriminate|]. intros m' H; inversion H; subst; eexists; reflexivity. }
  set (e4 := called (CallNetworkList f) (w_env w3)).
  set (w4 := mkWorld (w_log w3) (w_goroutines w3) e4).
  destruct (doWorkInParallel_history remove_network (network_pass e4)
              (remove_network_step e4) s_n "removing network"
              (labeled_networks qb (w_env w3)) w4 (network_pass_start e4))
    as (hn & rn & w5 & E5 & I5 & P5 & _ & R5 & M5).
  change (filter (fun n => label_match f (n_Labels n)) (e_networks (w_env w3)))
    with (labeled_networks qb (w_env w3)).
  rewrite E5.
  assert (L3 : labeled_networks qb (w_env w3) = labeled_networks qb (w_env w))
    by (unfold labeled_networks; rewrite N3; simpl; rewrite N1; reflexivity).
  destruct I5 as (C5 & F5 & K5 & N5).
  assert (I5 : network_pass e4 hn (w_env w5)) by (repeat split; assumption).
  assert (Hnew : e_calls (w_env w5) =
            ((map (fun h => CallNetworkRemove (n_ID (fst h))) hn
              ++ CallNetworkList f
              :: map (fun h => CallContainerRemove (ID (fst h)) true) hc
              ++ [CallContainerList f true; CallRemoveAll (tmpDir qb)])
             ++ e_calls (w_env w))%list).
  { rewrite C5; simpl; rewrite C3; simpl; rewrite C1.
    repeat (rewrite <- app_assoc; simpl). reflexivity. }
  exists (match rn with Some m => Some ("destroy: " ++ m) | None => None end), w5.
  eexists.
  split; [destruct rn; reflexivity|].
  split; [exact Hnew|].
  split; [rewrite F5; simpl; rewrite F3; simpl; assumption|].
  split; [apply in_or_app; right; right; apply in_or_app; right; simpl; auto|].
  split.
  { intros _ c Hc. apply in_or_app; right; right. apply in_or_app. left.
    apply (pass_calls (fun x => CallContainerRemove (ID x) true) hc
             (labeled_containers qb e1)); [exact P3|rewrite L1; exact Hc]. }
  split.
  { intros _. split; [reflexivity|]. split.
    - unfold labeled_containers. rewrite K5. exact Hclean.
    - intros _ n Hn. apply in_or_app. left.
      apply (pass_calls (fun x => CallNetworkRemove (n_ID x)) hn
               (labeled_networks qb (w_env w3))); [exact P5|rewrite L3; exact Hn]. }
  split.
  { destruct rn as [m|]; [discriminate|]. intros _.
    split; [apply in_or_app; right; left; reflexivity|].
    split; [reflexivity|]. split; [reflexivity|].
    eapply network_pass_clean; [exact I5|exact P5|]. apply R5; reflexivity. }
  intros m' H. destruct rn as [m|]; inversion H; subst. eexists; reflexivity.
Qed.

(** With no labeled container and no labeled network, and an engine that
    answers the two listings, [Destroy] returns [nil]; it starts no
    goroutine and asks for no removal. *)
Lemma Destroy_nothing_left (s_c s_n : Schedule) (qb : QuorumBuilder) (w : World) :
  let f := label_filters (commonLabels qb) in
  e_faults (w_env w) (CallContainerList f true) = None ->
  e_faults (w_env w) (CallNetworkList f) = None ->
  labeled_containers qb (w_env w) = [] ->
  labeled_networks qb (w_env w) = [] ->
  exists w',
    Destroy s_c s_n qb w = Ret None w' /\
    w_goroutines w' = w_goroutines w /\
    e_calls (w_env w') =
      CallNetworkList f :: CallContainerList f true :: CallRemoveAll (tmpDir qb)
      :: e_calls (w_env w).
Proof.
  intros f FL FN Hc Hn. subst f. unfold Destroy. unfold_go.
  destruct (os_RemoveAll (tmpDir qb) (w_env w)) as [r0 e1] eqn:E1. go_red.
  destruct (os_RemoveAll_effect _ _ _ _ E1) as (C1 & F1 & K1 & N1).
  unfold ContainerList. go_red. rewrite F1, FL. go_red.
  rewrite (listed_containers qb e1).
  replace (labeled_containers qb e1) with (@nil types_Container)
    by (unfold labeled_containers in *; rewrite K1; symmetry; exact Hc).
  unfold doWorkInParallel at 1. unfold_go. cbn [length Nat.eqb]. go_red.
  unfold NetworkList. go_red. cbn [called e_faults e_networks].
  rewrite F1, FN. go_red.
  replace (filter _ (e_networks e1)) with (@nil types_NetworkResource)
    by (unfold labeled_networks in *; rewrite N1; symmetry; exact Hn).
  unfold doWorkInParallel. unfold_go. cbn [length Nat.eqb]. go_red.
  eexists. split; [reflexivity|]. go_red. split; [reflexivity|].
  simpl. rewrite C1. reflexivity.
Qed.

(** C6.  When a [Destroy] has returned [nil], nothing with the build's
    labels is left, and a second [Destroy] of the same builder, under any
    schedule, finds nothing in either listing, starts no goroutine, asks
    for no removal and returns [nil]. *)
Theorem Destroy_twice :
  forall (s1 s2 s3 s4 : Schedule) (qb : QuorumBuilder) (w w1 : World),
    Destroy s1 s2 qb w = Ret None w1 ->
    let f := label_filters (commonLabels qb) in
    labeled_containers qb (w_env w1) = [] /\
    labeled_networks qb (w_env w1) = [] /\
    exists w2,
      Destroy s3 s4 qb w1 = Ret None w2 /\
      w_goroutines w2 = w_goroutines w1 /\
      e_calls (w_env w2) =
        CallNetworkList f :: CallContainerList f true :: CallRemoveAll (tmpDir qb)
        :: e_calls (w_env w1).
Proof.
  intros s1 s2 s3 s4 qb w w1 H f.
  destruct (Destroy_run s1 s2 qb w)
    as (r & w' & new & E & _ & F & _ & _ & HN & HR & _).
  rewrite H in E. inversion E; subst r w'. clear E.
  destruct (HR eq_refl) as (Hin & FL & FN & Hn).
  destruct (HN Hin) as (_ & Hc & _).
  split; [exact Hc|]. split; [exact Hn|].
  apply Destroy_nothing_left; try assumption; rewrite F; assumption.
Qed.

Lemma Destroy_twice_witness :
  let w1 := final (Destroy fifo fifo built (leftovers no_faults)) in
  let f := label_filters (commonLabels built) in
  labeled_containers built (w_env w1) = [] /\
  labeled_networks built (w_env w1) = [] /\
  exists w2,
    Destroy fifo (mkSchedule [1] [0]) built w1 = Ret None w2 /\
    w_goroutines w2 = w_goroutines w1 /\
    e_calls (w_env w2) =
      CallNetworkList f :: CallContainerList f true :: CallRemoveAll (tmpDir built)
      :: e_calls (w_env w1).
Proof.
  intros w1 f.
  apply (Destroy_twice fifo fifo fifo (mkSchedule [1] [0]) built (leftovers no_faults)).
  vm_compute. reflexivity.
Defined.

(** C7, as stated, fails: one container that cannot be removed makes
    [Destroy] return after the container pass.  The other container is
    removed; the network is neither listed nor removed and stays; the
    error speaks of the container pass only, although no network could
    have been removed either. *)
Lemma Destroy_skips_network_pass :
  exists w',
    Destroy fifo fifo built (leftovers (busy_and_networks "aaaaaa01")) =
      Ret (Some ("destroy: removing containers: 1/2" ++ nl ++ "device or resource busy")) w' /\
    labeled_containers built (w_env w') = [first_left] /\
    labeled_networks built (w_env w') = [net1_left] /\
    existsb is_network_call (e_calls (w_env w')) = false.
Proof. eexists. split; [vm_compute; reflexivity|]. repeat split. Qed.

(** An account of callbacks that make one call to the engine each: the
    calls were made one after the other, in the order of the account. *)
Lemma account_each_in_turn {X} (callback : nat -> X -> M error)
  (op : X -> Env -> error * Env) :
  (forall idx x w, exists lg,
     callback idx x w =
       Ret (fst (op x (w_env w))) (mkWorld lg (w_goroutines w) (snd (op x (w_env w))))) ->
  forall runs w w',
    account callback w runs w' ->
    all_returned runs = true /\
    answers_of runs
      = fst (each_in_turn op (map (fun r => snd (run_unit r)) runs) (w_env w)) /\
    w_env w' = snd (each_in_turn op (map (fun r => snd (run_unit r)) runs) (w_env w)).
Proof.
  intros Hcb. induction runs as [|r runs IH]; intros w w' Ha; simpl in Ha.
  - subst. repeat split.
  - destruct Ha as (_ & w1 & E & Ha).
    destruct (Hcb (fst (run_unit r)) (snd (run_unit r)) w) as (lg & Ec).
    rewrite Ec in E.
    destruct (run_result r) as [a|] eqn:Er; [|discriminate].
    inversion E; subst a w1. clear E.
    destruct (IH _ _ Ha) as (Hall & Hans & Hw). cbn [w_env] in Hans, Hw.
    cbn [map each_in_turn].
    destruct (op (snd (run_unit r)) (w_env w)) as [a e1]. cbn [fst snd] in *.
    destruct (each_in_turn op (map (fun r0 => snd (run_unit r0)) runs) e1) as [rs e2].
    cbn [fst snd] in *.
    split; [unfold all_returned in *; simpl; rewrite Er; exact Hall|].
    split; [|exact Hw].
    unfold answers_of in *. simpl. rewrite Er. simpl. rewrite Hans. reflexivity.
Qed.

Lemma indexed_snd {X} (l : list X) : map snd (indexed l) = l.
Proof. unfold indexed. apply combine_snd. apply length_seq. Qed.

(** A fan-out whose callbacks make one call to the engine each: the calls
    are made one after the other in some order of the elements, whatever
    they answer; the result is [nil] when none erred, and otherwise the
    error with the title, the count of those that did not err, the total
    and the messages, in the order received. *)
Lemma fan_out_each_in_turn {X} (s : Schedule) (title : string) (elements : list X)
  (callback : nat -> X -> M error) (op : X -> Env -> error * Env) (w : World) :
  (forall idx x w, exists lg,
     callback idx x w =
       Ret (fst (op x (w_env w))) (mkWorld lg (w_goroutines w) (snd (op x (w_env w))))) ->
  exists order errs w',
    Permutation order elements /\
    Permutation errs (failures (fst (each_in_turn op order (w_env w)))) /\
    w_env w' = snd (each_in_turn op order (w_env w)) /\
    doWorkInParallel s title elements callback w =
      Ret (match errs with
           | [] => None
           | _ :: _ =>
               Some (title ++ ": " ++ itoa (length elements - length errs) ++ "/"
                           ++ itoa (length elements) ++ nl ++ String.concat nl errs)
           end) w'.
Proof.
  intros Hcb.
  destruct (Nat.eq_dec (length elements) 0) as [E0|HN].
  - assert (elements = []) by (destruct elements; [reflexivity|discriminate]).
    subst elements. exists [], []. eexists.
    split; [constructor|]. split; [constructor|]. split; [|reflexivity]. reflexivity.
  - destruct (doWorkInParallel_run s title elements callback w HN)
      as (runs & w1 & Ha & P & E).
    destruct (account_each_in_turn callback op Hcb runs _ _ Ha) as (Hall & Hans & Hw).
    cbn [fanned_out w_env] in Hans, Hw.
    pose proof (account_length runs elements P) as HL.
    destruct (collect_all (recv_picks s) runs _ Hall HL HN) as (Es & Perr & Hd).
    cbn zeta in Es, Perr, Hd. rewrite Es in E.
    set (allErr := errs_of _) in *.
    exists (map (fun r => snd (run_unit r)) runs), allErr, w1.
    split.
    { rewrite <- (map_map run_unit snd). rewrite (Permutation_map snd P).
      rewrite indexed_snd. reflexivity. }
    split; [rewrite <- Hans; exact Perr|]. split; [exact Hw|].
    rewrite E. unfold aggregate, strings_Join.
    replace (length elements - length allErr) with (dones_of
      (shuffle (recv_picks s) (map msg_of (answers_of runs)))) by lia.
    destruct allErr; reflexivity.
Qed.

Lemma remove_container_calls (idx : nat) (c : types_Container) (w : World) :
  exists lg,
    remove_container idx c w =
      Ret (fst (ContainerRemove (ID c) true (w_env w)))
          (mkWorld lg (w_goroutines w) (snd (ContainerRemove (ID c) true (w_env w)))).
Proof.
  unfold remove_container. unfold_go.
  destruct (ContainerRemove (ID c) true (w_env w)). eexists. reflexivity.
Qed.

Lemma remove_network_calls (idx : nat) (n : types_NetworkResource) (w : World) :
  exists lg,
    remove_network idx n w =
      Ret (fst (NetworkRemove (n_ID n) (w_env w)))
          (mkWorld lg (w_goroutines w) (snd (NetworkRemove (n_ID n) (w_env w)))).
Proof.
  unfold remove_network. unfold_go.
  destruct (NetworkRemove (n_ID n) (w_env w)). eexists. reflexivity.
Qed.

Lemma ContainerRemove_keeps (id : string) (force : bool) (e : Env) :
  e_faults (snd (ContainerRemove id force e)) = e_faults e /\
  e_networks (snd (ContainerRemove id force e)) = e_networks e.
Proof.
  unfold ContainerRemove. destruct (e_faults e _); [split; reflexivity|].
  destruct (find_container id e); [|split; reflexivity].
  destruct (c_Running t && negb force); split; reflexivity.
Qed.

Lemma containers_in_turn_keep (order : list types_Container) :
  forall e,
    e_faults (snd (each_in_turn (fun c => ContainerRemove (ID c) true) order e))
      = e_faults e /\
    e_networks (snd (each_in_turn (fun c => ContainerRemove (ID c) true) order e))
      = e_networks e.
Proof.
  induction order as [|c order IH]; intros e; [split; reflexivity|].
  cbn [each_in_turn].
  destruct (ContainerRemove_keeps (ID c) true e) as [F N].
  destruct (ContainerRemove (ID c) true e) as [r e1]. cbn [snd] in F, N.
  destruct (IH e1) as [F1 N1].
  destruct (each_in_turn _ order e1) as [rs e2]. cbn [snd] in *.
  split; congruence.
Qed.

(** C7, amended.  What [Destroy] does, for every schedule of its two
    passes.  It asks for the removal of the temp directory and drops the
    answer.  Then it lists the labeled containers; when the listing fails
    it returns that error after ["destroy: "] and has made no other call.
    Otherwise it asks for the forced removal of every labeled container,
    once each, one after the other in some order, whatever the others
    answer.  When a removal erred it returns, after ["destroy: "], the
    error of the pass (the count of removals that did not err, the total
    and the messages of those that erred), and it has made no call about
    a network.  Otherwise it lists the labeled networks, returns a failure
    of that listing after ["destroy: "], and else asks for the removal of
    every labeled network, once each, whatever the others answer; it
    returns [nil] when none erred and else, after ["destroy: "], the error
    of that pass. *)
Theorem Destroy_passes :
  forall (s_c s_n : Schedule) (qb : QuorumBuilder) (w : World),
    let f := label_filters (commonLabels qb) in
    let e := w_env w in
    let e1 := snd (os_RemoveAll (tmpDir qb) e) in
    let e2 := called (CallContainerList f true) e1 in
    match e_faults e (CallContainerList f true) with
    | Some err =>
        exists w',
          Destroy s_c s_n qb w = Ret (Some ("destroy: " ++ err)) w' /\ w_env w' = e2
    | None =>
        exists order_c errs_c,
          Permutation order_c (labeled_containers qb e) /\
          let pass_c := each_in_turn (fun c => ContainerRemove (ID c) true) order_c e2 in
          let e3 := snd pass_c in
          let e4 := called (CallNetworkList f) e3 in
          Permutation errs_c (failures (fst pass_c)) /\
          match errs_c with
          | _ :: _ =>
              exists w',
                Destroy s_c s_n qb w =
                  Ret (Some ("destroy: removing containers: "
                             ++ itoa (length order_c - length errs_c) ++ "/"
                             ++ itoa (length order_c) ++ nl
                             ++ String.concat nl errs_c)) w' /\
                w_env w' = e3
          | [] =>
              match e_faults e (CallNetworkList f) with
              | Some err =>
                  exists w',
                    Destroy s_c s_n qb w = Ret (Some ("destroy: " ++ err)) w' /\
                    w_env w' = e4
              | None =>
                  exists order_n errs_n w',
                    Permutation order_n (labeled_networks qb e) /\
                    let pass_n :=
                      each_in_turn (fun n => NetworkRemove (n_ID n)) order_n e4 in
                    Permutation errs_n (failures (fst pass_n)) /\
                    w_env w' = snd pass_n /\
                    Destroy s_c s_n qb w =
                      Ret (match errs_n with
                           | [] => None
                           | _ :: _ =>
                               Some ("destroy: removing network: "
                                     ++ itoa (length order_n - length errs_n) ++ "/"
                                     ++ itoa (length order_n) ++ nl
                                     ++ String.concat nl errs_n)
                           end) w'
              end
          end
    end.
Proof.
  intros s_c s_n qb w f e e1 e2. subst e.
  unfold Destroy. unfold_go.
  destruct (os_RemoveAll (tmpDir qb) (w_env w)) as [r0 e1'] eqn:E1. go_red.
  destruct (os_RemoveAll_effect _ _ _ _ E1) as (C1 & F1 & K1 & N1).
  subst e1 e2. cbn [snd].
  unfold ContainerList. go_red. rewrite F1. fold f.
  destruct (e_faults (w_env w) (CallContainerList f true)) as [lerr|] eqn:FL; go_red.
  { eexists. split; reflexivity. }
  subst f. rewrite (listed_containers qb e1').
  set (f := label_filters (commonLabels qb)) in *.
  assert (L1 : labeled_containers qb e1' = labeled_containers qb (w_env w))
    by (unfold labeled_containers; rewrite K1; reflexivity).
  rewrite L1.
  set (e2 := called (CallContainerList f true) e1').
  set (w2 := mkWorld _ (w_goroutines w) e2).
  destruct (fan_out_each_in_turn s_c "removing containers"
              (labeled_containers qb (w_env w)) remove_container
              (fun c => ContainerRemove (ID c) true) w2 remove_container_calls)
    as (order_c & errs_c & w3 & Pc & Pe & Hw3 & Ec).
  rewrite Ec. cbn [w_env w2] in Pe, Hw3.
  exists order_c, errs_c. split; [exact Pc|]. cbn zeta. split; [exact Pe|].
  rewrite (Permutation_length Pc).
  destruct errs_c as [|m errs_c]; go_red.
  2:{ eexists. split; [reflexivity|exact Hw3]. }
  destruct (containers_in_turn_keep order_c e2) as [F3 N3]. rewrite <- Hw3 in F3, N3.
  unfold NetworkList. go_red. rewrite F3. cbn [e2 called e_faults]. rewrite F1. fold f.
  destruct (e_faults (w_env w) (CallNetworkList f)) as [nerr|] eqn:FN; go_red.
  { eexists. split; [reflexivity|]. rewrite Hw3. reflexivity. }
  change (filter (fun n => label_match f (n_Labels n)) (e_networks (w_env w3)))
    with (labeled_networks qb (w_env w3)).
  assert (L3 : labeled_networks qb (w_env w3) = labeled_networks qb (w_env w)).
  { unfold labeled_networks. rewrite N3. cbn [e2 called e_networks]. rewrite N1.
    reflexivity. }
  rewrite L3.
  set (w4 := mkWorld (w_log w3) (w_goroutines w3) (called (CallNetworkList f) (w_env w3))).
  destruct (fan_out_each_in_turn s_n "removing network"
              (labeled_networks qb (w_env w)) remove_network
              (fun n => NetworkRemove (n_ID n)) w4 remove_network_calls)
    as (order_n & errs_n & w5 & Pn & Pen & Hw5 & En).
  rewrite En. cbn [w_env w4] in Pen, Hw5. rewrite Hw3 in Pen, Hw5.
  exists order_n, errs_n, w5. split; [exact Pn|]. split; [exact Pen|].
  rewrite (Permutation_length Pn).
  destruct errs_n as [|m errs_n]; go_red; (split; [exact Hw5|reflexivity]).
Qed.

Lemma Destroy_passes_witness :
  exists w',
    Destroy fifo fifo built (leftovers (busy "bbbbbb02")) =
      Ret (Some ("destroy: removing containers: 1/2"
                 ++ String "010" "device or resource busy")) w' /\
    e_networks (w_env w') = [net1_left] /\
    existsb is_network_call (e_calls (w_env w')) = false.
Proof.
  pose proof (Destroy_passes fifo fifo built (leftovers (busy "bbbbbb02"))) as H.
  cbn zeta in H.
  change (e_faults (w_env (leftovers (busy "bbbbbb02")))
            (CallContainerList (label_filters (commonLabels built)) true))
    with (@None string) in H.
  cbv iota in H.
  destruct H as (order_c & errs_c & Pc & Pe & H).
  change (labeled_containers built (w_env (leftovers (busy "bbbbbb02"))))
    with [first_left; second_left] in Pc.
  apply Permutation_sym, Permutation_length_2_inv in Pc.
  destruct Pc as [Eo|Eo]; subst order_c.
  - assert (Hf : failures (fst (each_in_turn (fun c => ContainerRemove (ID c) true)
                    [first_left; second_left]
                    (called (CallContainerList (label_filters (commonLabels built)) true)
                       (snd (os_RemoveAll (tmpDir built)
                               (w_env (leftovers (busy "bbbbbb02"))))))))
                 = ["device or resource busy"]) by (vm_compute; reflexivity).
    rewrite Hf in Pe. apply Permutation_sym, Permutation_length_1_inv in Pe.
    subst errs_c. cbv iota in H. destruct H as (w' & E & Hw).
    exists w'. split; [exact E|]. rewrite Hw. split; vm_compute; reflexivity.
  - assert (Hf : failures (fst (each_in_turn (fun c => ContainerRemove (ID c) true)
                    [second_left; first_left]
                    (called (CallContainerList (label_filters (commonLabels built)) true)
                       (snd (os_RemoveAll (tmpDir built)
                               (w_env (leftovers (busy "bbbbbb02"))))))))
                 = ["device or resource busy"]) by (vm_compute; reflexivity).
    rewrite Hf in Pe. apply Permutation_sym, Permutation_length_1_inv in Pe.
    subst errs_c. cbv iota in H. destruct H as (w' & E & Hw).
    exists w'. split; [exact E|]. rewrite Hw. split; vm_compute; reflexivity.
Defined.

(* ------------------------------------------------------------------ *)
(** ** What the aggregate error says *)

Lemma string_app_assoc (a b c : string) : (a ++ b) ++ c = a ++ b ++ c.
Proof. induction a as [|ch a IH]; simpl; [|rewrite IH]; reflexivity. Qed.

Lemma string_app_nil_r (a : string) : a ++ "" = a.
Proof. induction a as [|ch a IH]; simpl; [|rewrite IH]; reflexivity. Qed.

(** [strings.Join] keeps every element as it is. *)
Lemma Join_contains (sep m : string) (l : list string) :
  In m l -> exists pre post, strings_Join l sep = pre ++ m ++ post.
Proof.
  unfold strings_Join. induction l as [|x l IH]; intros H; [contradiction|].
  destruct H as [->|H].
  - exists "". destruct l as [|y l].
    + exists "". simpl. symmetry. apply string_app_nil_r.
    + exists (sep ++ String.concat sep (y :: l)). reflexivity.
  - destruct (IH H) as (pre & post & E).
    destruct l as [|y l]; [contradiction|].
    exists (x ++ sep ++ pre), post.
    change (String.concat sep (x :: y :: l))
      with (x ++ sep ++ String.concat sep (y :: l)).
    rewrite E. rewrite !string_app_assoc. reflexivity.
Qed.

Lemma failures_In (rs : list error) (m : string) :
  In (Some m) rs -> In m (failures rs).
Proof.
  intros H. unfold failures. apply in_flat_map. exists (Some m).
  split; [assumption|left; reflexivity].
Qed.

(** C2, as stated, fails: with the same two containers listed in the same
    order, the container pass in which unit 0 fails and the one in which
    unit 1 fails return the same error.  The error has the title, the
    count of successes, the total and the message; no index is in it. *)
Lemma aggregate_error_without_index :
  nth_error (labeled_containers built (w_env (leftovers no_faults))) 0 = Some first_left /\
  nth_error (labeled_containers built (w_env (leftovers no_faults))) 1 = Some second_left /\
  exists w0 w1,
    let err := Some ("destroy: removing containers: 1/2" ++ nl ++ "device or resource busy") in
    Destroy fifo fifo built (leftovers (busy (ID first_left))) = Ret err w0 /\
    Destroy fifo fifo built (leftovers (busy (ID second_left))) = Ret err w1 /\
    labeled_containers built (w_env w0) = [first_left] /\
    labeled_containers built (w_env w1) = [second_left].
Proof.
  split; [reflexivity|]. split; [reflexivity|].
  eexists; eexists. cbn zeta.
  split; [vm_compute; reflexivity|]. split; [vm_compute; reflexivity|].
  split; reflexivity.
Qed.

(** C2, amended.  Whenever a fan-out returns an aggregate error, there is
    an account of it in which every unit is run exactly once, and the
    aggregate error contains the error message of every unit whose callback
    answered an error. *)
Theorem aggregate_error_lists_messages :
  forall (A : Type) (s : Schedule) (title : string) (elements : list A)
         (callback : nat -> A -> M error) (w : World) (agg : string) (w' : World),
    doWorkInParallel s title elements callback w = Ret (Some agg) w' ->
    exists runs,
      account callback (fanned_out title (length elements) w) runs w' /\
      Permutation (map run_unit runs) (indexed elements) /\
      forall r m,
        In r runs ->
        run_result r = Some (Some m) ->
        exists pre post, agg = pre ++ m ++ post.
Proof.
  intros A s title elements callback w agg w' E.
  destruct (Nat.eq_dec (length elements) 0) as [E0|HN].
  { unfold doWorkInParallel, bind, log_Debug in E. rewrite E0 in E.
    cbn [Nat.eqb] in E. discriminate. }
  destruct (doWorkInParallel_run s title elements callback w HN)
    as (runs & w1 & Ha & P & E1).
  rewrite E in E1.
  pose proof (account_length runs elements P) as HL.
  destruct (all_returned runs) eqn:Hall.
  2:{ rewrite (collect_blocked (recv_picks s) runs _ Hall HL) in E1. discriminate. }
  destruct (collect_all (recv_picks s) runs _ Hall HL HN) as (Es & Perr & _).
  cbn zeta in Es, Perr. rewrite Es in E1.
  set (allErr := errs_of _) in *.
  destruct (0 <? length allErr)%nat; [|discriminate].
  inversion E1; subst agg w1. clear E1.
  exists runs. split; [exact Ha|]. split; [exact P|].
  intros r m Hr Hm.
  assert (Hin : In m allErr).
  { eapply Permutation_in; [symmetry; exact Perr|].
    apply failures_In. unfold answers_of. apply in_flat_map.
    exists r. split; [exact Hr|]. rewrite Hm. left; reflexivity. }
  destruct (Join_contains nl m allErr Hin) as (pre & post & J).
  unfold aggregate. rewrite J.
  exists (title ++ ": " ++ itoa (dones_of
            (shuffle (recv_picks s) (map msg_of (answers_of runs)))) ++ "/"
          ++ itoa (length elements) ++ nl ++ pre), post.
  rewrite !string_app_assoc. reflexivity.
Qed.

Lemma aggregate_error_lists_messages_witness :
  exists runs,
    account remove_container
      (fanned_out "removing containers" 2 (leftovers (busy "bbbbbb02"))) runs
      (final (doWorkInParallel fifo "removing containers" [first_left; second_left]
                remove_container (leftovers (busy "bbbbbb02")))) /\
    Permutation (map run_unit runs) (indexed [first_left; second_left]) /\
    forall r m,
      In r runs ->
      run_result r = Some (Some m) ->
      exists pre post,
        "removing containers: 1/2" ++ nl ++ "device or resource busy" = pre ++ m ++ post.
Proof.
  apply (aggregate_error_lists_messages types_Container fifo "removing containers"
           [first_left; second_left] remove_container (leftovers (busy "bbbbbb02"))).
  vm_compute. reflexivity.
Defined.

(* ------------------------------------------------------------------ *)
(** ** The build pipeline *)

Lemma quiet_ret {A} (a : A) : quiet (ret a).
Proof. intros w. exists []. split; [reflexivity|constructor]. Qed.

Lemma quiet_lift {A} (f : Env -> A * Env) : quiet (lift f).
Proof.
  intros w. exists []. unfold lift. destruct (f (w_env w)).
  split; [reflexivity|constructor].
Qed.

Lemma quiet_recv {A} (ch : Chan A) : quiet (recv ch).
Proof.
  intros w. exists []. unfold recv. destruct ch; split; try reflexivity; constructor.
Qed.

Lemma quiet_Hang {A} : quiet (@Hang A).
Proof. intros w. exists []. split; [reflexivity|constructor]. Qed.

Lemma quiet_go_started (n : nat) : quiet (go_started n).
Proof. intros w. exists []. split; [reflexivity|constructor]. Qed.

Lemma quiet_log (msg : string) (ctx : list string) :
  is_marker (msg, ctx) = false -> quiet (log_Debug msg ctx).
Proof.
  intros H w. exists [(msg, ctx)]. split; [reflexivity|]. constructor; [assumption|constructor].
Qed.

Lemma quiet_bind {A B} (m : M A) (k : A -> M B) :
  quiet m -> (forall a, quiet (k a)) -> quiet (bind m k).
Proof.
  intros Hm Hk w. unfold bind. destruct (Hm w) as (l1 & E1 & F1).
  destruct (m w) as [a w1|w1]; simpl in E1.
  - destruct (Hk a w1) as (l2 & E2 & F2).
    exists (l2 ++ l1)%list. rewrite E2, E1, app_assoc.
    split; [reflexivity|]. apply Forall_app; split; assumption.
  - exists l1. split; assumption.
Qed.

Lemma quiet_defer {A B} (d : M B) (body : M A) :
  quiet d -> quiet body -> quiet (defer d body).
Proof.
  intros Hd Hb. unfold defer. apply quiet_bind; [assumption|]. intros r.
  apply quiet_bind; [assumption|]. intros _. apply quiet_ret.
Qed.

Lemma enters_log {A} (msg : string) (ctx : list string) (m : M A) :
  quiet m -> enters (msg, ctx) (log_Debug msg ctx ;;; m).
Proof.
  intros Hm w. unfold bind, log_Debug.
  destruct (Hm (mkWorld ((msg, ctx) :: w_log w) (w_goroutines w) (w_env w)))
    as (l & E & F).
  exists l. split; assumption.
Qed.

Ltac quiet_auto :=
  repeat first
    [ apply quiet_ret
    | apply quiet_lift
    | apply quiet_recv
    | apply quiet_Hang
    | apply quiet_go_started
    | apply quiet_defer
    | apply quiet_log; reflexivity
    | apply quiet_bind; [|intros]
    | match goal with
      | |- quiet (match ?x with _ => _ end) => destruct x
      | |- quiet (if ?b then _ else _) => destruct b
      end ].

Lemma quiet_run_workers {A} (callback : nat -> A -> M error) :
  (forall idx el, quiet (callback idx el)) ->
  forall gs w, exists l,
    w_log (snd (run_workers callback gs w)) = (l ++ w_log w)%list /\
    Forall (fun x => is_marker x = false) l.
Proof.
  intros H gs. induction gs as [|g gs IH]; intros w; simpl.
  - exists []. split; [reflexivity|constructor].
  - unfold worker. destruct (H (fst g) (snd g) w) as (l1 & E1 & F1).
    destruct (callback (fst g) (snd g) w) as [[err|] w1|w1]; simpl in E1;
      destruct (IH w1) as (l2 & E2 & F2);
      destruct (run_workers callback gs w1) as [ms w2]; simpl in *;
      exists (l2 ++ l1)%list; rewrite E2, E1, app_assoc;
      (split; [reflexivity|apply Forall_app; split; assumption]).
Qed.

Lemma quiet_doWorkInParallel {A} (s : Schedule) (title : string)
  (elements : list A) (callback : nat -> A -> M error) :
  is_marker (title, []) = false ->
  (forall idx el, quiet (callback idx el)) ->
  quiet (doWorkInParallel s title elements callback).
Proof.
  intros Ht H. unfold doWorkInParallel.
  apply quiet_bind; [apply quiet_log; assumption|]. intros _.
  destruct (length elements =? 0)%nat; [apply quiet_ret|].
  apply quiet_bind; [apply quiet_go_started|]. intros _ w.
  destruct (quiet_run_workers callback H
              (shuffle (run_picks s) (indexed elements)) w) as (l & E & F).
  destruct (run_workers callback _ w) as [sending w1]. simpl in E.
  exists l. split; [|assumption].
  destruct (select_loop _ _ _ _) as [[doneCount allErr]|]; [|assumption].
  destruct (0 <? length allErr)%nat; assumption.
Qed.

Lemma quiet_GenerateKeys (t : TesseraTxManager) : quiet (GenerateKeys t).
Proof. unfold GenerateKeys, select_one. quiet_auto. Qed.

Lemma quiet_NewTesseraTxManager (fns : list ConfigureFn) :
  quiet (NewTesseraTxManager fns).
Proof.
  unfold NewTesseraTxManager.
  apply quiet_bind; [apply quiet_GenerateKeys|]. intros [[public private] [err|]];
    apply quiet_ret.
Qed.

Lemma quiet_pullImage (qb : QuorumBuilder) (image : string) : quiet (pullImage qb image).
Proof. unfold pullImage. quiet_auto. Qed.

Lemma quiet_Container_Start (co : Collaborators) (c : Container) :
  quiet (Container_Start co c).
Proof. destruct c; simpl; [apply quiet_ret|apply quiet_lift]. Qed.

Lemma quiet_startContainers (co : Collaborators) (s : Schedule) (qb : QuorumBuilder)
  (containerFn : nat -> QuorumBuilderNode -> M (result Container)) :
  (forall idx node, quiet (containerFn idx node)) ->
  quiet (startContainers co s qb containerFn).
Proof.
  intros H. unfold startContainers. apply quiet_doWorkInParallel; [reflexivity|].
  intros idx node. apply quiet_bind; [apply H|]. intros [c|err]; [|apply quiet_ret].
  apply quiet_bind; [apply quiet_log; reflexivity|]. intros _.
  apply quiet_Container_Start.
Qed.

Lemma quiet_lease (n : nat) (qb : QuorumBuilder) : quiet (lease n qb).
Proof.
  unfold lease. destruct (dockerNetwork qb) as [net|]; [|apply quiet_Hang].
  destruct (GetFreeIPAddrs n net). apply quiet_ret.
Qed.

Lemma enters_startTxManagers (co : Collaborators) (s : Schedule) (qb : QuorumBuilder) :
  enters ("Start Tx Managers", []) (startTxManagers co s qb).
Proof.
  unfold startTxManagers. apply enters_log.
  apply quiet_bind; [apply quiet_lease|]. intros [qb1 [ips|err]]; [|apply quiet_ret].
  apply quiet_bind; [|intros; apply quiet_ret].
  apply quiet_startContainers. intros idx node.
  apply quiet_bind; [apply quiet_pullImage|]. intros [err|]; [apply quiet_ret|].
  apply quiet_bind; [apply quiet_NewTesseraTxManager|]. intros; apply quiet_ret.
Qed.

Lemma enters_startQuorums (co : Collaborators) (s : Schedule) (qb : QuorumBuilder) :
  enters ("Start Quorum nodes", []) (startQuorums co s qb).
Proof.
  unfold startQuorums. apply enters_log.
  apply quiet_bind; [apply quiet_lease|]. intros [qb1 [ips|err]]; [|apply quiet_ret].
  apply quiet_bind; [apply quiet_lift|]. intros [nodes|err]; [|apply quiet_ret].
  apply quiet_bind; [apply quiet_lift|]. intros [err|]; [apply quiet_ret|].
  apply quiet_bind; [apply quiet_lift|]. intros [genesis|err]; [|apply quiet_ret].
  apply quiet_bind; [|intros; apply quiet_ret].
  apply quiet_startContainers. intros idx node.
  apply quiet_bind; [apply quiet_pullImage|]. intros [err|]; [apply quiet_ret|].
  apply quiet_bind; [apply quiet_lift|]. intros; apply quiet_ret.
Qed.

Lemma enters_buildDockerNetwork (qb : QuorumBuilder) :
  enters ("Create Docker network", ["name"; Name qb]) (buildDockerNetwork qb).
Proof.
  unfold buildDockerNetwork. apply enters_log.
  apply quiet_bind; [apply quiet_lift|]. intros [network|err]; apply quiet_ret.
Qed.

Lemma log_since_new (w w' : World) (l : list LogLine) :
  w_log w' = (l ++ w_log w)%list -> log_since w w' = rev l.
Proof.
  intros E. unfold log_since. rewrite E, length_app.
  replace (length l + length (w_log w) - length (w_log w)) with (length l) by lia.
  rewrite firstn_app, Nat.sub_diag, firstn_all. simpl. rewrite app_nil_r. reflexivity.
Qed.

Lemma markers_of_app (l l' : list LogLine) :
  markers_of (l ++ l') = (markers_of l ++ markers_of l')%list.
Proof. unfold markers_of. rewrite filter_app, map_app. reflexivity. Qed.

Lemma markers_of_quiet (l : list LogLine) :
  Forall (fun x => is_marker x = false) l -> markers_of (rev l) = [].
Proof.
  intros F. unfold markers_of. rewrite filter_none; [reflexivity|].
  intros x Hx. apply in_rev in Hx. rewrite Forall_forall in F. auto.
Qed.

(** The lines of a stage, oldest first: its marker, then lines that are
    not markers. *)
Lemma markers_of_stage (l older : list LogLine) (marker : LogLine) :
  Forall (fun x => is_marker x = false) l ->
  is_marker marker = true ->
  markers_of (rev (l ++ marker :: older)) = (markers_of (rev older) ++ [fst marker])%list.
Proof.
  intros F Hm. rewrite rev_app_distr. simpl. rewrite !markers_of_app.
  rewrite (markers_of_quiet l F), app_nil_r.
  unfold markers_of at 2. simpl. rewrite Hm. reflexivity.
Qed.

Lemma quiet_no_marker (l : list LogLine) (msg : string) :
  Forall (fun x => is_marker x = false) l ->
  is_marker (msg, []) = true ->
  ~ In msg (map fst l).
Proof.
  intros F Hm H. apply in_map_iff in H. destruct H as ([m ctx] & E & Hin).
  simpl in E; subst m. rewrite Forall_forall in F. specialize (F _ Hin).
  unfold is_marker in *. simpl in *. congruence.
Qed.

(** The lines of a whole [Build]: the stage markers among them are a
    prefix of the pipeline. *)
Lemma Build_lines (co : Collaborators) (s_tx s_q : Schedule) (qb : QuorumBuilder)
  (w : World) :
  exists lines,
    w_log (final (Build co s_tx s_q qb w)) = (lines ++ w_log w)%list /\
    exists rest, stage_markers = (markers_of (rev lines) ++ rest)%list.
Proof.
  unfold Build. unfold bind at 1. unfold lift.
  destruct (ioutil_TempDir "" (Name qb) (w_env w)) as [[t|err] e1].
  2:{ exists []. split; [reflexivity|]. exists stage_markers. reflexivity. }
  set (w1 := mkWorld (w_log w) (w_goroutines w) e1).
  unfold bind at 1.
  destruct (enters_buildDockerNetwork (set_tmpDir t qb) w1) as (l1 & E1 & F1).
  set (m1 := ("Create Docker network", ["name"; Name (set_tmpDir t qb)])) in *.
  assert (M1 : markers_of (rev (l1 ++ [m1])) = ["Create Docker network"]).
  { exact (markers_of_stage l1 [] m1 F1 eq_refl). }
  destruct (buildDockerNetwork (set_tmpDir t qb) w1) as [[qb2 [err|]] w2|w2];
    cbn [final] in E1.
  1, 3: exists (l1 ++ [m1])%list; cbn [final ret]; rewrite E1;
        repeat (rewrite <- app_assoc; simpl);
        (split; [reflexivity|]); rewrite M1; eexists; reflexivity.
  unfold bind at 1.
  destruct (enters_startTxManagers co s_tx qb2 w2) as (l2 & E2 & F2).
  set (m2 := ("Start Tx Managers", @nil string)) in *.
  assert (M2 : markers_of (rev (l2 ++ m2 :: l1 ++ [m1]))
               = ["Create Docker network"; "Start Tx Managers"]).
  { etransitivity; [exact (markers_of_stage l2 _ m2 F2 eq_refl)|].
    exact (f_equal (fun x => x ++ ["Start Tx Managers"])%list M1). }
  destruct (startTxManagers co s_tx qb2 w2) as [[qb3 [err|]] w3|w3];
    cbn [final] in E2.
  1, 3: exists (l2 ++ m2 :: l1 ++ [m1])%list; cbn [final ret];
        rewrite E2, E1; repeat (rewrite <- app_assoc; simpl);
        (split; [reflexivity|]); rewrite M2; eexists; reflexivity.
  unfold bind at 1.
  destruct (enters_startQuorums co s_q qb3 w3) as (l3 & E3 & F3).
  set (m3 := ("Start Quorum nodes", @nil string)) in *.
  exists (l3 ++ m3 :: l2 ++ m2 :: l1 ++ [m1])%list.
  split.
  - destruct (startQuorums co s_q qb3 w3) as [[qb4 [err|]] w4|w4];
      cbn [final ret] in *; rewrite E3, E2, E1;
      repeat (rewrite <- app_assoc; simpl); reflexivity.
  - exists []. rewrite app_nil_r. symmetry.
    etransitivity; [exact (markers_of_stage l3 _ m3 F3 eq_refl)|].
    exact (f_equal (fun x => x ++ ["Start Quorum nodes"])%list M2).
Qed.

(** C3.  The stages of [Build] are entered in the order of the pipeline,
    each at most once.  Once the temp directory is made and the network is
    built, the tx-manager stage runs; when it returns an error, [Build]
    returns that error from the world the stage ended in, and the
    ledger-node stage is not entered; when it blocks, so does [Build]; when
    it returns [nil], [Build] is the ledger-node stage run from the world
    in which the tx-manager stage has returned. *)
Theorem Build_fails_fast :
  forall (co : Collaborators) (s_tx s_q : Schedule) (qb : QuorumBuilder) (w : World),
    let o := Build co s_tx s_q qb w in
    let lines := log_since w (final o) in
    (exists rest, stage_markers = (markers_of lines ++ rest)%list) /\
    (forall t e1 qb2 w2,
       ioutil_TempDir "" (Name qb) (w_env w) = (Ok t, e1) ->
       buildDockerNetwork (set_tmpDir t qb) (mkWorld (w_log w) (w_goroutines w) e1)
         = Ret (qb2, None) w2 ->
       match startTxManagers co s_tx qb2 w2 with
       | Ret (qb3, Some err) w3 =>
           o = Ret (qb3, Some err) w3 /\ ~ In "Start Quorum nodes" (map fst lines)
       | Ret (qb3, None) w3 => o = startQuorums co s_q qb3 w3
       | Hang w3 => o = Hang w3 /\ ~ In "Start Quorum nodes" (map fst lines)
       end).
Proof.
  intros co s_tx s_q qb w o lines. split.
  - destruct (Build_lines co s_tx s_q qb w) as (l & E & rest & R).
    subst lines o. rewrite (log_since_new _ _ _ E). exists rest. exact R.
  - intros t e1 qb2 w2 H1 H2.
    assert (Hlines : forall w3,
              w_log (final o) = w_log w3 ->
              w_log (final (startTxManagers co s_tx qb2 w2)) = w_log w3 ->
              ~ In "Start Quorum nodes" (map fst lines)).
    { intros w3 Ho Hs.
      destruct (enters_buildDockerNetwork (set_tmpDir t qb)
                  (mkWorld (w_log w) (w_goroutines w) e1)) as (l1 & E1 & F1).
      rewrite H2 in E1. cbn [final w_log] in E1.
      destruct (enters_startTxManagers co s_tx qb2 w2) as (l2 & E2 & F2).
      rewrite Hs in E2. rewrite E1 in E2.
      assert (E : w_log (final o)
                  = ((l2 ++ ("Start Tx Managers", [])
                         :: l1 ++ [("Create Docker network", ["name"; Name (set_tmpDir t qb)])])
                     ++ w_log w)%list).
      { rewrite Ho, E2. repeat (rewrite <- app_assoc; simpl). reflexivity. }
      subst lines. rewrite (log_since_new _ _ _ E).
      rewrite map_rev, <- in_rev, map_app, in_app_iff. simpl.
      rewrite map_app, in_app_iff. simpl.
      intros [H|[H|[H|[H|[]]]]]; try discriminate.
      - exact (quiet_no_marker l2 "Start Quorum nodes" F2 eq_refl H).
      - exact (quiet_no_marker l1 "Start Quorum nodes" F1 eq_refl H). }
    assert (Ho : o = match startTxManagers co s_tx qb2 w2 with
                     | Ret (qb3, Some err) w3 => Ret (qb3, Some err) w3
                     | Ret (qb3, None) w3 => startQuorums co s_q qb3 w3
                     | Hang w3 => Hang w3
                     end).
    { subst o. unfold Build. unfold bind at 1. unfold lift. rewrite H1.
      unfold bind at 1. rewrite H2. unfold bind at 1.
      destruct (startTxManagers co s_tx qb2 w2) as [[qb3 [err|]] w3|w3];
        try reflexivity.
      unfold bind.
      destruct (startQuorums co s_q qb3 w3) as [[qb4 [err|]] w4|w4]; reflexivity. }
    destruct (startTxManagers co s_tx qb2 w2) as [[qb3 [err|]] w3|w3] eqn:Es.
    + split; [exact Ho|]. apply (Hlines w3); [rewrite Ho|]; reflexivity.
    + exact Ho.
    + split; [exact Ho|]. apply (Hlines w3); [rewrite Ho|]; reflexivity.
Qed.

Lemma Build_fails_fast_witness :
  let o := Build quiet_collaborators fifo fifo (builder_of 2) wf_world in
  o = Ret (fst (returned (builder_of 2, None) wf_stage), Some wf_error) (final wf_stage) /\
  ~ In "Start Quorum nodes" (map fst (log_since wf_world (final o))).
Proof.
  intros o.
  assert (H1 : ioutil_TempDir "" (Name (builder_of 2)) (w_env wf_world)
               = (Ok "/tmp/net10", snd wf_tmp)) by (vm_compute; reflexivity).
  assert (H2 : buildDockerNetwork (set_tmpDir "/tmp/net10" (builder_of 2))
                 (mkWorld (w_log wf_world) (w_goroutines wf_world) (snd wf_tmp))
               = Ret (wf_builder, None) (final wf_network))
    by (vm_compute; reflexivity).
  assert (Es : startTxManagers quiet_collaborators fifo wf_builder (final wf_network)
               = Ret (fst (returned (builder_of 2, None) wf_stage), Some wf_error)
                     (final wf_stage))
    by (vm_compute; reflexivity).
  pose proof (proj2 (Build_fails_fast quiet_collaborators fifo fifo (builder_of 2) wf_world)
                "/tmp/net10" (snd wf_tmp) wf_builder (final wf_network) H1 H2) as H.
  rewrite Es in H. exact H.
Defined.

(* ------------------------------------------------------------------ *)
(** ** More on the parallel executor *)

Lemma combine_seq_In {A} (l : list A) :
  forall start i x,
    In (i, x) (combine (seq start (length l)) l) ->
    start <= i /\ nth_error l (i - start) = Some x.
Proof.
  induction l as [|a l IH]; intros start i x H; simpl in H; [contradiction|].
  destruct H as [H|H].
  - inversion H; subst. rewrite Nat.sub_diag. split; [lia|reflexivity].
  - destruct (IH _ _ _ H) as [Hle Hn]. split; [lia|].
    replace (i - start) with (S (i - S start)) by lia. exact Hn.
Qed.

Lemma indexed_In {A} (elements : list A) (idx : nat) (el : A) :
  In (idx, el) (indexed elements) -> nth_error elements idx = Some el.
Proof.
  intros H. destruct (combine_seq_In elements 0 idx el H) as [_ Hn].
  rewrite Nat.sub_0_r in Hn. exact Hn.
Qed.

Lemma account_preserves {A} (callback : nat -> A -> M error) (P : World -> Prop)
  (runs : list (Run A)) :
  (forall r, In r runs ->
     forall w, P w -> P (final (callback (fst (run_unit r)) (snd (run_unit r)) w))) ->
  forall w w', account callback w runs w' -> P w -> P w'.
Proof.
  induction runs as [|r runs IH]; intros H w w' Ha HP; simpl in Ha.
  - subst; assumption.
  - destruct Ha as (_ & w1 & E & Ha).
    apply (IH (fun r' Hr' => H r' (or_intror Hr')) w1 w' Ha).
    specialize (H r (or_introl eq_refl) w HP). rewrite E in H.
    destruct (run_result r); exact H.
Qed.

Lemma doWorkInParallel_final {A} (s : Schedule) (title : string) (elements : list A)
  (callback : nat -> A -> M error) (w : World) :
  length elements <> 0 ->
  exists runs,
    account callback (fanned_out title (length elements) w) runs
            (final (doWorkInParallel s title elements callback w)) /\
    Permutation (map run_unit runs) (indexed elements).
Proof.
  intros HN.
  destruct (doWorkInParallel_run s title elements callback w HN)
    as (runs & w1 & Ha & P & E).
  exists runs. split; [|exact P]. rewrite E.
  destruct (select_loop _ _ _ _) as [[d errs]|]; [|exact Ha].
  destruct (0 <? length errs)%nat; exact Ha.
Qed.

(** What every callback keeps, the fan-out keeps, the callbacks running
    one after the other in the order of the schedule.  It is used where a
    callback is one call to the engine. *)
Lemma fan_out_keeps :
  forall (A : Type) (s : Schedule) (title : string) (elements : list A)
         (callback : nat -> A -> M error) (P : Env -> Prop),
    (forall idx el w,
       nth_error elements idx = Some el ->
       P (w_env w) -> P (w_env (final (callback idx el w)))) ->
    forall w,
      P (w_env w) ->
      P (w_env (final (doWorkInParallel s title elements callback w))).
Proof.
  intros A s title elements callback P H w HP.
  destruct (Nat.eq_dec (length elements) 0) as [E0|HN].
  - unfold doWorkInParallel, bind, log_Debug. rewrite E0. exact HP.
  - destruct (doWorkInParallel_final s title elements callback w HN)
      as (runs & Ha & Pu).
    apply (account_preserves callback (fun w => P (w_env w)) runs) with
      (w := fanned_out title (length elements) w); [|exact Ha|exact HP].
    intros r Hr w0 HP0.
    assert (Hin : In (run_unit r) (indexed elements)).
    { eapply Permutation_in; [exact Pu|]. apply in_map. exact Hr. }
    destruct (run_unit r) as [idx el]. cbn [fst snd].
    apply H; [|exact HP0]. apply indexed_In. exact Hin.
Qed.

(** The answers of an account are answers of the callback. *)
Lemma account_answers {A} (callback : nat -> A -> M error) (Q : error -> Prop)
  (runs : list (Run A)) :
  (forall idx el w a w1, callback idx el w = Ret a w1 -> Q a) ->
  forall w w', account callback w runs w' -> Forall Q (answers_of runs).
Proof.
  intros H. induction runs as [|r runs IH]; intros w w' Ha; simpl in *.
  - constructor.
  - destruct Ha as (_ & w1 & E & Ha). specialize (IH _ _ Ha).
    unfold answers_of in *. simpl.
    destruct (run_result r) as [a|]; simpl; [|exact IH].
    constructor; [|exact IH]. eapply H; exact E.
Qed.

Lemma failures_all (rs : list error) :
  Forall (fun a => a <> None) rs -> length (failures rs) = length rs.
Proof.
  unfold failures. induction 1 as [|a rs Ha _ IH]; simpl; [reflexivity|].
  destruct a as [err|]; [|congruence]. simpl. rewrite IH. reflexivity.
Qed.

(** Callbacks that cannot answer [nil] make a fan-out that cannot. *)
Lemma fan_out_never_nil :
  forall (A : Type) (s : Schedule) (title : string) (elements : list A)
         (callback : nat -> A -> M error),
    elements <> [] ->
    (forall idx el w a w1, callback idx el w = Ret a w1 -> a <> None) ->
    forall w w', doWorkInParallel s title elements callback w <> Ret None w'.
Proof.
  intros A s title elements callback Hne H w w' E.
  assert (HN : length elements <> 0) by (destruct elements; [congruence|discriminate]).
  destruct (doWorkInParallel_run s title elements callback w HN)
    as (runs & w1 & Ha & P & E1).
  rewrite E in E1.
  pose proof (account_length runs elements P) as HL.
  destruct (all_returned runs) eqn:Hall.
  2:{ rewrite (collect_blocked (recv_picks s) runs _ Hall HL) in E1. discriminate. }
  destruct (collect_all (recv_picks s) runs _ Hall HL HN) as (Es & Perr & _).
  cbn zeta in Es, Perr. rewrite Es in E1.
  pose proof (account_answers callback (fun a => a <> None) runs H _ _ Ha) as Hq.
  pose proof (failures_all _ Hq) as Hf.
  rewrite (proj1 (answers_of_length runs) Hall), HL in Hf.
  apply Permutation_length in Perr. rewrite Hf in Perr.
  destruct (errs_of _) as [|e0 errs]; [simpl in Perr; lia|]. discriminate.
Qed.

(** X2.  When no callback can answer [nil], a fan-out over at least one
    item never returns [nil]: it returns an aggregate error or blocks. *)
Theorem doWorkInParallel_never_nil :
  forall (A : Type) (s : Schedule) (title : string) (elements : list A)
         (callback : nat -> A -> M error),
    elements <> [] ->
    (forall idx el w a w1, callback idx el w = Ret a w1 -> a <> None) ->
    forall w w', doWorkInParallel s title elements callback w <> Ret None w'.
Proof. exact fan_out_never_nil. Qed.

Lemma doWorkInParallel_never_nil_witness :
  doWorkInParallel fifo "starting containers" three_items
    (fun idx el => ret (Some ("cannot do " ++ el))) world0
  <> Ret None (fanned_out "starting containers" 3 world0).
Proof.
  apply (doWorkInParallel_never_nil string fifo "starting containers" three_items
           (fun idx el => ret (Some ("cannot do " ++ el)))).
  - discriminate.
  - intros idx el w a w1 E. inversion E. discriminate.
Defined.

(* ------------------------------------------------------------------ *)
(** ** More on image pulls *)

Lemma existsb_eqb_In (x : string) (l : list string) :
  existsb (String.eqb x) l = true <-> In x l.
Proof.
  rewrite existsb_exists. split.
  - intros (y & Hy & E). apply String.eqb_eq in E. subst; assumption.
  - intros H. exists x. split; [assumption|apply String.eqb_refl].
Qed.

(** X3.  [pullImage] always returns.  When the engine answers the listing
    and lists the image, it asks for no pull and returns [nil].  In every
    other case, also when the image is there but the listing failed, it
    asks the engine to pull once, and it returns an error exactly when the
    engine rejects the pull: ["pullImage: <image> - <message>"]. *)
Theorem pullImage_pulls_when_unlisted :
  forall (qb : QuorumBuilder) (image : string) (w : World),
  exists err w',
    pullImage qb image w = Ret err w' /\
    (In image (e_images (w_env w)) ->
     e_faults (w_env w) (CallImageList [("reference", image)]) = None ->
     err = None /\
     pull_count image (w_env w') = pull_count image (w_env w)) /\
    (~ In image (e_images (w_env w)) \/
     e_faults (w_env w) (CallImageList [("reference", image)]) <> None ->
     pull_count image (w_env w') = S (pull_count image (w_env w)) /\
     err = match e_faults (w_env w) (CallImagePull image) with
           | Some msg => Some ("pullImage: " ++ image ++ " - " ++ msg)
           | None => None
           end).
Proof.
  intros qb image w. rewrite pullImage_run. cbn zeta.
  pose proof (existsb_eqb_In image (e_images (w_env w))) as Hin.
  assert (P : is_pull image (CallImagePull image) = true) by apply String.eqb_refl.
  destruct (existsb (String.eqb image) (e_images (w_env w))) eqn:Ex;
    destruct (e_faults (w_env w) (CallImageList [("reference", image)])) as [le|] eqn:FL;
    cbn [andb negb is_err].
  - destruct (e_faults (w_env w) (CallImagePull image)) as [pe|];
      (eexists; eexists; split; [reflexivity|]); cbn [w_env];
      (split; [intros _ H; discriminate|]); intros _;
      rewrite ?pull_count_with_images, pull_count_called, P; split; reflexivity.
  - eexists; eexists; split; [reflexivity|]. cbn [w_env]. split.
    + intros _ _. split; [reflexivity|]. rewrite pull_count_called. reflexivity.
    + intros [H|H]; [exfalso; apply H, Hin; reflexivity|congruence].
  - destruct (e_faults (w_env w) (CallImagePull image)) as [pe|];
      (eexists; eexists; split; [reflexivity|]); cbn [w_env];
      (split; [intros _ H; discriminate|]); intros _;
      rewrite ?pull_count_with_images, pull_count_called, P; split; reflexivity.
  - destruct (e_faults (w_env w) (CallImagePull image)) as [pe|];
      (eexists; eexists; split; [reflexivity|]); cbn [w_env];
      (split; [intros H _; apply Hin in H; discriminate|]); intros _;
      rewrite ?pull_count_with_images, pull_count_called, P; split; reflexivity.
Qed.

Lemma pullImage_pulls_when_unlisted_witness :
  exists err w',
    pullImage (builder_of 1) "tessera:latest" (in_world pull_fails) = Ret err w' /\
    pull_count "tessera:latest" (w_env w') = 1 /\
    err = Some "pullImage: tessera:latest - registry unreachable".
Proof.
  destruct (pullImage_pulls_when_unlisted (builder_of 1) "tessera:latest"
              (in_world pull_fails)) as (err & w' & E & _ & H).
  exists err, w'. split; [exact E|]. apply H. left. intros [].
Defined.

(* ------------------------------------------------------------------ *)
(** ** More on the transaction manager *)

(** Every return of [GenerateKeys] carries an error of its own making. *)
Lemma GenerateKeys_errors (t : TesseraTxManager) (w : World) :
  match GenerateKeys t w with
  | Ret (public, private, retErr) _ =>
      public = None /\ private = None /\
      exists msg, retErr = Some ("GenerateKeys: " ++ msg)
  | Hang _ => True
  end.
Proof.
  unfold GenerateKeys. unfold_go.
  env_step as now e0.
  env_step as [tmpDataDir|err] e1;
    [|repeat split; eexists; reflexivity].
  env_step as [containerId|err] e2;
    [|repeat split; eexists; reflexivity].
  env_step as [err|] e3;
    [repeat split; eexists; reflexivity|].
  env_step as [statusChan [err|]] e4; [|exact I].
  env_step as r e5. repeat split; eexists; reflexivity.
Qed.

(** X4.  [NewTesseraTxManager] never hands out a transaction manager:
    whenever it returns, it returns an error, and the error is one of
    [GenerateKeys]. *)
Theorem NewTesseraTxManager_never_succeeds :
  forall (configureFns : list ConfigureFn) (w : World) r w',
    NewTesseraTxManager configureFns w = Ret r w' ->
    exists msg, r = Err ("GenerateKeys: " ++ msg).
Proof.
  intros fns w r w'. unfold NewTesseraTxManager, bind.
  pose proof (GenerateKeys_errors
                (mkTessera (fold_left (fun c cfgFn => cfgFn c) fns [])) w) as H.
  destruct (GenerateKeys _ w) as [[[pub priv] err] w1|w1]; [|discriminate].
  destruct H as (_ & _ & msg & He). subst err. unfold ret.
  intros E; inversion E. exists msg. reflexivity.
Qed.

Lemma NewTesseraTxManager_never_succeeds_witness :
  exists msg,
    returned (Err "")
      (NewTesseraTxManager [ConfigureDockerImage "tessera:latest"] (in_world wait_fails))
    = Err ("GenerateKeys: " ++ msg).
Proof.
  apply (NewTesseraTxManager_never_succeeds
           [ConfigureDockerImage "tessera:latest"] (in_world wait_fails) _
           (final (NewTesseraTxManager [ConfigureDockerImage "tessera:latest"]
                     (in_world wait_fails)))).
  vm_compute. reflexivity.
Defined.

Lemma ContainerCreate_created (cfg : ContainerConfig) (e : Env) id e' :
  ContainerCreate cfg e = (Ok id, e') ->
  find_container id e' <> None.
Proof.
  unfold ContainerCreate. destruct (e_faults e (CallContainerCreate cfg)); [discriminate|].
  intros H; inversion H; subst. unfold find_container. simpl.
  unfold has_id at 1. simpl. rewrite String.eqb_refl. discriminate.
Qed.

Lemma ContainerStart_rejected (id : string) (e : Env) err e' :
  ContainerStart id e = (Some err, e') ->
  e' = called (CallContainerStart id) e.
Proof.
  unfold ContainerStart. destruct (e_faults e (CallContainerStart id)).
  - intros H; inversion H; reflexivity.
  - destruct (find_container id e); intros H; inversion H; reflexivity.
Qed.

(** X5.  When the engine has created the key-generation container and then
    refuses to start it, [GenerateKeys] returns the start error naming the
    container, and leaves the container behind: the refused start is its
    last call, no removal is asked for. *)
Theorem GenerateKeys_start_rejected_leaves_container :
  forall (t : TesseraTxManager) (w : World) tmpDataDir e1 containerId e2 err e3,
    ioutil_TempDir "" ("qctl-" ++ ztoa (e_now (w_env w))) (w_env w) = (Ok tmpDataDir, e1) ->
    ContainerCreate (keygen_Config (DockerImage (tm_config t)) "/tm" tmpDataDir) e1
      = (Ok containerId, e2) ->
    ContainerStart containerId e2 = (Some err, e3) ->
    GenerateKeys t w =
      Ret (None, None,
           Some ("GenerateKeys: can't start container " ++ containerId ++ " - " ++ err))
          (mkWorld (w_log w) (w_goroutines w) e3) /\
    find_container containerId e3 <> None /\
    e_calls e3 = CallContainerStart containerId :: e_calls e2.
Proof.
  intros t w tmpDataDir e1 containerId e2 err e3 H1 H2 H3.
  split.
  - unfold GenerateKeys. unfold_go. unfold time_Now_Unix. go_red.
    rewrite H1. go_red. rewrite H2. go_red. rewrite H3. go_red. reflexivity.
  - pose proof (ContainerCreate_created _ _ _ _ H2) as Hc.
    apply ContainerStart_rejected in H3. subst e3. split; [exact Hc|reflexivity].
Qed.

Lemma GenerateKeys_start_rejected_leaves_container_witness :
  let w := in_world start_fails in
  let e3 := w_env (final (GenerateKeys a_tessera w)) in
  GenerateKeys a_tessera w =
    Ret (None, None,
         Some ("GenerateKeys: can't start container c0ffee1 - no space left on device"))
        (mkWorld [] 0 e3) /\
  find_container "c0ffee1" e3 <> None.
Proof.
  intros w e3.
  destruct (GenerateKeys_start_rejected_leaves_container a_tessera w
              "/tmp/qctl-15000000000"
              (snd (ioutil_TempDir "" "qctl-1500000000" (w_env w)))
              "c0ffee1"
              (snd (ContainerCreate
                      (keygen_Config "tessera:latest" "/tm" "/tmp/qctl-15000000000")
                      (snd (ioutil_TempDir "" "qctl-1500000000" (w_env w)))))
              "no space left on device" e3) as (E & Hc & _).
  - vm_compute; reflexivity.
  - vm_compute; reflexivity.
  - vm_compute; reflexivity.
  - split; [exact E|exact Hc].
Defined.

(** The engine never touches the directories of the host. *)
Lemma ContainerCreate_dirs (cfg : ContainerConfig) (e : Env) :
  e_dirs (snd (ContainerCreate cfg e)) = e_dirs e.
Proof. unfold ContainerCreate. destruct (e_faults e _); reflexivity. Qed.

Lemma ContainerStart_dirs (id : string) (e : Env) :
  e_dirs (snd (ContainerStart id e)) = e_dirs e.
Proof.
  unfold ContainerStart. destruct (e_faults e _); [reflexivity|].
  destruct (find_container id e); reflexivity.
Qed.

Lemma ContainerWait_dirs (id : string) (e : Env) :
  e_dirs (snd (ContainerWait id e)) = e_dirs e.
Proof. unfold ContainerWait. destruct (e_faults e _); reflexivity. Qed.

Lemma ContainerRemove_dirs (id : string) (force : bool) (e : Env) :
  e_dirs (snd (ContainerRemove id force e)) = e_dirs e.
Proof.
  unfold ContainerRemove. destruct (e_faults e _); [reflexivity|].
  destruct (find_container id e); [|reflexivity].
  destruct (c_Running t && negb force); reflexivity.
Qed.

Lemma ioutil_TempDir_made (dir pattern : string) (e : Env) name e' :
  ioutil_TempDir dir pattern e = (Ok name, e') ->
  e_dirs e' = name :: e_dirs e.
Proof.
  unfold ioutil_TempDir. destruct (e_faults e _); [discriminate|].
  intros H; inversion H; reflexivity.
Qed.

(** X6.  [GenerateKeys] never removes its scratch directory: once made, the
    directory is still there in the world [GenerateKeys] leaves, whether it
    returns, with whatever error, or blocks. *)
Theorem GenerateKeys_keeps_scratch_directory :
  forall (t : TesseraTxManager) (w : World) tmpDataDir e1,
    ioutil_TempDir "" ("qctl-" ++ ztoa (e_now (w_env w))) (w_env w) = (Ok tmpDataDir, e1) ->
    e_dirs (w_env (final (GenerateKeys t w))) = tmpDataDir :: e_dirs (w_env w).
Proof.
  intros t w tmpDataDir e1 H1.
  pose proof (ioutil_TempDir_made _ _ _ _ _ H1) as D1.
  unfold GenerateKeys. unfold_go. unfold time_Now_Unix. go_red.
  rewrite H1. go_red.
  match goal with
  | |- context [ContainerCreate ?cfg e1] =>
      pose proof (ContainerCreate_dirs cfg e1) as D2;
      destruct (ContainerCreate cfg e1) as [[containerId|err] e2]
  end; go_red; cbn [snd] in D2; [|congruence].
  pose proof (ContainerStart_dirs containerId e2) as D3.
  destruct (ContainerStart containerId e2) as [[err|] e3]; go_red; cbn [snd] in D3;
    [congruence|].
  pose proof (ContainerWait_dirs containerId e3) as D4.
  destruct (ContainerWait containerId e3) as [[statusChan [err|]] e4]; go_red;
    cbn [snd] in D4; [|congruence].
  pose proof (ContainerRemove_dirs containerId true e4) as D5.
  destruct (ContainerRemove containerId true e4) as [r e5]; go_red; cbn [snd] in D5.
  congruence.
Qed.

Lemma GenerateKeys_keeps_scratch_directory_witness :
  e_dirs (w_env (final (GenerateKeys a_tessera (in_world wait_fails))))
  = ["/tmp/qctl-15000000000"].
Proof.
  apply (GenerateKeys_keeps_scratch_directory a_tessera (in_world wait_fails)
           "/tmp/qctl-15000000000"
           (snd (ioutil_TempDir "" "qctl-1500000000" (w_env (in_world wait_fails))))).
  vm_compute. reflexivity.
Defined.

Lemma ioutil_TempDir_calls (dir pattern : string) (e : Env) :
  e_calls (snd (ioutil_TempDir dir pattern e)) = CallTempDir dir pattern :: e_calls e.
Proof. unfold ioutil_TempDir. destruct (e_faults e _); reflexivity. Qed.

Lemma ContainerCreate_calls (cfg : ContainerConfig) (e : Env) :
  e_calls (snd (ContainerCreate cfg e)) = CallContainerCreate cfg :: e_calls e.
Proof. unfold ContainerCreate. destruct (e_faults e _); reflexivity. Qed.

Lemma ContainerStart_calls (id : string) (e : Env) :
  e_calls (snd (ContainerStart id e)) = CallContainerStart id :: e_calls e.
Proof.
  unfold ContainerStart. destruct (e_faults e _); [reflexivity|].
  destruct (find_container id e); reflexivity.
Qed.

Lemma ContainerWait_calls (id : string) (e : Env) :
  e_calls (snd (ContainerWait id e)) = CallContainerWait id :: e_calls e.
Proof. unfold ContainerWait. destruct (e_faults e _); reflexivity. Qed.

Lemma ContainerRemove_calls (id : string) (force : bool) (e : Env) :
  e_calls (snd (ContainerRemove id force e)) = CallContainerRemove id force :: e_calls e.
Proof.
  unfold ContainerRemove. destruct (e_faults e _); [reflexivity|].
  destruct (find_container id e); [|reflexivity].
  destruct (c_Running t && negb force); reflexivity.
Qed.

(** X18.  The calls of one [GenerateKeys], oldest first, are a beginning of
    the sequence: make the scratch directory; create the container, with
    the configured image, the working directory [/tm], the key-generation
    entrypoint and the directory that [ioutil.TempDir] has just answered
    bound to [/tm]; start the container that [ContainerCreate] has just
    answered; wait for that container; remove that container by force.  It
    goes on exactly as long as the calls succeed, and asks for the removal
    exactly when the wait reports an error. *)
Theorem GenerateKeys_calls_in_order :
  forall (t : TesseraTxManager) (w : World),
    let pattern := "qctl-" ++ ztoa (e_now (w_env w)) in
    let made := ioutil_TempDir "" pattern (w_env w) in
    let tmpDataDir := match fst made with Ok d => d | Err _ => "" end in
    let cfg := mkContainerConfig (DockerImage (tm_config t)) "/tm" keygen_Entrypoint
                                 [tmpDataDir ++ ":/tm"] [] in
    let created := ContainerCreate cfg (snd made) in
    let containerId := match fst created with Ok id => id | Err _ => "" end in
    let started := ContainerStart containerId (snd created) in
    let waited := ContainerWait containerId (snd started) in
    exists new,
      e_calls (w_env (final (GenerateKeys t w))) = (new ++ e_calls (w_env w))%list /\
      begins (rev new)
             [ CallTempDir "" pattern;
               CallContainerCreate cfg;
               CallContainerStart containerId;
               CallContainerWait containerId;
               CallContainerRemove containerId true ] /\
      length new =
        match fst made with
        | Err _ => 1
        | Ok _ =>
            match fst created with
            | Err _ => 2
            | Ok _ =>
                match fst started with
                | Some _ => 3
                | None =>
                    match snd (fst waited) with
                    | None => 4
                    | Some _ => 5
                    end
                end
            end
        end.
Proof.
  intros t w. cbn zeta.
  unfold GenerateKeys. unfold_go. unfold time_Now_Unix. go_red.
  match goal with
  | |- context [ioutil_TempDir ?d ?p (w_env w)] =>
      pose proof (ioutil_TempDir_calls d p (w_env w)) as C1;
      destruct (ioutil_TempDir d p (w_env w)) as [[tmpDataDir|err] e1]
  end; go_red; cbn [snd] in C1.
  2:{ eexists [_]. split; [exact C1|]. split; [eexists; reflexivity|reflexivity]. }
  change (keygen_Config (DockerImage (tm_config t)) "/tm" tmpDataDir)
    with (mkContainerConfig (DockerImage (tm_config t)) "/tm" keygen_Entrypoint
                            [tmpDataDir ++ ":/tm"] []).
  match goal with
  | |- context [ContainerCreate ?cfg e1] =>
      pose proof (ContainerCreate_calls cfg e1) as C2;
      destruct (ContainerCreate cfg e1) as [[containerId|err] e2]
  end; go_red; cbn [snd] in C2.
  2:{ eexists [_; _]. split; [rewrite C2, C1; reflexivity|].
      split; [eexists; reflexivity|reflexivity]. }
  pose proof (ContainerStart_calls containerId e2) as C3.
  destruct (ContainerStart containerId e2) as [[err|] e3]; go_red; cbn [snd] in C3.
  { eexists [_; _; _]. split; [rewrite C3, C2, C1; reflexivity|].
    split; [eexists; reflexivity|reflexivity]. }
  pose proof (ContainerWait_calls containerId e3) as C4.
  destruct (ContainerWait containerId e3) as [[statusChan [err|]] e4]; go_red;
    cbn [snd] in C4.
  2:{ eexists [_; _; _; _]. split; [rewrite C4, C3, C2, C1; reflexivity|].
      split; [eexists; reflexivity|reflexivity]. }
  pose proof (ContainerRemove_calls containerId true e4) as C5.
  destruct (ContainerRemove containerId true e4) as [r e5]; go_red; cbn [snd] in C5.
  eexists [_; _; _; _; _]. split; [rewrite C5, C4, C3, C2, C1; reflexivity|].
  split; [exists []; reflexivity|reflexivity].
Qed.

Example GenerateKeys_calls_when_wait_fails :
  rev (e_calls (w_env (final (GenerateKeys a_tessera (in_world wait_fails))))) =
    [ CallTempDir "" "qctl-1500000000";
      CallContainerCreate
        (mkContainerConfig "tessera:latest" "/tm" keygen_Entrypoint
                           ["/tmp/qctl-15000000000:/tm"] []);
      CallContainerStart "c0ffee1";
      CallContainerWait "c0ffee1";
      CallContainerRemove "c0ffee1" true ].
Proof. vm_compute. reflexivity. Qed.

(* ------------------------------------------------------------------ *)
(** ** More on the build pipeline *)

Lemma NewTesseraTxManager_outcome (fns : list ConfigureFn) (w : World) :
  match NewTesseraTxManager fns w with
  | Ret (Ok _) _ => False
  | _ => True
  end.
Proof.
  unfold NewTesseraTxManager, bind.
  pose proof (GenerateKeys_outcome
                (mkTessera (fold_left (fun c cfgFn => cfgFn c) fns [])) w) as H.
  destruct (GenerateKeys _ w) as [[[pub priv] err] w1|w1]; [|exact I].
  destruct H as (_ & _ & He). destruct err; [exact I|congruence].
Qed.

(** The tx-manager stage over at least one node does not return [nil]. *)
Lemma startTxManagers_outcome (co : Collaborators) (s : Schedule) (qb : QuorumBuilder)
  (w : World) :
  Nodes qb <> [] ->
  match startTxManagers co s qb w with
  | Ret (_, None) _ => False
  | _ => True
  end.
Proof.
  intros Hne. unfold startTxManagers. unfold bind at 1. unfold log_Debug.
  unfold bind at 1. unfold lease.
  destruct (dockerNetwork qb) as [net|]; [|exact I].
  destruct (GetFreeIPAddrs (length (Nodes qb)) net) as [[ips|err] net'];
    unfold ret at 1; [|exact I].
  unfold bind at 1.
  match goal with
  | |- match match ?m with _ => _ end with _ => _ end =>
      destruct m as [[err|] w2|w2] eqn:E; [exact I| |exact I]
  end.
  exfalso. unfold startContainers in E.
  revert E. apply fan_out_never_nil; [exact Hne|].
  intros idx node w0 a w1. unfold bind at 1. unfold bind at 1.
  destruct (pullImage _ _ w0) as [[perr|] w3|w3];
    [unfold ret; intros H; inversion H; discriminate| |discriminate].
  unfold bind at 1.
  pose proof (NewTesseraTxManager_outcome
    [ ConfigureTempDir (tmpDir (set_dockerNetwork (Some net') qb));
      ConfigureNodeCount (length (Nodes (set_dockerNetwork (Some net') qb)));
      ConfigureMyIP (IP_String (nth idx ips 0%Z));
      ConfigureNodeIndex idx;
      ConfigureProvisionId (Name (set_dockerNetwork (Some net') qb));
      ConfigureDockerClient;
      ConfigureNetwork (dockerNetwork (set_dockerNetwork (Some net') qb));
      ConfigureDockerImage (Image (TxManager node));
      ConfigureConfig (Config (TxManager node));
      ConfigureLabels (commonLabels (set_dockerNetwork (Some net') qb)) ] w3) as Hn.
  destruct (NewTesseraTxManager _ w3) as [[tm|terr] w4|w4];
    [contradiction| |discriminate].
  unfold ret. cbn [result_map]. intros H; inversion H; discriminate.
Qed.

(** X7.  With at least one node declared, the tx-manager stage never
    returns [nil]: it returns an error or blocks, for every schedule,
    engine and lease. *)
Theorem startTxManagers_never_nil :
  forall (co : Collaborators) (s : Schedule) (qb : QuorumBuilder) (w : World),
    Nodes qb <> [] ->
    forall qb' w', startTxManagers co s qb w <> Ret (qb', None) w'.
Proof.
  intros co s qb w Hne qb' w' E.
  pose proof (startTxManagers_outcome co s qb w Hne) as H.
  rewrite E in H. exact H.
Qed.

Lemma startTxManagers_never_nil_witness :
  startTxManagers quiet_collaborators fifo wf_builder (final wf_network)
  <> Ret (wf_builder, None) (final wf_network).
Proof.
  apply (startTxManagers_never_nil quiet_collaborators fifo wf_builder (final wf_network)).
  vm_compute. discriminate.
Defined.

Lemma buildDockerNetwork_nodes (qb : QuorumBuilder) (w : World) qb2 err w2 :
  buildDockerNetwork qb w = Ret (qb2, err) w2 -> Nodes qb2 = Nodes qb.
Proof.
  unfold buildDockerNetwork. unfold_go.
  destruct (NewDockerNetwork (Name qb) (commonLabels qb) (w_env w)) as [[network|e] e1];
    go_red; intros H; inversion H; reflexivity.
Qed.

(** X8.  With at least one node declared, [Build] never returns [nil] and
    never enters the ledger-node stage: whatever the engine, the
    collaborators and the schedules do, it returns an error or blocks
    before that stage. *)
Theorem Build_never_succeeds_with_nodes :
  forall (co : Collaborators) (s_tx s_q : Schedule) (qb : QuorumBuilder) (w : World),
    Nodes qb <> [] ->
    let o := Build co s_tx s_q qb w in
    (forall qb' w', o <> Ret (qb', None) w') /\
    ~ In "Start Quorum nodes" (map fst (log_since w (final o))).
Proof.
  intros co s_tx s_q qb w Hne o.
  pose (stops := fun o : Outcome (QuorumBuilder * error) =>
          (match o with Ret (_, None) _ => False | _ => True end) /\
          exists l, w_log (final o) = (l ++ w_log w)%list /\
                    ~ In "Start Quorum nodes" (map fst l)).
  assert (H : stops o).
  { subst o. unfold Build. unfold bind at 1. unfold lift.
    destruct (ioutil_TempDir "" (Name qb) (w_env w)) as [[t|err] e1].
    2:{ split; [exact I|]. exists []. split; [reflexivity|]. intros []. }
    set (w1 := mkWorld (w_log w) (w_goroutines w) e1).
    unfold bind at 1.
    destruct (enters_buildDockerNetwork (set_tmpDir t qb) w1) as (l1 & E1 & F1).
    pose proof (quiet_no_marker l1 "Start Quorum nodes" F1 eq_refl) as N1.
    destruct (buildDockerNetwork (set_tmpDir t qb) w1) as [[qb2 [err|]] w2|w2] eqn:EN;
      cbn [final] in E1.
    1, 3: split; [exact I|]; cbn [final ret]; rewrite E1;
          exists (l1 ++ [("Create Docker network", ["name"; Name (set_tmpDir t qb)])])%list;
          (split; [rewrite <- app_assoc; reflexivity|]);
          rewrite map_app, in_app_iff; simpl;
          intros [H|[H|[]]]; [exact (N1 H)|discriminate].
    apply buildDockerNetwork_nodes in EN. cbn [set_tmpDir Nodes] in EN.
    assert (Hne2 : Nodes qb2 <> []) by (rewrite EN; exact Hne).
    unfold bind at 1.
    pose proof (startTxManagers_outcome co s_tx qb2 w2 Hne2) as Ho.
    destruct (enters_startTxManagers co s_tx qb2 w2) as (l2 & E2 & F2).
    pose proof (quiet_no_marker l2 "Start Quorum nodes" F2 eq_refl) as N2.
    destruct (startTxManagers co s_tx qb2 w2) as [[qb3 [err|]] w3|w3];
      [| contradiction |]; cbn [final] in E2.
    all: split; [exact I|]; cbn [final ret]; rewrite E2, E1;
         exists (l2 ++ ("Start Tx Managers", [])
                    :: l1 ++ [("Create Docker network", ["name"; Name (set_tmpDir t qb)])])%list;
         (split; [repeat (rewrite <- app_assoc; simpl); reflexivity|]);
         rewrite map_app, in_app_iff; simpl; rewrite map_app, in_app_iff; simpl;
         intros [H|[H|[H|[H|[]]]]]; try discriminate; [exact (N2 H)|exact (N1 H)]. }
  destruct H as (Ho & l & El & Hl). split.
  - intros qb' w' E. rewrite E in Ho. exact Ho.
  - rewrite (log_since_new _ _ _ El), map_rev, <- in_rev. exact Hl.
Qed.

Lemma Build_never_succeeds_with_nodes_witness :
  let o := Build quiet_collaborators fifo fifo (builder_of 2) world0 in
  o <> Ret (builder_of 2, None) world0 /\
  ~ In "Start Quorum nodes" (map fst (log_since world0 (final o))).
Proof.
  intros o.
  destruct (Build_never_succeeds_with_nodes quiet_collaborators fifo fifo
              (builder_of 2) world0) as [H1 H2]; [discriminate|].
  split; [apply H1|exact H2].
Defined.

(** X19.  [startQuorums] starts a goroutine only after its preparation went
    through: when the ledger-node stage has started any goroutine, the
    addresses were leased, a node was made for each of them, the
    permissioned nodes were written for these nodes, and then the genesis
    was created for the same nodes with the consensus of the builder.  A
    failure of any of these steps starts nothing. *)
Theorem startQuorums_prepares_first :
  forall (co : Collaborators) (s : Schedule) (qb : QuorumBuilder) (w : World),
    w_goroutines (final (startQuorums co s qb w)) <> w_goroutines w ->
    exists net ips net' nodes e1 e2 genesis e3,
      dockerNetwork qb = Some net /\
      GetFreeIPAddrs (length (Nodes qb)) net = (Ok ips, net') /\
      new_nodes co (tmpDir qb) ips (w_env w) = (Ok nodes, e1) /\
      bootstrap_WritePermissionedNodes co nodes e1 = (None, e2) /\
      bootstrap_NewGenesis co nodes (cons_Name (Consensus qb))
                           (cons_Config (Consensus qb)) e2 = (Ok genesis, e3).
Proof.
  intros co s qb w. unfold startQuorums. unfold_go. unfold lease.
  destruct (dockerNetwork qb) as [net|] eqn:En; [|intros H; contradiction].
  destruct (GetFreeIPAddrs (length (Nodes qb)) net) as [[ips|err] net'] eqn:El;
    unfold ret; go_red; [|intros H; contradiction].
  cbn [set_dockerNetwork tmpDir Nodes Consensus].
  destruct (new_nodes co (tmpDir qb) ips (w_env w)) as [[nodes|err] e1] eqn:E1;
    go_red; [|intros H; contradiction].
  destruct (bootstrap_WritePermissionedNodes co nodes e1) as [[err|] e2] eqn:E2;
    go_red; [intros H; contradiction|].
  destruct (bootstrap_NewGenesis co nodes (cons_Name (Consensus qb))
              (cons_Config (Consensus qb)) e2) as [[genesis|err] e3] eqn:E3;
    go_red; [|intros H; contradiction].
  intros _. exists net, ips, net', nodes, e1, e2, genesis, e3.
  repeat split; assumption || reflexivity.
Qed.

Lemma startQuorums_prepares_first_witness :
  exists nodes e1 e2 genesis e3,
    new_nodes quiet_collaborators (tmpDir wf_builder) [2886860802%Z; 2886860803%Z]
              (w_env (final wf_network)) = (Ok nodes, e1) /\
    bootstrap_WritePermissionedNodes quiet_collaborators nodes e1 = (None, e2) /\
    bootstrap_NewGenesis quiet_collaborators nodes "raft" [] e2 = (Ok genesis, e3).
Proof.
  destruct (startQuorums_prepares_first quiet_collaborators fifo wf_builder
              (final wf_network))
    as (net & ips & net' & nodes & e1 & e2 & genesis & e3 & En & El & E1 & E2 & E3).
  - vm_compute. discriminate.
  - assert (Hips : ips = [2886860802%Z; 2886860803%Z]).
    { vm_compute in En. inversion En; subst net. vm_compute in El.
      inversion El. reflexivity. }
    subst ips. exists nodes, e1, e2, genesis, e3. repeat split; assumption.
Defined.

(* ------------------------------------------------------------------ *)
(** ** More on teardown *)

Lemma remove_container_final (idx : nat) (c : types_Container) (w : World) :
  w_env (final (remove_container idx c w)) = snd (ContainerRemove (ID c) true (w_env w)).
Proof.
  unfold remove_container. unfold_go.
  destruct (ContainerRemove (ID c) true (w_env w)); reflexivity.
Qed.

Lemma remove_network_final (idx : nat) (n : types_NetworkResource) (w : World) :
  w_env (final (remove_network idx n w)) = snd (NetworkRemove (n_ID n) (w_env w)).
Proof.
  unfold remove_network. unfold_go.
  destruct (NetworkRemove (n_ID n) (w_env w)); reflexivity.
Qed.

Lemma ContainerRemove_networks (id : string) (force : bool) (e : Env) :
  e_networks (snd (ContainerRemove id force e)) = e_networks e.
Proof.
  unfold ContainerRemove. destruct (e_faults e _); [reflexivity|].
  destruct (find_container id e); [|reflexivity].
  destruct (c_Running t && negb force); reflexivity.
Qed.

Lemma nth_error_In' {X} (l : list X) (i : nat) (x : X) :
  nth_error l i = Some x -> In x l.
Proof. apply nth_error_In. Qed.

(** What [Destroy] keeps.  A property of the environment that holds once
    the temp directory is dealt with, that no call to the engine disturbs
    by being recorded, and that the removal of each labeled container and
    of each labeled network keeps, holds in the world [Destroy] leaves. *)
Lemma Destroy_keeps (s_c s_n : Schedule) (qb : QuorumBuilder) (w : World)
  (P : Env -> Prop) :
  (forall c e, P e -> P (called c e)) ->
  (forall c e, In c (labeled_containers qb (w_env w)) ->
               P e -> P (snd (ContainerRemove (ID c) true e))) ->
  (forall n e, In n (labeled_networks qb (w_env w)) ->
               P e -> P (snd (NetworkRemove (n_ID n) e))) ->
  P (snd (os_RemoveAll (tmpDir qb) (w_env w))) ->
  P (w_env (final (Destroy s_c s_n qb w))).
Proof.
  intros Hcall Hc Hn H0. unfold Destroy. unfold_go.
  destruct (os_RemoveAll (tmpDir qb) (w_env w)) as [r0 e1] eqn:E1. go_red.
  destruct (os_RemoveAll_effect _ _ _ _ E1) as (C1 & F1 & K1 & N1).
  cbn [snd] in H0.
  unfold ContainerList. go_red.
  set (f := label_filters (commonLabels qb)).
  destruct (e_faults e1 (CallContainerList f true)) as [lerr|]; go_red;
    [apply Hcall; exact H0|].
  subst f. rewrite (listed_containers qb e1).
  set (f := label_filters (commonLabels qb)).
  assert (L1 : labeled_containers qb e1 = labeled_containers qb (w_env w))
    by (unfold labeled_containers; rewrite K1; reflexivity).
  rewrite L1.
  set (w2 := mkWorld _ (w_goroutines w) (called (CallContainerList f true) e1)).
  pose proof (fan_out_keeps types_Container s_c "removing containers"
                (labeled_containers qb (w_env w)) remove_container
                (fun e => P e /\ e_networks e = e_networks (w_env w))) as HK.
  specialize (HK (fun idx el w0 Hel HP =>
    conj (eq_ind_r P (Hc el (w_env w0) (nth_error_In' _ _ _ Hel) (proj1 HP))
                   (remove_container_final idx el w0))
         (eq_trans (eq_trans (f_equal e_networks (remove_container_final idx el w0))
                             (ContainerRemove_networks (ID el) true (w_env w0)))
                   (proj2 HP))) w2).
  assert (H2 : P (w_env w2) /\ e_networks (w_env w2) = e_networks (w_env w)).
  { split; [apply Hcall; exact H0|exact N1]. }
  specialize (HK H2).
  destruct (doWorkInParallel s_c "removing containers" _ remove_container w2)
    as [[m|] w3|w3]; cbn [final] in HK; go_red; [exact (proj1 HK)| |exact (proj1 HK)].
  destruct HK as [HP3 N3].
  unfold NetworkList. go_red.
  destruct (e_faults (w_env w3) (CallNetworkList f)) as [nerr|]; go_red;
    [apply Hcall; exact HP3|].
  change (filter (fun n => label_match f (n_Labels n)) (e_networks (w_env w3)))
    with (labeled_networks qb (w_env w3)).
  assert (L3 : labeled_networks qb (w_env w3) = labeled_networks qb (w_env w))
    by (unfold labeled_networks; rewrite N3; reflexivity).
  rewrite L3.
  set (w4 := mkWorld _ (w_goroutines w3) (called (CallNetworkList f) (w_env w3))).
  pose proof (fan_out_keeps types_NetworkResource s_n "removing network"
                (labeled_networks qb (w_env w)) remove_network P) as HK.
  specialize (HK (fun idx el w0 Hel HP =>
    eq_ind_r P (Hn el (w_env w0) (nth_error_In' _ _ _ Hel) HP)
             (remove_network_final idx el w0)) w4 (Hcall _ _ HP3)).
  destruct (doWorkInParallel s_n "removing network" _ remove_network w4)
    as [[m|] w5|w5]; cbn [final] in HK; go_red; exact HK.
Qed.

Lemma ContainerRemove_spares (id : string) (force : bool) (e : Env) (c : types_Container) :
  ID c <> id ->
  In c (e_containers e) ->
  In c (e_containers (snd (ContainerRemove id force e))).
Proof.
  intros Hid Hin. unfold ContainerRemove.
  destruct (e_faults e _); [exact Hin|].
  destruct (find_container id e); [|exact Hin].
  destruct (c_Running t && negb force); [exact Hin|].
  simpl. apply filter_In. split; [exact Hin|].
  unfold has_id. apply negb_true_iff, String.eqb_neq. exact Hid.
Qed.

Lemma NetworkRemove_containers (id : string) (e : Env) :
  e_containers (snd (NetworkRemove id e)) = e_containers e.
Proof.
  unfold NetworkRemove. destruct (e_faults e _); [reflexivity|].
  destruct (existsb _ _); reflexivity.
Qed.

Lemma NetworkRemove_spares (id : string) (e : Env) (n : types_NetworkResource) :
  n_ID n <> id ->
  In n (e_networks e) ->
  In n (e_networks (snd (NetworkRemove id e))).
Proof.
  intros Hid Hin. unfold NetworkRemove.
  destruct (e_faults e _); [exact Hin|].
  destruct (existsb _ _); [|exact Hin].
  simpl. apply filter_In. split; [exact Hin|].
  apply negb_true_iff, String.eqb_neq. exact Hid.
Qed.

(** X9.  [Destroy] removes nothing but what carries the builder's labels: a
    container whose id is not the id of a labeled container, and a network
    whose id is not the id of a labeled network, are still there in the
    world [Destroy] leaves, for every schedule and whatever the engine
    rejects. *)
Theorem Destroy_removes_only_labeled :
  forall (s_c s_n : Schedule) (qb : QuorumBuilder) (w : World),
    let w' := final (Destroy s_c s_n qb w) in
    (forall c,
       In c (e_containers (w_env w)) ->
       (forall c', In c' (labeled_containers qb (w_env w)) -> ID c' <> ID c) ->
       In c (e_containers (w_env w'))) /\
    (forall n,
       In n (e_networks (w_env w)) ->
       (forall n', In n' (labeled_networks qb (w_env w)) -> n_ID n' <> n_ID n) ->
       In n (e_networks (w_env w'))).
Proof.
  intros s_c s_n qb w w'. subst w'. split.
  - intros c Hin Hid.
    apply (Destroy_keeps s_c s_n qb w (fun e => In c (e_containers e))).
    + intros call e H; exact H.
    + intros c' e Hc' H. apply ContainerRemove_spares; [|exact H].
      intros E. exact (Hid c' Hc' (eq_sym E)).
    + intros n e _ H. rewrite NetworkRemove_containers. exact H.
    + destruct (os_RemoveAll (tmpDir qb) (w_env w)) as [r0 e1] eqn:E1.
      destruct (os_RemoveAll_effect _ _ _ _ E1) as (_ & _ & K1 & _).
      cbn [snd]. rewrite K1. exact Hin.
  - intros n Hin Hid.
    apply (Destroy_keeps s_c s_n qb w (fun e => In n (e_networks e))).
    + intros call e H; exact H.
    + intros c e _ H. rewrite ContainerRemove_networks. exact H.
    + intros n' e Hn' H. apply NetworkRemove_spares; [|exact H].
      intros E. exact (Hid n' Hn' (eq_sym E)).
    + destruct (os_RemoveAll (tmpDir qb) (w_env w)) as [r0 e1] eqn:E1.
      destruct (os_RemoveAll_effect _ _ _ _ E1) as (_ & _ & _ & N1).
      cbn [snd]. rewrite N1. exact Hin.
Qed.

Lemma Destroy_removes_only_labeled_witness :
  let w' := final (Destroy fifo fifo built (shared_host no_faults)) in
  In a_stranger (e_containers (w_env w')) /\
  In net2_network (e_networks (w_env w')).
Proof.
  intros w'.
  destruct (Destroy_removes_only_labeled fifo fifo built (shared_host no_faults))
    as [Hc Hn].
  split.
  - apply (Hc a_stranger).
    + vm_compute. auto.
    + intros c' H. vm_compute in H.
      destruct H as [H|[H|[]]]; subst c'; discriminate.
  - apply (Hn net2_network).
    + vm_compute. auto.
    + intros n' H. vm_compute in H.
      destruct H as [H|[]]; subst n'; discriminate.
Defined.

Lemma ContainerRemove_fs (id : string) (force : bool) (e : Env) :
  e_dirs (snd (ContainerRemove id force e)) = e_dirs e /\
  e_files (snd (ContainerRemove id force e)) = e_files e.
Proof.
  unfold ContainerRemove. destruct (e_faults e _); [split; reflexivity|].
  destruct (find_container id e); [|split; reflexivity].
  destruct (c_Running t && negb force); split; reflexivity.
Qed.

Lemma NetworkRemove_fs (id : string) (e : Env) :
  e_dirs (snd (NetworkRemove id e)) = e_dirs e /\
  e_files (snd (NetworkRemove id e)) = e_files e.
Proof.
  unfold NetworkRemove. destruct (e_faults e _); [split; reflexivity|].
  destruct (existsb _ _); split; reflexivity.
Qed.

(** X10.  All [Destroy] does to the file system is its one [os.RemoveAll]
    of the builder's temp directory, whatever happens afterwards.  With a
    builder that never built (no temp directory recorded), or when the
    removal is rejected, every directory and file stays.  Otherwise exactly
    the temp directory and what lies below it are gone, and everything
    else stays. *)
Theorem Destroy_removes_only_temp_directory :
  forall (s_c s_n : Schedule) (qb : QuorumBuilder) (w : World),
    let e := w_env w in
    let e' := w_env (final (Destroy s_c s_n qb w)) in
    (tmpDir qb = "" \/ e_faults e (CallRemoveAll (tmpDir qb)) <> None ->
     e_dirs e' = e_dirs e /\ e_files e' = e_files e) /\
    (tmpDir qb <> "" -> e_faults e (CallRemoveAll (tmpDir qb)) = None ->
     e_dirs e' = filter (fun d => negb (under (tmpDir qb) d)) (e_dirs e) /\
     e_files e' = filter (fun f => negb (under (tmpDir qb) (fst f))) (e_files e)).
Proof.
  intros s_c s_n qb w e e'.
  assert (H : e_dirs e' = e_dirs (snd (os_RemoveAll (tmpDir qb) e)) /\
              e_files e' = e_files (snd (os_RemoveAll (tmpDir qb) e))).
  { subst e'.
    apply (Destroy_keeps s_c s_n qb w
             (fun x => e_dirs x = e_dirs (snd (os_RemoveAll (tmpDir qb) e)) /\
                       e_files x = e_files (snd (os_RemoveAll (tmpDir qb) e)))).
    - intros call x H; exact H.
    - intros c x _ [H1 H2]. destruct (ContainerRemove_fs (ID c) true x) as [D F].
      rewrite D, F. split; assumption.
    - intros n x _ [H1 H2]. destruct (NetworkRemove_fs (n_ID n) x) as [D F].
      rewrite D, F. split; assumption.
    - split; reflexivity. }
  destruct H as [HD HF]. rewrite HD, HF. unfold os_RemoveAll.
  split.
  - intros [Ht|Hf].
    + rewrite Ht. destruct (e_faults e (CallRemoveAll "")); split; reflexivity.
    + destruct (e_faults e (CallRemoveAll (tmpDir qb))); [split; reflexivity|congruence].
  - intros Ht Hf. rewrite Hf.
    destruct (String.eqb_spec (tmpDir qb) ""); [contradiction|]. split; reflexivity.
Qed.

Lemma Destroy_removes_only_temp_directory_witness :
  let e' := w_env (final (Destroy fifo fifo built (shared_host no_faults))) in
  e_dirs e' = ["/tmp/qctl-15000000000"; "/tmp/net100"] /\
  e_files e' = [("/tmp/qctl-15000000000/.key", "key:c0ffee1")].
Proof.
  intros e'.
  apply (proj2 (Destroy_removes_only_temp_directory fifo fifo built
                  (shared_host no_faults))).
  - discriminate.
  - reflexivity.
Defined.

Lemma remove_container_accepted (idx : nat) (c : types_Container) (w : World) r w' :
  remove_container idx c w = Ret r w' ->
  e_faults (w_env w) (CallContainerRemove (ID c) true) = None ->
  find_container (ID c) (w_env w) <> None ->
  r = None.
Proof.
  unfold remove_container. unfold_go. unfold ContainerRemove.
  intros H F Hc. rewrite F in H.
  destruct (find_container (ID c) (w_env w)); [|congruence].
  rewrite andb_false_r in H. inversion H. reflexivity.
Qed.

Lemma remove_network_accepted (idx : nat) (n : types_NetworkResource) (w : World) r w' :
  remove_network idx n w = Ret r w' ->
  e_faults (w_env w) (CallNetworkRemove (n_ID n)) = None ->
  existsb (fun n0 => n_ID n0 =? n_ID n) (e_networks (w_env w)) = true ->
  r = None.
Proof.
  unfold remove_network. unfold_go. unfold NetworkRemove.
  intros H F Hn. rewrite F, Hn in H. inversion H. reflexivity.
Qed.

Lemma accepting_container_step (e0 : Env) (listed : list types_Container) :
  incl listed (e_containers e0) ->
  (forall c, In c listed -> e_faults e0 (CallContainerRemove (ID c) true) = None) ->
  forall hist w idx c,
    accepting_container_pass e0 listed hist (w_env w) ->
    exists r w',
      remove_container idx c w = Ret r w' /\
      accepting_container_pass e0 listed ((c, r) :: hist) (w_env w').
Proof.
  intros Hl Hf hist w idx c [Hp Hacc].
  destruct (remove_container_step e0 hist w idx c Hp) as (r & w' & E & Hp').
  exists r, w'. split; [exact E|]. split; [exact Hp'|].
  cbn [map fst]. intros Hnd Hin.
  apply NoDup_cons_iff in Hnd. destruct Hnd as [Hnew Hnd].
  assert (Hc : In c listed) by (apply Hin; left; reflexivity).
  constructor; [|apply Hacc; [exact Hnd|intros x Hx; apply Hin; right; exact Hx]].
  cbn [snd]. apply (remove_container_accepted idx c w r w' E).
  - destruct Hp as (_ & F & _). rewrite F. apply Hf. exact Hc.
  - destruct Hp as (_ & _ & _ & K). unfold find_container. rewrite K.
    intros Hnone.
    assert (Hhas : has_id (ID c) c = false).
    { apply (find_none _ _ Hnone c).
      apply filter_In. split; [apply Hl; exact Hc|].
      apply negb_true_iff. unfold removed_by.
      destruct (existsb _ hist) eqn:Ex; [|reflexivity].
      apply existsb_exists in Ex. destruct Ex as (h & Hh & Hb).
      apply andb_true_iff in Hb. destruct Hb as [Hid _].
      unfold has_id in Hid. apply String.eqb_eq in Hid.
      exfalso. apply Hnew. apply in_map_iff. exists h. split; [congruence|exact Hh]. }
    unfold has_id in Hhas. rewrite String.eqb_refl in Hhas. discriminate.
Qed.

Lemma accepting_network_step (e0 : Env) (listed : list types_NetworkResource) :
  incl listed (e_networks e0) ->
  (forall n, In n listed -> e_faults e0 (CallNetworkRemove (n_ID n)) = None) ->
  forall hist w idx n,
    accepting_network_pass e0 listed hist (w_env w) ->
    exists r w',
      remove_network idx n w = Ret r w' /\
      accepting_network_pass e0 listed ((n, r) :: hist) (w_env w').
Proof.
  intros Hl Hf hist w idx n [Hp Hacc].
  destruct (remove_network_step e0 hist w idx n Hp) as (r & w' & E & Hp').
  exists r, w'. split; [exact E|]. split; [exact Hp'|].
  cbn [map fst]. intros Hnd Hin.
  apply NoDup_cons_iff in Hnd. destruct Hnd as [Hnew Hnd].
  assert (Hc : In n listed) by (apply Hin; left; reflexivity).
  constructor; [|apply Hacc; [exact Hnd|intros x Hx; apply Hin; right; exact Hx]].
  cbn [snd]. apply (remove_network_accepted idx n w r w' E).
  - destruct Hp as (_ & F & _). rewrite F. apply Hf. exact Hc.
  - destruct Hp as (_ & _ & _ & K). rewrite K.
    apply existsb_exists. exists n. split; [|apply String.eqb_refl].
    apply filter_In. split; [apply Hl; exact Hc|].
    apply negb_true_iff. unfold net_removed_by.
    destruct (existsb _ hist) eqn:Ex; [|reflexivity].
    apply existsb_exists in Ex. destruct Ex as (h & Hh & Hb).
    apply andb_true_iff in Hb. destruct Hb as [Hid _].
    apply String.eqb_eq in Hid.
    exfalso. apply Hnew. apply in_map_iff. exists h. split; [congruence|exact Hh].
Qed.

Lemma accepting_pass_all {X} (id : X -> string) (listed : list X)
  (hist : list (X * error)) :
  NoDup (map id listed) ->
  Permutation (map fst hist) listed ->
  NoDup (map (fun h => id (fst h)) hist) /\ incl (map fst hist) listed.
Proof.
  intros Hnd P. split.
  - rewrite <- (map_map fst id).
    eapply Permutation_NoDup; [|exact Hnd].
    apply Permutation_map. symmetry. exact P.
  - intros x Hx. eapply Permutation_in; [exact P|exact Hx].
Qed.

(** X11.  On an engine that answers the two listings and accepts the
    removal of every labeled container and network, each with an id of its
    own, [Destroy] returns [nil] for every schedule, and no labeled
    container and no labeled network is left. *)
Theorem Destroy_succeeds_when_engine_accepts :
  forall (s_c s_n : Schedule) (qb : QuorumBuilder) (w : World),
    let f := label_filters (commonLabels qb) in
    let e := w_env w in
    e_faults e (CallContainerList f true) = None ->
    e_faults e (CallNetworkList f) = None ->
    (forall c, In c (labeled_containers qb e) ->
               e_faults e (CallContainerRemove (ID c) true) = None) ->
    (forall n, In n (labeled_networks qb e) ->
               e_faults e (CallNetworkRemove (n_ID n)) = None) ->
    NoDup (map ID (labeled_containers qb e)) ->
    NoDup (map n_ID (labeled_networks qb e)) ->
    exists w',
      Destroy s_c s_n qb w = Ret None w' /\
      labeled_containers qb (w_env w') = [] /\
      labeled_networks qb (w_env w') = [].
Proof.
  intros s_c s_n qb w f e FL FN FC FNr NDc NDn. subst e.
  unfold Destroy. unfold_go.
  destruct (os_RemoveAll (tmpDir qb) (w_env w)) as [r0 e1] eqn:E1. go_red.
  destruct (os_RemoveAll_effect _ _ _ _ E1) as (C1 & F1 & K1 & N1).
  unfold ContainerList. go_red. rewrite F1. fold f. rewrite FL. go_red.
  subst f. rewrite (listed_containers qb e1).
  set (f := label_filters (commonLabels qb)) in *.
  assert (L1 : labeled_containers qb e1 = labeled_containers qb (w_env w))
    by (unfold labeled_containers; rewrite K1; reflexivity).
  rewrite L1.
  set (e2 := called (CallContainerList f true) e1).
  set (w2 := mkWorld _ (w_goroutines w) e2).
  set (listed := labeled_containers qb (w_env w)) in *.
  assert (Hl : incl listed (e_containers e2)).
  { intros c Hc. simpl. rewrite K1. unfold listed, labeled_containers in Hc.
    apply filter_In in Hc. exact (proj1 Hc). }
  assert (Hf : forall c, In c listed -> e_faults e2 (CallContainerRemove (ID c) true) = None).
  { intros c Hc. simpl. rewrite F1. apply FC. exact Hc. }
  destruct (doWorkInParallel_history remove_container
              (accepting_container_pass e2 listed)
              (accepting_container_step e2 listed Hl Hf) s_c "removing containers"
              listed w2)
    as (hc & rc & w3 & E3 & [I3 A3] & P3 & _ & R3 & _).
  { split; [apply container_pass_start|]. intros _ _. constructor. }
  rewrite E3.
  destruct (accepting_pass_all ID listed hc NDc P3) as [ND3 In3].
  pose proof (A3 ND3 In3) as All3.
  apply R3 in All3. subst rc. go_red.
  assert (Hclean : labeled_containers qb (w_env w3) = []).
  { eapply container_pass_clean; [exact I3| |apply R3; reflexivity].
    change (labeled_containers qb e2) with (labeled_containers qb e1).
    rewrite L1. exact P3. }
  destruct I3 as (C3 & F3 & N3 & K3).
  unfold NetworkList. go_red. rewrite F3. simpl e_faults. rewrite F1.
  fold f. rewrite FN. go_red.
  change (filter (fun n => label_match f (n_Labels n)) (e_networks (w_env w3)))
    with (labeled_networks qb (w_env w3)).
  assert (L3 : labeled_networks qb (w_env w3) = labeled_networks qb (w_env w))
    by (unfold labeled_networks; rewrite N3; simpl; rewrite N1; reflexivity).
  rewrite L3.
  set (e4 := called (CallNetworkList f) (w_env w3)).
  set (w4 := mkWorld (w_log w3) (w_goroutines w3) e4).
  set (nets := labeled_networks qb (w_env w)) in *.
  assert (Hln : incl nets (e_networks e4)).
  { intros n Hn. simpl. rewrite N3. simpl. rewrite N1.
    unfold nets, labeled_networks in Hn. apply filter_In in Hn. exact (proj1 Hn). }
  assert (Hfn : forall n, In n nets -> e_faults e4 (CallNetworkRemove (n_ID n)) = None).
  { intros n Hn. simpl. rewrite F3. simpl. rewrite F1. apply FNr. exact Hn. }
  destruct (doWorkInParallel_history remove_network
              (accepting_network_pass e4 nets)
              (accepting_network_step e4 nets Hln Hfn) s_n "removing network"
              nets w4)
    as (hn & rn & w5 & E5 & [I5 A5] & P5 & _ & R5 & _).
  { split; [apply network_pass_start|]. intros _ _. constructor. }
  rewrite E5.
  destruct (accepting_pass_all n_ID nets hn NDn P5) as [ND5 In5].
  pose proof (A5 ND5 In5) as All5.
  pose proof All5 as All5'. apply R5 in All5'. subst rn. go_red.
  exists w5. split; [reflexivity|]. split.
  - destruct I5 as (_ & _ & K5 & _). unfold labeled_containers. rewrite K5.
    exact Hclean.
  - eapply network_pass_clean; [exact I5| |exact All5].
    change (labeled_networks qb e4) with (labeled_networks qb (w_env w3)).
    rewrite L3. exact P5.
Qed.

Lemma Destroy_succeeds_when_engine_accepts_witness :
  exists w',
    Destroy (mkSchedule [1] [0; 1]) fifo built (shared_host no_faults) = Ret None w' /\
    labeled_containers built (w_env w') = [] /\
    labeled_networks built (w_env w') = [].
Proof.
  apply (Destroy_succeeds_when_engine_accepts (mkSchedule [1] [0; 1]) fifo built
           (shared_host no_faults)).
  - reflexivity.
  - reflexivity.
  - reflexivity.
  - reflexivity.
  - vm_compute. repeat constructor; simpl; intuition discriminate.
  - vm_compute. repeat constructor; simpl; intuition discriminate.
Defined.



(* ------------------------------------------------------------------ *)
(** ** The earlier builder *)

Lemma combine_seq_nth {A} (l : list A) :
  forall start i x,
    nth_error l i = Some x ->
    In (start + i, x) (combine (seq start (length l)) l).
Proof.
  induction l as [|a l IH]; intros start i x H; [destruct i; discriminate|].
  destruct i as [|i]; simpl in *.
  - inversion H; subst. left. f_equal. lia.
  - right. replace (start + S i) with (S start + i) by lia. apply IH. exact H.
Qed.

Lemma indexed_nth {A} (elements : list A) (idx : nat) (el : A) :
  nth_error elements idx = Some el -> In (idx, el) (indexed elements).
Proof. intros H. exact (combine_seq_nth elements 0 idx el H). Qed.

Lemma old_select_without_senders (co : Collaborators)
  (il : OldBuilder.Interleaving) (qb : OldBuilder.QuorumBuilder)
  (containerFn : nat -> QuorumBuilderNode -> M (result Container)) (w : World) :
  OldBuilder.Nodes qb = [] ->
  OldBuilder.startContainers co il qb containerFn w = Hang w.
Proof.
  intros H. unfold OldBuilder.startContainers. rewrite H. reflexivity.
Qed.

(** X13.  With no node declared, the earlier [startContainers] never
    returns: its collecting loop receives before it tests, and nobody
    sends.  It leaves the world as it found it. *)
Theorem old_startContainers_blocks_without_nodes :
  forall (co : Collaborators) (il : OldBuilder.Interleaving)
         (qb : OldBuilder.QuorumBuilder)
         (containerFn : nat -> QuorumBuilderNode -> M (result Container)) (w : World),
    OldBuilder.Nodes qb = [] ->
    OldBuilder.startContainers co il qb containerFn w = Hang w.
Proof.
  intros co il qb containerFn w H. unfold OldBuilder.startContainers.
  rewrite H. reflexivity.
Qed.

Lemma old_startContainers_blocks_without_nodes_witness :
  OldBuilder.startContainers quiet_collaborators eager (old_builder_of 0) ready_made world0
  = Hang world0.
Proof.
  apply (old_startContainers_blocks_without_nodes quiet_collaborators eager
           (old_builder_of 0) ready_made world0).
  reflexivity.
Defined.

(** The range loop gets stuck at a node whose constructor hands out no
    container, if not before. *)
Lemma range_loop_stuck (co : Collaborators) (il : OldBuilder.Interleaving) (total : nat)
  (containerFn : nat -> QuorumBuilderNode -> M (result Container))
  (i : nat) (node : QuorumBuilderNode) :
  (forall w c w', containerFn i node w <> Ret (Ok c) w') ->
  forall items picks pending offered w,
    In (i, node) items ->
    exists p w',
      OldBuilder.range_loop co il total containerFn items picks pending offered w
      = OldBuilder.Stuck p w'.
Proof.
  intros Hbad. induction items as [|[idx n] items IH];
    intros picks pending offered w Hin; [contradiction|].
  cbn [OldBuilder.range_loop].
  destruct (OldBuilder.run_picked co il total (hd [] picks) pending w)
    as [[ms pending1] w1].
  destruct (containerFn idx n w1) as [[c|err] w2|w2] eqn:E; [|eauto|eauto].
  destruct Hin as [Hin|Hin].
  - inversion Hin; subst. exfalso. exact (Hbad _ _ _ E).
  - apply IH. exact Hin.
Qed.

Lemma old_startContainers_stuck (co : Collaborators) (il : OldBuilder.Interleaving)
  (qb : OldBuilder.QuorumBuilder)
  (containerFn : nat -> QuorumBuilderNode -> M (result Container))
  (i : nat) (node : QuorumBuilderNode) (w : World) :
  nth_error (OldBuilder.Nodes qb) i = Some node ->
  (forall w c w', containerFn i node w <> Ret (Ok c) w') ->
  exists w', OldBuilder.startContainers co il qb containerFn w = Hang w'.
Proof.
  intros Hn Hbad. unfold OldBuilder.startContainers.
  destruct (range_loop_stuck co il (length (OldBuilder.Nodes qb)) containerFn i node Hbad
              (indexed (OldBuilder.Nodes qb)) (OldBuilder.between il) [] [] w
              (indexed_nth _ _ _ Hn)) as (p & w' & E).
  rewrite E. eexists. reflexivity.
Qed.

(** X14.  When the constructor of some node hands out no container, because
    it fails or because it blocks, the earlier [startContainers] never
    returns, whatever the other nodes do and however the goroutines are
    interleaved: the range loop itself sends the error on the unbuffered
    channel that only the later collecting loop would receive from. *)
Theorem old_startContainers_blocks_at_failed_constructor :
  forall (co : Collaborators) (il : OldBuilder.Interleaving)
         (qb : OldBuilder.QuorumBuilder)
         (containerFn : nat -> QuorumBuilderNode -> M (result Container))
         (i : nat) (node : QuorumBuilderNode) (w : World),
    nth_error (OldBuilder.Nodes qb) i = Some node ->
    (forall w c w', containerFn i node w <> Ret (Ok c) w') ->
    exists w', OldBuilder.startContainers co il qb containerFn w = Hang w'.
Proof. exact old_startContainers_stuck. Qed.

Lemma old_startContainers_blocks_at_failed_constructor_witness :
  exists w',
    OldBuilder.startContainers quiet_collaborators eager (old_builder_of 3)
      (fun idx node => if (idx =? 1)%nat then ret (Err "no image") else ready_made idx node)
      world0 = Hang w'.
Proof.
  apply (old_startContainers_blocks_at_failed_constructor quiet_collaborators eager
           (old_builder_of 3)
           (fun idx node => if (idx =? 1)%nat then ret (Err "no image")
                            else ready_made idx node)
           1 a_node world0).
  - reflexivity.
  - intros w c w'. discriminate.
Defined.

Lemma old_tx_constructor (qb : OldBuilder.QuorumBuilder) (idx : nat)
  (node : QuorumBuilderNode) (w : World) c w' :
  (err <- OldBuilder.pullImage qb (Image (TxManager node)) ;;
   match err with
   | Some err => ret (Err err)
   | None =>
       tm <- NewTesseraTxManager
               [ ConfigureNodeIndex idx;
                 ConfigureDockerClient;
                 ConfigureNetwork (OldBuilder.dockerNetwork qb);
                 ConfigureDockerImage (Image (TxManager node));
                 ConfigureConfig (Config (TxManager node)) ] ;;
       ret (result_map AsTessera tm)
   end) w <> Ret (Ok c) w'.
Proof.
  unfold bind at 1.
  destruct (OldBuilder.pullImage qb _ w) as [[perr|] w3|w3];
    [unfold ret; discriminate| |discriminate].
  unfold bind at 1.
  pose proof (NewTesseraTxManager_outcome
    [ ConfigureNodeIndex idx;
      ConfigureDockerClient;
      ConfigureNetwork (OldBuilder.dockerNetwork qb);
      ConfigureDockerImage (Image (TxManager node));
      ConfigureConfig (Config (TxManager node)) ] w3) as Hn.
  destruct (NewTesseraTxManager _ w3) as [[tm|terr] w4|w4];
    [contradiction| |discriminate].
  unfold ret. cbn [result_map]. discriminate.
Qed.

Lemma old_Build_stages (co : Collaborators) (il : OldBuilder.Interleaving)
  (qb : OldBuilder.QuorumBuilder) (w : World) :
  OldBuilder.Build co il qb w =
    match OldBuilder.buildDockerNetwork qb w with
    | Ret (qb2, None) w2 =>
        match OldBuilder.startTxManagers co il qb2 w2 with
        | Ret (Some err) w3 => Ret (qb2, Some err) w3
        | Ret None w3 => Ret (qb2, None) w3
        | Hang w3 => Hang w3
        end
    | Ret (qb2, Some err) w2 => Ret (qb2, Some err) w2
    | Hang w2 => Hang w2
    end.
Proof.
  unfold OldBuilder.Build, bind.
  destruct (OldBuilder.buildDockerNetwork qb w) as [[qb2 [err|]] w2|w2];
    try reflexivity.
  destruct (OldBuilder.startTxManagers co il qb2 w2) as [[err|] w3|w3]; reflexivity.
Qed.

(** X15.  The earlier [Build] never succeeds.  When the network cannot be
    created it returns that error; once the network is created it never
    returns, with or without nodes and however the goroutines are
    interleaved. *)
Theorem old_Build_never_succeeds :
  forall (co : Collaborators) (il : OldBuilder.Interleaving)
         (qb : OldBuilder.QuorumBuilder) (w : World),
    match OldBuilder.buildDockerNetwork qb w with
    | Ret (qb2, None) _ => exists w', OldBuilder.Build co il qb w = Hang w'
    | Ret (qb2, Some err) w2 => OldBuilder.Build co il qb w = Ret (qb2, Some err) w2
    | Hang w2 => OldBuilder.Build co il qb w = Hang w2
    end.
Proof.
  intros co il qb w. rewrite old_Build_stages.
  destruct (OldBuilder.buildDockerNetwork qb w) as [[qb2 [err|]] w2|w2];
    [reflexivity| |reflexivity].
  unfold OldBuilder.startTxManagers.
  destruct (OldBuilder.Nodes qb2) as [|node rest] eqn:En.
  - rewrite (old_select_without_senders co il qb2 _ w2 En).
    eexists; reflexivity.
  - match goal with
    | |- context [OldBuilder.startContainers co il qb2 ?fn w2] =>
        destruct (old_startContainers_stuck co il qb2 fn 0 node w2) as (w' & E)
    end.
    + rewrite En. reflexivity.
    + intros w0 c w'. apply old_tx_constructor.
    + rewrite E. eexists; reflexivity.
Qed.

(** The earlier fan-out when every goroutine offers a message. *)
Section OldCollects.

Variable co : Collaborators.
Variable il : OldBuilder.Interleaving.
Variable total : nat.
Variable containerFn : nat -> QuorumBuilderNode -> M (result Container).
Variable Q : Msg -> Prop.

Hypothesis constructs :
  forall idx node w, exists c w', containerFn idx node w = Ret (Ok c) w'.

Hypothesis offers :
  forall g w, exists m w', OldBuilder.goroutine co il total g w = (Some m, w') /\ Q m.

Lemma run_picked_offers (picks : list nat) :
  forall pending w, exists ms p w',
    OldBuilder.run_picked co il total picks pending w = (ms, p, w') /\
    length ms + length p = length pending /\
    Forall Q ms.
Proof.
  induction picks as [|k picks IH]; intros pending w; cbn [OldBuilder.run_picked].
  - exists [], pending, w. repeat split. constructor.
  - destruct (pluck (k mod length pending) pending) as [[g pending']|] eqn:E.
    + destruct (offers g w) as (m & w1 & Eg & Hm). rewrite Eg.
      destruct (IH pending' w1) as (ms & p & w2 & E2 & L2 & F2). rewrite E2.
      exists (m :: ms), p, w2. split; [reflexivity|]. split; [|constructor; assumption].
      apply pluck_perm, Permutation_length in E. simpl in *. lia.
    + exists [], pending, w. repeat split. constructor.
Qed.

Lemma run_all_offers (gs : list (nat * Container)) :
  forall w, exists ms w',
    OldBuilder.run_all co il total gs w = (ms, w') /\
    length ms = length gs /\
    Forall Q ms.
Proof.
  induction gs as [|g gs IH]; intros w; cbn [OldBuilder.run_all].
  - exists [], w. repeat split. constructor.
  - destruct (offers g w) as (m & w1 & Eg & Hm). rewrite Eg.
    destruct (IH w1) as (ms & w2 & E2 & L2 & F2). rewrite E2.
    exists (m :: ms), w2. split; [reflexivity|]. split; [simpl; lia|].
    constructor; assumption.
Qed.

Lemma range_loop_over (items : list (nat * QuorumBuilderNode)) :
  forall picks pending offered w,
    Forall Q offered ->
    exists p o w',
      OldBuilder.range_loop co il total containerFn items picks pending offered w
      = OldBuilder.Over p o w' /\
      length p + length o = length pending + length offered + length items /\
      Forall Q o.
Proof.
  induction items as [|[idx node] items IH]; intros picks pending offered w F;
    cbn [OldBuilder.range_loop].
  - exists pending, offered, w. split; [reflexivity|]. split; [simpl; lia|exact F].
  - destruct (run_picked_offers (hd [] picks) pending w) as (ms & p1 & w1 & E1 & L1 & F1).
    rewrite E1.
    destruct (constructs idx node w1) as (c & w2 & E2). rewrite E2.
    destruct (IH (tl picks) (p1 ++ [(idx, c)])%list (offered ++ ms)%list
                 (mkWorld (w_log w2) (1 + w_goroutines w2) (w_env w2)))
      as (p & o & w' & E & L & F').
    { apply Forall_app. split; assumption. }
    exists p, o, w'. split; [exact E|]. split; [|exact F'].
    rewrite L, !length_app. simpl. lia.
Qed.

End OldCollects.

Lemma errs_of_done (ms : list Msg) :
  Forall (fun m => m = OnDone) ms -> errs_of ms = [].
Proof.
  unfold errs_of. induction 1 as [|m ms Hm _ IH]; simpl; [reflexivity|].
  subst m. exact IH.
Qed.

(** X16.  When every constructor hands out a container and the [Start] of
    every container returns, the earlier [startContainers] over at least
    one node returns, however the goroutines are interleaved; and it
    returns [nil] when no [Start] can answer an error. *)
Theorem old_startContainers_returns :
  forall (co : Collaborators) (il : OldBuilder.Interleaving)
         (qb : OldBuilder.QuorumBuilder)
         (containerFn : nat -> QuorumBuilderNode -> M (result Container)) (w : World),
    OldBuilder.Nodes qb <> [] ->
    (forall idx node w, exists c w', containerFn idx node w = Ret (Ok c) w') ->
    (forall c w, exists r w', Container_Start co c w = Ret r w') ->
    exists r w',
      OldBuilder.startContainers co il qb containerFn w = Ret r w' /\
      ((forall c w r w', Container_Start co c w = Ret r w' -> r = None) -> r = None).
Proof.
  intros co il qb containerFn w Hne Hc Hs.
  set (total := length (OldBuilder.Nodes qb)).
  set (nil_starts := forall c w r w', Container_Start co c w = Ret r w' -> r = None).
  set (Q := fun m : Msg => nil_starts -> m = OnDone).
  assert (Hg : forall g w, exists m w',
              OldBuilder.goroutine co il total g w = (Some m, w') /\ Q m).
  { intros g w0. unfold OldBuilder.goroutine.
    destruct (Hs (snd g) w0) as (r & w1 & E). rewrite E.
    destruct r as [err|]; eexists; eexists; (split; [reflexivity|]); intros Hnil.
    - specialize (Hnil _ _ _ _ E). discriminate.
    - reflexivity. }
  unfold OldBuilder.startContainers. fold total.
  destruct (range_loop_over co il total containerFn Q Hc Hg
              (indexed (OldBuilder.Nodes qb)) (OldBuilder.between il) [] [] w
              (Forall_nil Q)) as (p & o & w1 & E & L & F).
  rewrite E.
  destruct (run_all_offers co il total Q Hg (shuffle (OldBuilder.after il) p) w1)
    as (ms & w2 & E2 & L2 & F2).
  rewrite E2.
  set (arrivals := shuffle (OldBuilder.received il) (o ++ ms)%list).
  assert (Parr : Permutation arrivals (o ++ ms)%list) by apply shuffle_perm.
  assert (Larr : length arrivals = total).
  { rewrite (Permutation_length Parr), length_app, L2.
    rewrite (Permutation_length (shuffle_perm _ p)).
    simpl in L. rewrite indexed_length in L. fold total in L. lia. }
  assert (Ht : total <> 0).
  { unfold total. destruct (OldBuilder.Nodes qb); [congruence|discriminate]. }
  rewrite (select_loop_all arrivals total 0 []);
    [|intros En; rewrite En in Larr; simpl in Larr; lia|simpl; lia].
  cbn [app Nat.add].
  assert (Hq : nil_starts -> errs_of arrivals = []).
  { intros Hnil. apply errs_of_done.
    assert (Fa : Forall Q arrivals).
    { rewrite Forall_forall. intros m Hm.
      apply (Permutation_in _ Parr) in Hm. apply in_app_or in Hm.
      rewrite Forall_forall in F, F2. destruct Hm; auto. }
    rewrite Forall_forall in *. intros m Hm. exact (Fa m Hm Hnil). }
  destruct (errs_of arrivals) as [|e0 errs] eqn:Ee; cbn [length Nat.ltb Nat.leb].
  - exists None, w2. split; [reflexivity|]. intros _. reflexivity.
  - eexists; exists w2. split; [reflexivity|]. intros Hnil.
    specialize (Hq Hnil). discriminate.
Qed.

Lemma old_startContainers_returns_witness :
  exists w',
    OldBuilder.startContainers quiet_collaborators eager (old_builder_of 3) ready_made world0
    = Ret None w'.
Proof.
  destruct (old_startContainers_returns quiet_collaborators eager (old_builder_of 3)
              ready_made world0) as (r & w' & E & Hr).
  - discriminate.
  - intros idx node w. eexists; eexists; reflexivity.
  - intros [t|q] w; eexists; eexists; reflexivity.
  - exists w'. rewrite E. f_equal. apply Hr.
    intros [t|q] w r0 w0 H; inversion H; reflexivity.
Defined.



(** Two turns of one call alone are the earlier [pullImage]. *)
Lemma old_pullImage_turns_alone (qb : OldBuilder.QuorumBuilder) (image : string)
  (w : World) :
  exists r w',
    OldBuilder.pullImage qb image w = Ret r w' /\
    OldBuilder.overlapping_pulls image [0; 0] w = (Returned r, AtImageList, w').
Proof.
  unfold OldBuilder.pullImage, OldBuilder.overlapping_pulls. unfold_go.
  cbn [fold_left Nat.even]. unfold OldBuilder.pullImage_step.
  destruct (ImageList [("reference", image)] (w_env w)) as [[images err] e1].
  cbn [w_env w_log w_goroutines].
  destruct ((length images =? 0)%nat || is_err err);
    cbn [w_env w_log w_goroutines].
  - destruct (ImagePull image e1) as [[perr|] e2]; eexists; eexists; split; reflexivity.
  - eexists; eexists; split; reflexivity.
Qed.


